(** * Enterprise file management backend: upload, retention, audit, login

    A shallow embedding of [attached_assets/app_1749787282845.py]: the
    checksum routine, the upload route, the retention sweep, the audit
    recorder, the role guard and the login route, with the properties the
    specification states about them. *)

From Stdlib Require Import ZArith List String Ascii Bool Lia.
From Stdlib.Strings Require Import Byte.
From stdpp Require Import base option list gmap strings pretty.
From Equations Require Import Equations.
Import ListNotations.

Local Open Scope string_scope.

(** ** Python string operations used by the routes (ASCII strings) *)

Module PyStr.

Definition chars (s : string) : list ascii := list_ascii_of_string s.
Definition of_chars (l : list ascii) : string := string_of_list_ascii l.

Definition is_slash (c : ascii) : bool := Ascii.eqb c "/"%char.
Definition is_dot (c : ascii) : bool := Ascii.eqb c "."%char.

(** ['.' in s] *)
Definition contains_dot (s : string) : bool := existsb is_dot (chars s).

(** [c.lower()] on one ASCII character. *)
Definition lower_ascii (c : ascii) : ascii :=
  let n := nat_of_ascii c in
  if (65 <=? n)%nat && (n <=? 90)%nat then ascii_of_nat (n + 32) else c.

(** [s.lower()] *)
Definition lower (s : string) : string := of_chars (map lower_ascii (chars s)).

(** The scan of [s.rsplit('.', 1)], run on the reversed characters:
    [suffix] collects (reversed) what follows the last dot. *)
Fixpoint rsplit_scan (rev_s suffix : list ascii) : option (list ascii * list ascii) :=
  match rev_s with
  | [] => None
  | c :: rest =>
      if is_dot c then Some (rev rest, suffix) else rsplit_scan rest (c :: suffix)
  end.

(** [s.rsplit('.', 1)]: [Some (head, tail)] when [s] has a dot, the list
    [[s]] of length one (here [None]) otherwise. *)
Definition rsplit_dot (s : string) : option (string * string) :=
  match rsplit_scan (rev (chars s)) [] with
  | Some (h, t) => Some (of_chars h, of_chars t)
  | None => None
  end.

Fixpoint lstrip_slash (l : list ascii) : list ascii :=
  match l with
  | c :: rest => if is_slash c then lstrip_slash rest else l
  | [] => []
  end.

(** [s.strip('/')] *)
Definition strip_slash (s : string) : string :=
  of_chars (rev (lstrip_slash (rev (lstrip_slash (chars s))))).

Definition starts_with_slash (s : string) : bool :=
  match s with String c _ => is_slash c | EmptyString => false end.

Definition ends_with_slash (s : string) : bool :=
  match rev (chars s) with c :: _ => is_slash c | [] => false end.

(** [os.path.join(a, b)] of posixpath, for two components. *)
Definition path_join (a b : string) : string :=
  if starts_with_slash b then b
  else if (String.eqb a "") || ends_with_slash a then a ++ b
  else a ++ "/" ++ b.

(** [s.split(sep)] for a separator of one character. *)
Fixpoint split_aux (sep : ascii) (l cur : list ascii) : list string :=
  match l with
  | [] => [of_chars (rev cur)]
  | c :: rest =>
      if Ascii.eqb c sep then of_chars (rev cur) :: split_aux sep rest []
      else split_aux sep rest (c :: cur)
  end.

Definition split (sep : ascii) (s : string) : list string := split_aux sep (chars s) [].

End PyStr.

(** ** SHA-256 (FIPS 180-4) on byte strings, as computed by [hashlib.sha256] *)

Module SHA256.
Local Open Scope Z_scope.

Definition w32 (x : Z) : Z := x mod 2 ^ 32.
Definition add32 (x y : Z) : Z := w32 (x + y).
Definition rotr (n x : Z) : Z := Z.lor (Z.shiftr x n) (w32 (Z.shiftl x (32 - n))).
Definition shr (n x : Z) : Z := Z.shiftr x n.

Definition Ch (x y z : Z) : Z :=
  Z.lxor (Z.land x y) (Z.land (Z.lxor x 0xffffffff) z).
Definition Maj (x y z : Z) : Z :=
  Z.lxor (Z.lxor (Z.land x y) (Z.land x z)) (Z.land y z).
Definition Sigma0 (x : Z) : Z := Z.lxor (Z.lxor (rotr 2 x) (rotr 13 x)) (rotr 22 x).
Definition Sigma1 (x : Z) : Z := Z.lxor (Z.lxor (rotr 6 x) (rotr 11 x)) (rotr 25 x).
Definition sigma0 (x : Z) : Z := Z.lxor (Z.lxor (rotr 7 x) (rotr 18 x)) (shr 3 x).
Definition sigma1 (x : Z) : Z := Z.lxor (Z.lxor (rotr 17 x) (rotr 19 x)) (shr 10 x).

(** The constants of the standard are not tabulated but computed as the
    standard defines them, from the first 64 primes. *)
Definition is_prime (n : Z) : bool :=
  forallb (fun d => negb (n mod Z.of_nat d =? 0)) (seq 2 (Z.to_nat n - 2)).

Definition primes : list Z :=
  List.filter is_prime (map Z.of_nat (seq 2 310)).

(** Integer cube root by bisection on [lo, hi]. *)
Fixpoint icbrt_go (fuel : nat) (lo hi n : Z) : Z :=
  match fuel with
  | O => lo
  | S fuel' =>
      if hi <=? lo then lo
      else
        let m := (lo + hi + 1) / 2 in
        if m * m * m <=? n then icbrt_go fuel' m hi n else icbrt_go fuel' lo (m - 1) n
  end.

Definition icbrt (n : Z) : Z := icbrt_go 64 0 (2 ^ 40) n.

(** First 32 bits of the fractional parts of the cube roots of the first
    64 primes. *)
Definition K : list Z :=
  map (fun p => w32 (icbrt (p * 2 ^ 96))) primes.

(** First 32 bits of the fractional parts of the square roots of the first
    8 primes. *)
Definition H0 : list Z :=
  map (fun p => w32 (Z.sqrt (p * 2 ^ 64))) (firstn 8 primes).

Definition byteZ (b : byte) : Z := Z.of_N (Byte.to_N b).

(** Big-endian bytes of [x], [n] of them. *)
Fixpoint be_bytes (n : nat) (x : Z) : list Z :=
  match n with
  | O => []
  | S n' => (Z.shiftr x (8 * Z.of_nat n')) mod 256 :: be_bytes n' x
  end.

(** Padding: a [0x80] byte, zero bytes up to 56 modulo 64, then the bit
    length on 8 bytes. *)
Definition pad (msg : list Z) : list Z :=
  let len := Z.of_nat (length msg) in
  let zeros := Z.to_nat ((55 - len) mod 64) in
  msg ++ [0x80] ++ repeat 0 zeros ++ be_bytes 8 (8 * len).

Fixpoint words_of (n : nat) (bs : list Z) : list Z :=
  match n, bs with
  | S n', b0 :: b1 :: b2 :: b3 :: rest =>
      (b0 * 2 ^ 24 + b1 * 2 ^ 16 + b2 * 2 ^ 8 + b3) :: words_of n' rest
  | _, _ => []
  end.

Definition wd (l : list Z) (i : nat) : Z := nth i l 0.

(** Message schedule: 16 block words extended to 64. *)
Fixpoint extend (n : nat) (W : list Z) : list Z :=
  match n with
  | O => W
  | S n' =>
      let t := length W in
      let w := add32 (add32 (sigma1 (wd W (t - 2))) (wd W (t - 7)))
                     (add32 (sigma0 (wd W (t - 15))) (wd W (t - 16))) in
      extend n' (W ++ [w])
  end.

Definition round (st : list Z) (kw : Z * Z) : list Z :=
  let '(k, w) := kw in
  let a := wd st 0 in let b := wd st 1 in let c := wd st 2 in let d := wd st 3 in
  let e := wd st 4 in let f := wd st 5 in let g := wd st 6 in let h := wd st 7 in
  let T1 := add32 (add32 (add32 h (Sigma1 e)) (add32 (Ch e f g) k)) w in
  let T2 := add32 (Sigma0 a) (Maj a b c) in
  [add32 T1 T2; a; b; c; add32 d T1; e; f; g].

Definition zip_add (x y : list Z) : list Z :=
  map (fun p => add32 (fst p) (snd p)) (combine x y).

Definition compress (H : list Z) (block : list Z) : list Z :=
  let W := extend 48 (words_of 16 block) in
  zip_add H (fold_left round (combine K W) H).

(** Folding [compress] over the 64-byte blocks of the padded message. *)
Fixpoint blocks (n : nat) (H : list Z) (bs : list Z) : list Z :=
  match n with
  | O => H
  | S n' => blocks n' (compress H (firstn 64 bs)) (skipn 64 bs)
  end.

Definition digest_words (msg : list byte) : list Z :=
  let p := pad (map byteZ msg) in
  blocks (length p / 64) H0 p.

Definition hex_digit (d : Z) : ascii :=
  nth (Z.to_nat d) (list_ascii_of_string "0123456789abcdef") "0"%char.

(** The 8 hexadecimal digits of a 32-bit word, most significant first. *)
Definition hex_word (x : Z) : list ascii :=
  map (fun i => hex_digit ((Z.shiftr x (4 * Z.of_nat i)) mod 16)) [7; 6; 5; 4; 3; 2; 1; 0]%nat.

(** The 8 words of the state, rendered in order. *)
Definition hex_of_words (ws : list Z) : list ascii :=
  flat_map (fun i => hex_word (wd ws i)) [0; 1; 2; 3; 4; 5; 6; 7]%nat.

(** [hashlib.sha256(msg).hexdigest()] *)
Definition hexdigest (msg : list byte) : string :=
  string_of_list_ascii (hex_of_words (digest_words msg)).

End SHA256.

Arguments SHA256.primes : simpl never.
Arguments SHA256.K : simpl never.
Arguments SHA256.H0 : simpl never.
Arguments SHA256.digest_words : simpl never.
Arguments SHA256.hexdigest : simpl never.

Definition bytes_of_string (s : string) : list byte := list_byte_of_string s.

(** ** Data model: the columns of the ORM classes that the routes touch *)

(** Naive UTC timestamps, in seconds. *)
Definition datetime := Z.

Definition seconds_per_day : Z := 86400.
Definition seconds_per_minute : Z := 60.

(** JSON values of the [db.JSON] columns and of the responses. *)
#[local] Unset Elimination Schemes.
Inductive json :=
| JStr (s : string)
| JInt (z : Z)
| JList (l : list json)
| JObj (fields : list (string * json)).
#[local] Set Elimination Schemes.

Module User.
Record t := mk {
  id : string;
  organization_id : string;
  username : string;
  password_hash : string;
  display_name : string;
  role : string;
  status : string;
  two_factor_secret : option string;
  two_factor_enabled : bool;
  failed_login_attempts : Z;
  locked_until : option datetime;
  last_login : option datetime
}.
End User.

Module FileMetadata.
Record t := mk {
  id : string;
  organization_id : string;
  name : string;
  original_name : string;
  file_path : string;
  file_type : string;
  mime_type : string;
  size : Z;
  checksum : string;
  folder_path : string;
  classification : string;
  category : string;
  tags : list string;
  retention_until : option datetime;
  legal_hold : option bool;
  created_by_id : string
}.
End FileMetadata.

Module FilePermission.
Record t := mk {
  file_id : string;
  user_id : option string;
  department : option string;
  role : option string;
  can_read : bool;
  can_write : bool;
  can_delete : bool;
  can_share : bool;
  can_admin : bool;
  granted_by_id : string;
  expires_at : option datetime
}.
End FilePermission.

Module AuditLog.
Record t := mk {
  organization_id : option string;
  user_id : option string;
  event_type : string;
  resource_type : option string;
  resource_id : option string;
  action : string;
  details : list (string * json);
  ip_address : string;
  user_agent : option string;
  session_id : option string;
  compliance_relevant : bool;
  timestamp : datetime
}.
End AuditLog.

(** The committed tables. *)
Record Database := mkDatabase {
  users : list User.t;
  file_metadata : list FileMetadata.t;
  file_permissions : list FilePermission.t;
  audit_logs : list AuditLog.t
}.

(** The unit of work of [db.session]: what the next commit will flush. *)
Inductive SessOp :=
| AddFile (f : FileMetadata.t)
| AddPermission (p : FilePermission.t)
| AddAudit (a : AuditLog.t)
| DeleteFile (file_id : string)
| DirtyUser (u : User.t).

(** A document sent to the search index. *)
Record EsDoc := mkEsDoc {
  es_index_name : string;
  es_body : list (string * json)
}.

Inductive LogLevel := INFO | WARNING | ERROR.

Inductive exn :=
| OSError
| FileNotFoundError
| DatabaseError
| IntegrityError
| SearchIndexError
| BrokerError
| KeyError
| AttributeError
| RuntimeError.

(** [str(e)], up to the detail of the message. *)
Definition exn_str (e : exn) : string :=
  match e with
  | OSError => "OSError"
  | FileNotFoundError => "FileNotFoundError"
  | DatabaseError => "DatabaseError"
  | IntegrityError => "IntegrityError"
  | SearchIndexError => "SearchIndexError"
  | BrokerError => "BrokerError"
  | KeyError => "KeyError"
  | AttributeError => "AttributeError"
  | RuntimeError => "RuntimeError"
  end.

(** An uploaded part of the multipart request ([werkzeug] [FileStorage]). *)
Record FileStorage := mkFileStorage {
  filename : string;
  stream : list byte
}.

(** The submitted [LoginForm]; [validate_on_submit] is the verdict of the
    form library on the request. *)
Record LoginForm := mkLoginForm {
  validate_on_submit : bool;
  username : string;
  password : string;
  totp_code : string;
  remember_me : bool
}.

(** The parts of the upload request that the route reads. *)
Record UploadRequest := mkUploadRequest {
  request_files : gmap string (list FileStorage);
  request_form : gmap string string
}.

Inductive Response :=
| Jsonify (status : Z) (body : json)
| Redirect (endpoint : string)
| RenderTemplate (template : string).

(** Everything a request can read or change.  [faults] is the schedule of
    the environment: each fallible external call (disk, database commit,
    search index, task broker) consumes one entry, and [true] makes that
    call raise; an exhausted schedule means no further failure. *)
Record World := mkWorld {
  fs : gmap string (list byte);
  dirs : gset string;
  db : Database;
  pending : list SessOp;
  session : gmap string string;
  es_docs : list EsDoc;
  tasks : list string;
  logs : list (LogLevel * string);
  flashed : list (string * string);
  faults : list bool;
  uuid_ctr : nat
}.

Definition set_fs (x : gmap string (list byte)) (w : World) : World :=
  mkWorld x (dirs w) (db w) (pending w) (session w) (es_docs w) (tasks w) (logs w)
          (flashed w) (faults w) (uuid_ctr w).
Definition set_dirs (x : gset string) (w : World) : World :=
  mkWorld (fs w) x (db w) (pending w) (session w) (es_docs w) (tasks w) (logs w)
          (flashed w) (faults w) (uuid_ctr w).
Definition set_db (x : Database) (w : World) : World :=
  mkWorld (fs w) (dirs w) x (pending w) (session w) (es_docs w) (tasks w) (logs w)
          (flashed w) (faults w) (uuid_ctr w).
Definition set_pending (x : list SessOp) (w : World) : World :=
  mkWorld (fs w) (dirs w) (db w) x (session w) (es_docs w) (tasks w) (logs w)
          (flashed w) (faults w) (uuid_ctr w).
Definition set_session (x : gmap string string) (w : World) : World :=
  mkWorld (fs w) (dirs w) (db w) (pending w) x (es_docs w) (tasks w) (logs w)
          (flashed w) (faults w) (uuid_ctr w).
Definition set_es_docs (x : list EsDoc) (w : World) : World :=
  mkWorld (fs w) (dirs w) (db w) (pending w) (session w) x (tasks w) (logs w)
          (flashed w) (faults w) (uuid_ctr w).
Definition set_tasks (x : list string) (w : World) : World :=
  mkWorld (fs w) (dirs w) (db w) (pending w) (session w) (es_docs w) x (logs w)
          (flashed w) (faults w) (uuid_ctr w).
Definition set_logs (x : list (LogLevel * string)) (w : World) : World :=
  mkWorld (fs w) (dirs w) (db w) (pending w) (session w) (es_docs w) (tasks w) x
          (flashed w) (faults w) (uuid_ctr w).
Definition set_flashed (x : list (string * string)) (w : World) : World :=
  mkWorld (fs w) (dirs w) (db w) (pending w) (session w) (es_docs w) (tasks w) (logs w)
          x (faults w) (uuid_ctr w).
Definition set_faults (x : list bool) (w : World) : World :=
  mkWorld (fs w) (dirs w) (db w) (pending w) (session w) (es_docs w) (tasks w) (logs w)
          (flashed w) x (uuid_ctr w).
Definition set_uuid_ctr (x : nat) (w : World) : World :=
  mkWorld (fs w) (dirs w) (db w) (pending w) (session w) (es_docs w) (tasks w) (logs w)
          (flashed w) (faults w) x.

(** ** Python control flow: state plus exceptions *)

Inductive Result (A : Type) :=
| Ok (a : A)
| Raise (e : exn).
Arguments Ok {A} a.
Arguments Raise {A} e.

Definition M (A : Type) : Type := World -> Result A * World.

Definition ret {A} (a : A) : M A := fun w => (Ok a, w).
Definition raise {A} (e : exn) : M A := fun w => (Raise e, w).
Definition bind {A B} (m : M A) (k : A -> M B) : M B :=
  fun w => match m w with
           | (Ok a, w') => k a w'
           | (Raise e, w') => (Raise e, w')
           end.

(** [try: m except Exception as e: h e] *)
Definition try_except {A} (m : M A) (h : exn -> M A) : M A :=
  fun w => match m w with
           | (Ok a, w') => (Ok a, w')
           | (Raise e, w') => h e w'
           end.

Definition get : M World := fun w => (Ok w, w).
Definition modify (f : World -> World) : M unit := fun w => (Ok tt, f w).

Declare Scope py_scope.
Delimit Scope py_scope with py.
Notation "x <- m ;; k" := (bind m (fun x => k))
  (at level 100, m at next level, right associativity) : py_scope.
Notation "m ;; k" := (bind m (fun _ => k))
  (at level 100, right associativity) : py_scope.
Local Open Scope py_scope.

(** One fallible external call: consumes the next entry of the schedule. *)
Definition fallible (e : exn) : M unit :=
  fun w => match faults w with
           | true :: rest => (Raise e, set_faults rest w)
           | false :: rest => (Ok tt, set_faults rest w)
           | [] => (Ok tt, w)
           end.

Definition logger (lvl : LogLevel) (msg : string) : M unit :=
  modify (fun w => set_logs (logs w ++ [(lvl, msg)]) w).

(** ** The relational store behind [db.session] *)

Definition has_file_id (fid : string) (d : Database) : bool :=
  existsb (fun f => String.eqb (FileMetadata.id f) fid) (file_metadata d).

Definition replace_user (u : User.t) (l : list User.t) : list User.t :=
  map (fun v => if String.eqb (User.id v) (User.id u) then u else v) l.

(** One statement of a flush.  [None] is a constraint violation: a
    duplicate primary key in [file_metadata], or a NULL in the
    [nullable=False] column [audit_logs.organization_id].  Deleting a file
    cascades to its permissions ([cascade='all, delete-orphan']). *)
Definition flush_op (d : Database) (op : SessOp) : option Database :=
  match op with
  | AddFile f =>
      if has_file_id (FileMetadata.id f) d then None
      else Some (mkDatabase (users d) (file_metadata d ++ [f]) (file_permissions d) (audit_logs d))
  | AddPermission p =>
      Some (mkDatabase (users d) (file_metadata d) (file_permissions d ++ [p]) (audit_logs d))
  | AddAudit a =>
      match AuditLog.organization_id a with
      | None => None
      | Some _ =>
          Some (mkDatabase (users d) (file_metadata d) (file_permissions d) (audit_logs d ++ [a]))
      end
  | DeleteFile fid =>
      Some (mkDatabase (users d)
              (List.filter (fun f => negb (String.eqb (FileMetadata.id f) fid)) (file_metadata d))
              (List.filter (fun p => negb (String.eqb (FilePermission.file_id p) fid))
                      (file_permissions d))
              (audit_logs d))
  | DirtyUser u =>
      Some (mkDatabase (replace_user u (users d)) (file_metadata d) (file_permissions d)
              (audit_logs d))
  end.

Fixpoint flush (ops : list SessOp) (d : Database) : option Database :=
  match ops with
  | [] => Some d
  | op :: rest =>
      match flush_op d op with
      | Some d' => flush rest d'
      | None => None
      end
  end.

(** [db.session.add(obj)], [db.session.delete(obj)] and attribute writes
    on a loaded object only extend the unit of work. *)
Definition session_do (op : SessOp) : M unit :=
  modify (fun w => set_pending (pending w ++ [op]) w).

(** [db.session.commit()]: the whole unit of work is applied, or the
    commit raises, the unit of work is lost and the committed tables stay
    as they were.  The source never calls [rollback()]; a session that has
    raised is taken here to accept further work, where SQLAlchemy refuses
    it until a rollback.  What is proved of a run in which a commit raises
    is about a request that ends with it, about a call that swallows it and
    returns, or about rows and artifacts that are kept: a session that
    refuses further work removes nothing more. *)
Definition commit : M unit :=
  fun w =>
    match fallible DatabaseError w with
    | (Raise e, w') => (Raise e, set_pending [] w')
    | (Ok _, w') =>
        match flush (pending w') (db w') with
        | Some d => (Ok tt, set_pending [] (set_db d w'))
        | None => (Raise IntegrityError, set_pending [] w')
        end
    end.

(** ** Checksum service *)

(** A [hashlib] hash object, by its documented contract: feeding chunks
    with [update] is the same as feeding their concatenation. *)
Record Hasher := mkHasher { absorbed : list byte }.

Definition sha256_new : Hasher := mkHasher [].
Definition sha256_update (h : Hasher) (chunk : list byte) : Hasher :=
  mkHasher (absorbed h ++ chunk).
Definition sha256_hexdigest (h : Hasher) : string := SHA256.hexdigest (absorbed h).

(** [f.read(n)] on an open binary file: the next [n] bytes at most, and
    the rest of the file. *)
Definition file_read (n : nat) (f : list byte) : list byte * list byte :=
  (take n f, drop n f).

(** Keeps the equation of a scrutinee for the termination proof. *)
Definition inspect {A : Type} (x : A) : {y : A | x = y} := exist _ x eq_refl.

(** [for byte_block in iter(lambda: f.read(4096), b""): h.update(byte_block)] *)
Equations hash_blocks (h : Hasher) (f : list byte) : Hasher by wf (length f) lt :=
  hash_blocks h f with inspect (fst (file_read 4096 f)) := {
    | exist _ [] _ => h
    | exist _ (b :: bl) E =>
        hash_blocks (sha256_update h (b :: bl)) (snd (file_read 4096 f)) }.
Next Obligation.
  unfold file_read in E. simpl fst in E.
  destruct f as [|y f]; [discriminate E|].
  simpl. pose proof (length_drop f 4095). lia.
Qed.

(** [FileMetadata.calculate_checksum] on the contents of an opened file. *)
Definition checksum_of (content : list byte) : string :=
  sha256_hexdigest (hash_blocks sha256_new content).

Arguments checksum_of : simpl never.

(** [calculate_checksum(file_path)]: [open] raises when the file is
    missing, and reading may fail. *)
Definition calculate_checksum (file_path : string) : M string :=
  w <- get ;;
  match fs w !! file_path with
  | None => raise FileNotFoundError
  | Some content => fallible OSError ;; ret (checksum_of content)
  end.

(** ** Configuration *)

Definition UPLOAD_FOLDER : string := "enterprise_files".

Definition ALLOWED_EXTENSIONS : list string :=
  [ "pdf"; "doc"; "docx"; "xls"; "xlsx"; "ppt"; "pptx"; "txt"; "rtf"; "odt";
    "png"; "jpg"; "jpeg"; "gif"; "bmp"; "tiff"; "svg"; "webp";
    "mp4"; "avi"; "mov"; "wmv"; "flv"; "mkv"; "webm";
    "mp3"; "wav"; "flac"; "aac"; "ogg"; "m4a";
    "zip"; "rar"; "7z"; "tar"; "gz"; "bz2";
    "csv"; "json"; "xml"; "yaml"; "sql";
    "py"; "js"; "html"; "css"; "java"; "cpp"; "c"; "php"; "rb"; "go" ].

(** [x in collection] on strings. *)
Definition str_in (x : string) (l : list string) : bool := existsb (String.eqb x) l.

(** [allowed_file(filename)] *)
Definition allowed_file (filename : string) : bool :=
  PyStr.contains_dot filename &&
  match PyStr.rsplit_dot filename with
  | Some (_, ext) => str_in (PyStr.lower ext) ALLOWED_EXTENSIONS
  | None => false
  end.

Definition role_hierarchy : gmap string Z :=
  <["user" := 0%Z]> (<["manager" := 1%Z]> (<["admin" := 2%Z]> (<["super_admin" := 3%Z]> ∅))).

Definition error_body (msg : string) : json := JObj [("error", JStr msg)].

(** [User.query.get(user_id)] *)
Definition query_user (uid : string) (d : Database) : option User.t :=
  find (fun u => String.eqb (User.id u) uid) (users d).

Section App.

(** The request context and the collaborators outside the repository. *)
Variable utcnow : datetime.
Variable remote_addr : string.
Variable user_agent : option string.
Variable is_json : bool.
(** Whether the search client [es] was constructed at start-up. *)
Variable es : bool.
Variable RETENTION_POLICY_DAYS : Z.
(** The n-th identifier drawn from [uuid.uuid4()]. *)
Variable uuid4 : nat -> string.
Variable secure_filename : string -> string.
Variable guess_type : string -> option string.
Variable check_password_hash : string -> string -> bool.
Variable totp_verify : string -> string -> bool.

(** *** Audit recorder *)

Definition es_index (index : string) (body : list (string * json)) : M unit :=
  fallible SearchIndexError ;;
  modify (fun w => set_es_docs (es_docs w ++ [mkEsDoc index body]) w).

Definition opt_json (o : option string) : json :=
  match o with Some s => JStr s | None => JObj [] end.

Definition audit_row (w : World) (user_id : option string) (event_type action : string)
    (resource_type resource_id : option string) (details : list (string * json))
  : AuditLog.t :=
  AuditLog.mk (session w !! "organization_id") user_id event_type resource_type
              resource_id action details remote_addr user_agent
              (session w !! "session_id") true utcnow.

(** The document mirrored to the search index. *)
Definition audit_document (audit_log : AuditLog.t) : list (string * json) :=
  [ ("timestamp", JInt (AuditLog.timestamp audit_log));
    ("user_id", opt_json (AuditLog.user_id audit_log));
    ("event_type", JStr (AuditLog.event_type audit_log));
    ("action", JStr (AuditLog.action audit_log));
    ("resource_type", opt_json (AuditLog.resource_type audit_log));
    ("resource_id", opt_json (AuditLog.resource_id audit_log));
    ("details", JObj (AuditLog.details audit_log));
    ("ip_address", JStr (AuditLog.ip_address audit_log)) ].

(** [log_audit_event(user_id, event_type, action, resource_type,
    resource_id, details)], called while a request is handled: [session]
    and [request] are those of the request.  [log_audit_event_in], further
    down, is the call in either context, a Celery worker included. *)
Definition log_audit_event (user_id : option string) (event_type action : string)
    (resource_type resource_id : option string) (details : list (string * json))
  : M unit :=
  try_except
    (w <- get ;;
     let audit_log := audit_row w user_id event_type action resource_type resource_id details in
     session_do (AddAudit audit_log) ;;
     commit ;;
     if es then
       try_except
         (es_index "audit-logs" (audit_document audit_log))
         (fun _ => logger WARNING "Failed to index audit log")
     else ret tt)
    (fun _ => logger ERROR "Failed to log audit event").

(** *** Access guards *)

Definition flash (msg category : string) : M unit :=
  modify (fun w => set_flashed (flashed w ++ [(msg, category)]) w).

(** [@requires_auth] *)
Definition requires_auth (f : M Response) : M Response :=
  w <- get ;;
  match session w !! "user_id" with
  | None =>
      if is_json then ret (Jsonify 401 (error_body "Authentication required"))
      else flash "Please log in to access this page." "error" ;;
           ret (Redirect "login")
  | Some uid =>
      match query_user uid (db w) with
      | Some user =>
          if String.eqb (User.status user) "active" then f
          else
            modify (set_session ∅) ;;
            if is_json then ret (Jsonify 401 (error_body "Account inactive"))
            else flash "Your account is no longer active." "error" ;;
                 ret (Redirect "login")
      | None =>
          modify (set_session ∅) ;;
          if is_json then ret (Jsonify 401 (error_body "Account inactive"))
          else flash "Your account is no longer active." "error" ;;
               ret (Redirect "login")
      end
  end.

Definition user_level (role : string) : Z := default 0%Z (role_hierarchy !! role).
Definition required_level (role : string) : Z := default 99%Z (role_hierarchy !! role).

(** [@requires_role(required_role)] *)
Definition requires_role (required_role : string) (f : M Response) : M Response :=
  w <- get ;;
  match session w !! "user_id" with
  | None => ret (Jsonify 401 (error_body "Authentication required"))
  | Some uid =>
      match query_user uid (db w) with
      | None => ret (Jsonify 401 (error_body "User not found"))
      | Some user =>
          if (user_level (User.role user) <? required_level required_role)%Z then
            log_audit_event (Some (User.id user)) "access_denied" "insufficient_role"
              None None
              [ ("required_role", JStr required_role);
                ("user_role", JStr (User.role user)) ] ;;
            ret (Jsonify 403 (error_body "Insufficient permissions"))
          else f
      end
  end.

(** *** Retention sweep *)

(** The filter of the [expired_files] query, with SQL's treatment of
    NULL: a row whose [retention_until] or [legal_hold] is NULL does not
    satisfy the comparison. *)
Definition expired (f : FileMetadata.t) : bool :=
  match FileMetadata.retention_until f with
  | Some t => (t <? utcnow)%Z
  | None => false
  end
  && match FileMetadata.legal_hold f with
     | Some false => true
     | _ => false
     end.

Definition os_path_exists (path : string) : M bool :=
  w <- get ;; ret (bool_decide (is_Some (fs w !! path))).

Definition os_remove (path : string) : M unit :=
  fallible OSError ;;
  w <- get ;;
  match fs w !! path with
  | None => raise FileNotFoundError
  | Some _ => modify (fun w => set_fs (delete path (fs w)) w)
  end.

Definition retention_audit_details (file_meta : FileMetadata.t) : list (string * json) :=
  [ ("reason", JStr "retention_policy");
    ("file_name", JStr (FileMetadata.name file_meta)) ].

(** The body of the loop over [expired_files]. *)
Definition retention_body (file_meta : FileMetadata.t) : M unit :=
  try_except
    ((if str_in (FileMetadata.classification file_meta) ["confidential"; "restricted"] then
        present <- os_path_exists (FileMetadata.file_path file_meta) ;;
        if present then os_remove (FileMetadata.file_path file_meta) else ret tt
      else ret tt) ;;
     log_audit_event None "data_retention" "file_deleted"
       (Some "file") (Some (FileMetadata.id file_meta))
       (retention_audit_details file_meta) ;;
     session_do (DeleteFile (FileMetadata.id file_meta)))
    (fun _ => logger ERROR "Failed to delete expired file").

Fixpoint for_each {A : Type} (l : list A) (body : A -> M unit) : M unit :=
  match l with
  | [] => ret tt
  | x :: rest => body x ;; for_each rest body
  end.

(** [apply_retention_policies()], called while a request is handled.  The
    [cutoff_date] that the source computes first is never used and is left
    out.  [apply_retention_policies_in], further down, is the function in
    either context; Celery runs the task in a worker. *)
Definition apply_retention_policies : M json :=
  try_except
    (w <- get ;;
     let expired_files := List.filter expired (file_metadata (db w)) in
     for_each expired_files retention_body ;;
     commit ;;
     ret (JObj [("processed", JInt (Z.of_nat (length expired_files)))]))
    (fun e =>
       logger ERROR "Error in retention policy task" ;;
       ret (error_body (exn_str e))).

(** *** Login *)

Definition is_locked (user : User.t) : bool :=
  match User.locked_until user with
  | Some t => (utcnow <? t)%Z
  | None => false
  end.

(** [User.check_password] *)
Definition check_password (user : User.t) (password : string) : bool :=
  check_password_hash (User.password_hash user) password.

(** [User.verify_totp] *)
Definition verify_totp (user : User.t) (token : string) : bool :=
  match User.two_factor_secret user with
  | None => false
  | Some secret => if String.eqb secret "" then false else totp_verify secret token
  end.

Definition fresh_uuid : M string :=
  fun w => (Ok (uuid4 (uuid_ctr w)), set_uuid_ctr (S (uuid_ctr w)) w).

(** [session[key] = value] *)
Definition session_set (key value : string) : M unit :=
  modify (fun w => set_session (<[key := value]> (session w)) w).

(** [session[key]] *)
Definition session_item (key : string) : M string :=
  w <- get ;;
  match session w !! key with
  | Some v => ret v
  | None => raise KeyError
  end.

Definition reset_lockout (user : User.t) : User.t :=
  User.mk (User.id user) (User.organization_id user) (User.username user)
          (User.password_hash user) (User.display_name user) (User.role user)
          (User.status user) (User.two_factor_secret user) (User.two_factor_enabled user)
          0%Z None (Some utcnow).

Definition record_failure (user : User.t) : User.t :=
  let attempts := (User.failed_login_attempts user + 1)%Z in
  User.mk (User.id user) (User.organization_id user) (User.username user)
          (User.password_hash user) (User.display_name user) (User.role user)
          (User.status user) (User.two_factor_secret user) (User.two_factor_enabled user)
          attempts
          (if (5 <=? attempts)%Z then Some (utcnow + 30 * seconds_per_minute)%Z
           else User.locked_until user)
          (User.last_login user).

(** [login()], for a submitted form.  [session.permanent], which only sets
    the lifetime of the cookie, is left out; the commits of this route are
    not inside a [try], so a commit that raises ends the request. *)
Definition login (form : LoginForm) : M Response :=
  if validate_on_submit form then
    w <- get ;;
    match find (fun u => String.eqb (User.username u) (username form)) (users (db w)) with
    | Some user =>
        if check_password user (password form) then
          if is_locked user then
            flash "Account is temporarily locked. Please try again later." "error" ;;
            ret (RenderTemplate "login.html")
          else if User.two_factor_enabled user
                  && (String.eqb (totp_code form) ""
                      || negb (verify_totp user (totp_code form))) then
            flash "Invalid 2FA code." "error" ;;
            log_audit_event (Some (User.id user)) "authentication" "login_failed_2fa"
              None None [] ;;
            ret (RenderTemplate "login.html")
          else
            session_do (DirtyUser (reset_lockout user)) ;;
            session_set "user_id" (User.id user) ;;
            session_set "organization_id" (User.organization_id user) ;;
            sid <- fresh_uuid ;;
            session_set "session_id" sid ;;
            commit ;;
            log_audit_event (Some (User.id user)) "authentication" "login_success"
              None None [] ;;
            flash ("Welcome back, " ++ User.display_name user ++ "!") "success" ;;
            ret (Redirect "index")
        else
          session_do (DirtyUser (record_failure user)) ;;
          commit ;;
          log_audit_event (Some (User.id user)) "authentication" "login_failed"
            None None [] ;;
          flash "Invalid username or password." "error" ;;
          ret (RenderTemplate "login.html")
    | None =>
        flash "Invalid username or password." "error" ;;
        ret (RenderTemplate "login.html")
    end
  else ret (RenderTemplate "login.html").

(** *** Upload *)

Definition os_makedirs (path : string) : M unit :=
  fallible OSError ;;
  modify (fun w => set_dirs ({[path]} ∪ dirs w) w).

(** [file.save(file_path)].  The write is all or nothing here; a write
    that fails may in fact leave a file, empty or partial, at [file_path].
    Nothing below says what the destination holds after a failed write. *)
Definition file_save (file : FileStorage) (file_path : string) : M unit :=
  fallible OSError ;;
  modify (fun w => set_fs (<[file_path := stream file]> (fs w)) w).

Definition os_path_getsize (path : string) : M Z :=
  w <- get ;;
  match fs w !! path with
  | None => raise FileNotFoundError
  | Some content => fallible OSError ;; ret (Z.of_nat (length content))
  end.

(** [process_file_content.delay(file_id)] *)
Definition process_file_content_delay (file_id : string) : M unit :=
  fallible BrokerError ;;
  modify (fun w => set_tasks (tasks w ++ [file_id]) w).

(** [user.id], for the result of [User.query.get]. *)
Definition user_id_of (user : option User.t) : M string :=
  match user with
  | Some u => ret (User.id u)
  | None => raise AttributeError
  end.

Definition file_extension_of (secure_name : string) : string :=
  if PyStr.contains_dot secure_name then
    match PyStr.rsplit_dot secure_name with
    | Some (_, ext) => PyStr.lower ext
    | None => ""
    end
  else "".

(** The folder that receives the file. *)
Definition upload_path_of (folder_path : string) : string :=
  PyStr.path_join UPLOAD_FOLDER (PyStr.strip_slash folder_path).

Definition full_permission (file_id uid : string) : FilePermission.t :=
  FilePermission.mk file_id (Some uid) None None true true true true true uid None.

Definition file_summary (f : FileMetadata.t) : json :=
  JObj [ ("id", JStr (FileMetadata.id f));
         ("name", JStr (FileMetadata.name f));
         ("size", JInt (FileMetadata.size f));
         ("type", JStr (FileMetadata.file_type f)) ].

(** One iteration of the loop over [files], past the two checks on the
    file name.  The source builds the row with [checksum=''] and assigns
    the computed checksum before the row is added to the session; the row
    is built here with the checksum in place. *)
Definition upload_one (user : option User.t)
    (folder_path classification category : string) (tags : list string)
    (file : FileStorage) : M json :=
  let original_name := filename file in
  let secure_name := secure_filename original_name in
  file_id <- fresh_uuid ;;
  let file_extension := file_extension_of secure_name in
  let stored_filename := file_id ++ "." ++ file_extension in
  let upload_path := upload_path_of folder_path in
  os_makedirs upload_path ;;
  let file_path := PyStr.path_join upload_path stored_filename in
  file_save file file_path ;;
  file_size <- os_path_getsize file_path ;;
  let mime_type := default "application/octet-stream" (guess_type file_path) in
  organization_id <- session_item "organization_id" ;;
  uid <- user_id_of user ;;
  checksum <- calculate_checksum file_path ;;
  let retention_days := RETENTION_POLICY_DAYS in
  let file_meta :=
    FileMetadata.mk file_id organization_id secure_name original_name file_path
      file_extension mime_type file_size checksum folder_path classification
      category tags (Some (utcnow + retention_days * seconds_per_day)%Z)
      (Some false) uid in
  session_do (AddFile file_meta) ;;
  commit ;;
  uid' <- user_id_of user ;;
  session_do (AddPermission (full_permission (FileMetadata.id file_meta) uid')) ;;
  commit ;;
  process_file_content_delay (FileMetadata.id file_meta) ;;
  log_audit_event (Some uid') "file_management" "file_uploaded"
    (Some "file") (Some (FileMetadata.id file_meta))
    [ ("file_name", JStr original_name); ("file_size", JInt file_size) ] ;;
  ret (file_summary file_meta).

Definition upload_success (uploaded_files : list json) : Response :=
  Jsonify 200
    (JObj [ ("message",
             JStr ("Successfully uploaded " ++ pretty (length uploaded_files) ++ " files"));
            ("files", JList uploaded_files) ]).

(** The loop over [files]; [uploaded_files] is the list built so far. *)
Fixpoint upload_loop (user : option User.t)
    (folder_path classification category : string) (tags : list string)
    (files : list FileStorage) (uploaded_files : list json) : M Response :=
  match files with
  | [] => ret (upload_success uploaded_files)
  | file :: rest =>
      if String.eqb (filename file) "" then
        upload_loop user folder_path classification category tags rest uploaded_files
      else if negb (allowed_file (filename file)) then
        ret (Jsonify 400 (error_body ("File type not allowed: " ++ filename file)))
      else
        summary <- upload_one user folder_path classification category tags file ;;
        upload_loop user folder_path classification category tags rest
                    (uploaded_files ++ [summary])
  end.

Definition form_tags (form : gmap string string) : list string :=
  match form !! "tags" with
  | Some t => if String.eqb t "" then [] else PyStr.split ","%char t
  | None => []
  end.

(** The body of [upload_file()], inside its [try]. *)
Definition upload_body (request : UploadRequest) : M Response :=
  match request_files request !! "files" with
  | None => ret (Jsonify 400 (error_body "No files provided"))
  | Some files =>
      uid <- session_item "user_id" ;;
      w <- get ;;
      let user := query_user uid (db w) in
      let folder_path := default "" (request_form request !! "folder_path") in
      let classification := default "internal" (request_form request !! "classification") in
      let category := default "" (request_form request !! "category") in
      let tags := form_tags (request_form request) in
      upload_loop user folder_path classification category tags files []
  end.

(** [upload_file()], behind [@requires_auth]. *)
Definition upload_file (request : UploadRequest) : M Response :=
  requires_auth
    (try_except (upload_body request)
       (fun _ =>
          logger ERROR "Upload error" ;;
          ret (Jsonify 500 (error_body "Upload failed")))).

End App.

(** ** The other helpers and routes of the application *)

(** [User.is_admin] *)
Definition is_admin (user : User.t) : bool :=
  str_in (User.role user) ["admin"; "super_admin"].

(** [sep.join(parts)] *)
Fixpoint str_join (sep : string) (parts : list string) : string :=
  match parts with
  | [] => ""
  | [p] => p
  | p :: rest => p ++ sep ++ str_join sep rest
  end.

(** The user object with a new [two_factor_secret]. *)
Definition with_totp_secret (user : User.t) (secret : string) : User.t :=
  User.mk (User.id user) (User.organization_id user) (User.username user)
          (User.password_hash user) (User.display_name user) (User.role user)
          (User.status user) (Some secret) (User.two_factor_enabled user)
          (User.failed_login_attempts user) (User.locked_until user) (User.last_login user).

(** [User.generate_totp_secret], where [drawn] is what [pyotp.random_base32()]
    returns if it is called.  A missing and an empty secret are both falsy. *)
Definition generate_totp_secret (drawn : string) (user : User.t) : M string :=
  match User.two_factor_secret user with
  | Some secret =>
      if String.eqb secret "" then
        session_do (DirtyUser (with_totp_secret user drawn)) ;;
        commit ;;
        ret drawn
      else ret secret
  | None =>
      session_do (DirtyUser (with_totp_secret user drawn)) ;;
      commit ;;
      ret drawn
  end.

(** [FileMetadata.query.get(file_id)] *)
Definition query_file (fid : string) (d : Database) : option FileMetadata.t :=
  find (fun f => String.eqb (FileMetadata.id f) fid) (file_metadata d).

Section Tasks.

Variable utcnow : datetime.
Variable remote_addr : string.
Variable user_agent : option string.
Variable is_json : bool.
Variable es : bool.
(** [textract.process(path).decode('utf-8')] on the bytes of the artifact;
    [None] when the extraction or the decoding raises. *)
Variable textract_process : list byte -> option string.

(** [logout()], behind [@requires_auth]. *)
Definition logout : M Response :=
  requires_auth is_json
    (w <- get ;;
     let user_id := session w !! "user_id" in
     log_audit_event utcnow remote_addr user_agent es user_id "authentication" "logout"
       None None [] ;;
     modify (set_session ∅) ;;
     flash "You have been logged out successfully." "info" ;;
     ret (Redirect "login")).

(** The text extraction of [process_file_content], inside its own [try]:
    a failure is logged as a warning and leaves the content empty. *)
Definition extract_content (file_meta : FileMetadata.t) : M string :=
  try_except
    (if str_in (PyStr.lower (FileMetadata.file_type file_meta))
               ["pdf"; "doc"; "docx"; "txt"; "rtf"] then
       w <- get ;;
       match fs w !! FileMetadata.file_path file_meta with
       | None => raise FileNotFoundError
       | Some bytes =>
           match textract_process bytes with
           | Some text => ret text
           | None => raise OSError
           end
       end
     else ret "")
    (fun _ => logger WARNING "Failed to extract content" ;; ret "").

(** The document of the [file-content] index; the [created_at] column is
    not part of the row model and is left out of the document. *)
Definition content_document (file_id : string) (file_meta : FileMetadata.t)
    (content : string) : list (string * json) :=
  [ ("file_id", JStr file_id);
    ("organization_id", JStr (FileMetadata.organization_id file_meta));
    ("name", JStr (FileMetadata.name file_meta));
    ("content", JStr content);
    ("file_type", JStr (FileMetadata.file_type file_meta));
    ("classification", JStr (FileMetadata.classification file_meta));
    ("tags", JList (map JStr (FileMetadata.tags file_meta)));
    ("created_by", JStr (FileMetadata.created_by_id file_meta)) ].

(** [process_file_content(file_id)], the task behind
    [process_file_content.delay]. *)
Definition process_file_content (file_id : string) : M json :=
  try_except
    (w <- get ;;
     match query_file file_id (db w) with
     | None => ret (error_body "File not found")
     | Some file_meta =>
         content <- extract_content file_meta ;;
         (if es && negb (String.eqb content "") then
            try_except
              (es_index "file-content" (content_document file_id file_meta content))
              (fun _ => logger ERROR "Failed to index file content")
          else ret tt) ;;
         ret (JObj [ ("status", JStr "completed");
                     ("content_length", JInt (Z.of_nat (String.length content))) ])
     end)
    (fun e =>
       logger ERROR "Error processing file" ;;
       ret (error_body (exn_str e))).

End Tasks.

(** ** The context of a call *)

(** Flask's [session] and [request] are proxies bound to the request that
    is being handled.  The routes run inside a request.  A Celery task runs
    in a worker, outside any request, where the first use of either proxy
    raises [RuntimeError]. *)
Inductive Context := InRequest | InWorker.

Section Contexts.

Variable utcnow : datetime.
Variable remote_addr : string.
Variable user_agent : option string.
Variable es : bool.

(** [log_audit_event] in a context.  In a worker the construction of the
    [AuditLog] row raises at [session.get('organization_id')], inside the
    [try] and before [db.session] is touched; the handler logs the error
    and the call returns. *)
Definition log_audit_event_in (ctx : Context) (user_id : option string)
    (event_type action : string) (resource_type resource_id : option string)
    (details : list (string * json)) : M unit :=
  match ctx with
  | InRequest =>
      log_audit_event utcnow remote_addr user_agent es user_id event_type action
                      resource_type resource_id details
  | InWorker =>
      try_except (raise RuntimeError)
                 (fun _ => logger ERROR "Failed to log audit event")
  end.

(** The body of the loop of [apply_retention_policies] in a context. *)
Definition retention_body_in (ctx : Context) (file_meta : FileMetadata.t) : M unit :=
  try_except
    ((if str_in (FileMetadata.classification file_meta) ["confidential"; "restricted"] then
        present <- os_path_exists (FileMetadata.file_path file_meta) ;;
        if present then os_remove (FileMetadata.file_path file_meta) else ret tt
      else ret tt) ;;
     log_audit_event_in ctx None "data_retention" "file_deleted"
       (Some "file") (Some (FileMetadata.id file_meta))
       (retention_audit_details file_meta) ;;
     session_do (DeleteFile (FileMetadata.id file_meta)))
    (fun _ => logger ERROR "Failed to delete expired file").

(** [apply_retention_policies()] in a context: [InWorker] is the task as
    Celery runs it, [InRequest] the same function called while a request is
    handled. *)
Definition apply_retention_policies_in (ctx : Context) : M json :=
  try_except
    (w <- get ;;
     let expired_files := List.filter (expired utcnow) (file_metadata (db w)) in
     for_each expired_files (retention_body_in ctx) ;;
     commit ;;
     ret (JObj [("processed", JInt (Z.of_nat (length expired_files)))]))
    (fun e =>
       logger ERROR "Error in retention policy task" ;;
       ret (error_body (exn_str e))).

End Contexts.

(** ** Vocabulary of the properties *)

(** The lowercase hexadecimal digits. *)
Definition hex_alphabet : list ascii := list_ascii_of_string "0123456789abcdef".

(** One step of [posixpath.normpath] on the components read so far (last
    one first): empty and [.] components vanish, [..] cancels the
    component before it, or stays when there is none to cancel. *)
Definition normpath_step (stack : list string) (seg : string) : list string :=
  if String.eqb seg "" || String.eqb seg "." then stack
  else if String.eqb seg ".." then
    match stack with
    | top :: below => if String.eqb top ".." then seg :: stack else below
    | [] => [seg]
    end
  else seg :: stack.

(** The components of the location that a relative path resolves to. *)
Definition normpath_components (path : string) : list string :=
  rev (fold_left normpath_step (PyStr.split "/"%char path) []).

(** The path resolves to a location under the upload root. *)
Definition under_upload_root (path : string) : bool :=
  match normpath_components path with
  | first :: _ => String.eqb first UPLOAD_FOLDER
  | [] => false
  end.

(** A scheduled deletion of a [file_metadata] row. *)
Definition is_delete (op : SessOp) : Prop := exists fid, op = DeleteFile fid.

(** The classifications whose artifacts the sweep removes. *)
Definition classified (f : FileMetadata.t) : bool :=
  str_in (FileMetadata.classification f) ["confidential"; "restricted"].

(** The audit row written for the deletion of [f] in a request whose
    session is that of [w]. *)
Definition retention_audit_row (utcnow : datetime) (remote_addr : string)
    (user_agent : option string) (w : World) (f : FileMetadata.t) : AuditLog.t :=
  audit_row utcnow remote_addr user_agent w None "data_retention" "file_deleted"
            (Some "file") (Some (FileMetadata.id f)) (retention_audit_details f).

(** The row with identifier [fid] is gone from the committed table, or
    its deletion is scheduled in the unit of work. *)
Definition doomed (fid : string) (w : World) : Prop :=
  In (DeleteFile fid) (pending w)
  \/ forall g, In g (file_metadata (db w)) -> FileMetadata.id g <> fid.

(** The [file_metadata] row that one iteration of the upload loop builds
    for [file], started in the world [w] by the user [uid] of organization
    [org]. *)
Definition uploaded_row (utcnow : datetime) (RETENTION_POLICY_DAYS : Z)
    (uuid4 : nat -> string) (secure_filename : string -> string)
    (guess_type : string -> option string)
    (uid org folder_path classification category : string) (tags : list string)
    (file : FileStorage) (w : World) : FileMetadata.t :=
  let file_id := uuid4 (uuid_ctr w) in
  let secure_name := secure_filename (filename file) in
  let file_extension := file_extension_of secure_name in
  let file_path := PyStr.path_join (upload_path_of folder_path)
                                   (file_id ++ "." ++ file_extension) in
  FileMetadata.mk file_id org secure_name (filename file) file_path file_extension
    (default "application/octet-stream" (guess_type file_path))
    (Z.of_nat (length (stream file))) (checksum_of (stream file)) folder_path
    classification category tags
    (Some (utcnow + RETENTION_POLICY_DAYS * seconds_per_day)%Z) (Some false) uid.

(** A permission row of [uid] on [fid] with the five capabilities. *)
Definition is_full_grant (fid uid : string) (p : FilePermission.t) : bool :=
  String.eqb (FilePermission.file_id p) fid
  && match FilePermission.user_id p with
     | Some u => String.eqb u uid
     | None => false
     end
  && FilePermission.can_read p && FilePermission.can_write p
  && FilePermission.can_delete p && FilePermission.can_share p
  && FilePermission.can_admin p.

(** The creator's permission row of a committed upload. *)
Definition creator_grant (f : FileMetadata.t) : FilePermission.t :=
  full_permission (FileMetadata.id f) (FileMetadata.created_by_id f).

(** The number of full-capability rows of the creator of [f] on [f]. *)
Definition creator_grants (f : FileMetadata.t) (d : Database) : nat :=
  length (List.filter (is_full_grant (FileMetadata.id f) (FileMetadata.created_by_id f))
                      (file_permissions d)).

(** The loop that the upload route runs for a request of [user] whose
    [files] part is [files]. *)
Definition route_loop (utcnow : datetime) (remote_addr : string)
    (user_agent : option string) (es : bool) (RETENTION_POLICY_DAYS : Z)
    (uuid4 : nat -> string) (secure_filename : string -> string)
    (guess_type : string -> option string)
    (request : UploadRequest) (user : User.t) (files : list FileStorage) : M Response :=
  upload_loop utcnow remote_addr user_agent es RETENTION_POLICY_DAYS uuid4 secure_filename
    guess_type (Some user)
    (default "" (request_form request !! "folder_path"))
    (default "internal" (request_form request !! "classification"))
    (default "" (request_form request !! "category"))
    (form_tags (request_form request)) files [].

(** Every permission row refers to a row of [file_metadata]. *)
Definition ref_integrity (d : Database) : Prop :=
  forall p, In p (file_permissions d) -> has_file_id (FilePermission.file_id p) d = true.

(** No slash among the characters of [s]. *)
Definition no_slash (s : string) : bool := negb (existsb PyStr.is_slash (PyStr.chars s)).

(** The row records a path of the shape that the upload route gives: a
    folder, then the identifier of the row, a dot and the extension, where
    neither the identifier nor the extension holds a slash and the
    extension holds no dot. *)
Definition stored_by_upload (f : FileMetadata.t) : Prop :=
  exists folder,
    FileMetadata.file_path f
    = folder ++ "/" ++ FileMetadata.id f ++ "." ++ FileMetadata.file_type f
    /\ no_slash (FileMetadata.id f) = true
    /\ no_slash (FileMetadata.file_type f) = true
    /\ PyStr.contains_dot (FileMetadata.file_type f) = false.

(** The same login form submitted once at each of the given times, in
    order; an exception ends the sequence. *)
Fixpoint login_attempts (remote_addr : string) (user_agent : option string) (es : bool)
    (uuid4 : nat -> string) (check_password_hash totp_verify : string -> string -> bool)
    (form : LoginForm) (times : list datetime) : M unit :=
  match times with
  | [] => ret tt
  | t :: rest =>
      bind (login t remote_addr user_agent es uuid4 check_password_hash totp_verify form)
           (fun _ => login_attempts remote_addr user_agent es uuid4 check_password_hash
                                    totp_verify form rest)
  end.

(** ** Sample data for the worked examples *)

Definition alice : User.t :=
  User.mk "u1" "org1" "alice" "hash:secret" "Alice" "user" "active" None false 0%Z None None.

Definition sample_session : gmap string string :=
  <["user_id" := "u1"]> (<["organization_id" := "org1"]> (<["session_id" := "s1"]> ∅)).

Definition empty_db : Database := mkDatabase [alice] [] [] [].

(** A logged-in request on the tables [d], with the failure schedule [fl]. *)
Definition sample_world (d : Database) (fl : list bool) : World :=
  mkWorld ∅ ∅ d [] sample_session [] [] [] [] fl 0.

Definition sample_uuid4 (n : nat) : string := "uuid-" ++ pretty n.

(** A multipart request with one ten-byte part per name. *)
Definition sample_request (names : list string) (folder : string) : UploadRequest :=
  mkUploadRequest
    (<["files" := map (fun n => mkFileStorage n (bytes_of_string "0123456789")) names]> ∅)
    (<["folder_path" := folder]> ∅).

(** The upload route on file names that [secure_filename] leaves as they
    are, for alice logged in on empty tables. *)
Definition sample_upload (fl : list bool) (names : list string) (folder : string)
  : Result Response * World :=
  upload_file 1000%Z "10.0.0.1" None true true 2555%Z sample_uuid4 (fun s => s)
              (fun _ => None) (sample_request names folder) (sample_world empty_db fl).

(** A toy password check: the stored hash is the password behind a prefix. *)
Definition sample_check_password_hash (pwhash password : string) : bool :=
  String.eqb pwhash ("hash:" ++ password).

(** Alice after four failed attempts. *)
Definition alice_four_failures : User.t :=
  User.mk "u1" "org1" "alice" "hash:secret" "Alice" "user" "active" None false 4%Z None None.

(** Rows of [file_metadata] long past their deadline at time 1000. *)
Definition sample_file (fid classification : string) (legal_hold : bool) : FileMetadata.t :=
  FileMetadata.mk fid "org1" (fid ++ ".txt") (fid ++ ".txt")
    ("enterprise_files/" ++ fid ++ ".txt") "txt" "text/plain" 3%Z
    (SHA256.hexdigest (bytes_of_string "abc")) "" classification "" []
    (Some 10%Z) (Some legal_hold) "u1".

Definition held_file : FileMetadata.t := sample_file "f-held" "restricted" true.
Definition restricted_file : FileMetadata.t := sample_file "f-restricted" "restricted" false.
Definition internal_file : FileMetadata.t := sample_file "f-internal" "internal" false.

Definition sweep_db : Database :=
  mkDatabase [alice] [held_file; restricted_file; internal_file] [] [].

(** The three artifacts on disk, in a request of a logged-in user. *)
Definition sweep_world (fl : list bool) : World :=
  mkWorld (<[FileMetadata.file_path held_file := bytes_of_string "abc"]>
             (<[FileMetadata.file_path restricted_file := bytes_of_string "abc"]>
                (<[FileMetadata.file_path internal_file := bytes_of_string "abc"]> ∅)))
          ∅ sweep_db [] sample_session [] [] [] [] fl 0.

Definition login_world (u : User.t) (fl : list bool) : World :=
  mkWorld ∅ ∅ (mkDatabase [u] [] [] []) [] ∅ [] [] [] [] fl 0.

(** One restricted file past its deadline next to one on legal hold, with
    the artifact of the first on disk. *)
Definition removal_world (fl : list bool) : World :=
  mkWorld (<[FileMetadata.file_path restricted_file := bytes_of_string "abc"]> ∅) ∅
          (mkDatabase [alice] [restricted_file; held_file] [] []) [] sample_session
          [] [] [] [] fl 0.

(** * Properties *)

(** ** Checksum service *)

Example sha256_abc :
  SHA256.hexdigest (bytes_of_string "abc")
  = "ba7816bf8f01cfea414140de5dae2223b00361a396177a9cb410ff61f20015ad".
Proof. vm_compute. reflexivity. Qed.

Example sha256_empty :
  SHA256.hexdigest []
  = "e3b0c44298fc1c149afbf4c8996fb92427ae41e4649b934ca495991b7852b855".
Proof. vm_compute. reflexivity. Qed.

Example sha256_two_blocks :
  SHA256.hexdigest (repeat "a"%byte 70)
  = "6bd5e5034855a11241f0dee8fc72850ffd9955b28347a86428b5fa19119f6ad0".
Proof. vm_compute. reflexivity. Qed.

Example checksum_abc :
  checksum_of (bytes_of_string "abc")
  = "ba7816bf8f01cfea414140de5dae2223b00361a396177a9cb410ff61f20015ad".
Proof. vm_compute. reflexivity. Qed.

Lemma hash_blocks_absorbs (h : Hasher) (f : list byte) :
  hash_blocks h f = mkHasher (absorbed h ++ f).
Proof.
  funelim (hash_blocks h f).
  - match goal with E : _ = @nil byte |- _ =>
      unfold file_read in E; simpl fst in E; destruct f as [|x f]; [|discriminate E]
    end.
    rewrite app_nil_r. destruct h; reflexivity.
  - match goal with IH : _ = mkHasher _ |- _ => rewrite IH end.
    match goal with E : _ = @cons byte _ _ |- _ =>
      unfold file_read in E; simpl fst in E; rewrite <- E
    end.
    unfold sha256_update, file_read. simpl absorbed. simpl snd.
    rewrite <- app_assoc, take_drop. reflexivity.
Qed.

Lemma hash_blocks_nil (h : Hasher) : hash_blocks h [] = h.
Proof. rewrite hash_blocks_absorbs, app_nil_r. destruct h; reflexivity. Qed.

Lemma hash_blocks_chunk (h : Hasher) (b : byte) (f : list byte) :
  hash_blocks h (b :: f)
  = hash_blocks (sha256_update h (take 4096 (b :: f))) (drop 4096 (b :: f)).
Proof.
  rewrite !hash_blocks_absorbs. unfold sha256_update. cbn [absorbed].
  rewrite <- app_assoc, (take_drop 4096 (b :: f)). reflexivity.
Qed.

Lemma checksum_of_sha256 (content : list byte) :
  checksum_of content = SHA256.hexdigest content.
Proof.
  unfold checksum_of, sha256_hexdigest. rewrite hash_blocks_absorbs. reflexivity.
Qed.

Lemma string_length_of_list (l : list ascii) :
  String.length (string_of_list_ascii l) = length l.
Proof. induction l as [|c l IH]; simpl; [reflexivity | now rewrite IH]. Qed.

Lemma hex_digit_lower (d : Z) : In (SHA256.hex_digit d) hex_alphabet.
Proof.
  unfold SHA256.hex_digit.
  destruct (nth_in_or_default (Z.to_nat d) hex_alphabet "0"%char) as [Hin | Hd].
  - exact Hin.
  - fold hex_alphabet. rewrite Hd. simpl. auto.
Qed.

Lemma hex_word_lower (x : Z) : Forall (fun c => In c hex_alphabet) (SHA256.hex_word x).
Proof.
  unfold SHA256.hex_word. apply List.Forall_forall. intros c Hc.
  apply in_map_iff in Hc. destruct Hc as [i [<- _]]. apply hex_digit_lower.
Qed.

Lemma hex_of_words_length (ws : list Z) : length (SHA256.hex_of_words ws) = 64%nat.
Proof.
  unfold SHA256.hex_of_words, SHA256.hex_word. reflexivity.
Qed.

Lemma hex_of_words_lower (ws : list Z) :
  Forall (fun c => In c hex_alphabet) (SHA256.hex_of_words ws).
Proof.
  unfold SHA256.hex_of_words. apply List.Forall_forall. intros c Hc.
  apply in_flat_map in Hc. destruct Hc as [i [_ Hc]].
  pose proof (hex_word_lower (SHA256.wd ws i)) as Hw.
  rewrite List.Forall_forall in Hw. auto.
Qed.

Lemma hexdigest_chars (msg : list byte) :
  list_ascii_of_string (SHA256.hexdigest msg) = SHA256.hex_of_words (SHA256.digest_words msg).
Proof. unfold SHA256.hexdigest. apply list_ascii_of_string_of_list_ascii. Qed.

(** ** Reasoning about the effects *)

Lemma bind_Ok {A B} (m : M A) (k : A -> M B) (w w' : World) (b : B) :
  bind m k w = (Ok b, w') ->
  exists a w1, m w = (Ok a, w1) /\ k a w1 = (Ok b, w').
Proof.
  unfold bind. destruct (m w) as [[a | e] w1]; intros H.
  - exists a, w1. split; [reflexivity | exact H].
  - discriminate H.
Qed.

Lemma set_faults_same (w : World) : set_faults (faults w) w = w.
Proof. destruct w; reflexivity. Qed.

Lemma fallible_frame (e : exn) (w w' : World) (r : Result unit) :
  fallible e w = (r, w') -> exists fl, w' = set_faults fl w.
Proof.
  unfold fallible. destruct (faults w) as [|[|] rest] eqn:E; intros H; inversion H; subst.
  - exists []. rewrite <- E. symmetry. apply set_faults_same.
  - eexists; reflexivity.
  - eexists; reflexivity.
Qed.

Lemma fallible_quiet (e : exn) (w : World) :
  faults w = [] -> fallible e w = (Ok tt, w).
Proof. unfold fallible. intros ->. reflexivity. Qed.

Lemma flush_app (a b : list SessOp) (d : Database) :
  flush (a ++ b) d = match flush a d with
                     | Some d1 => flush b d1
                     | None => None
                     end.
Proof.
  revert d. induction a as [|op a IH]; intros d; simpl; [reflexivity|].
  destruct (flush_op d op); [apply IH | reflexivity].
Qed.

(** A commit leaves everything but the schedule, the tables and the unit of
    work alone; the unit of work is empty afterwards, and the tables are
    the flushed ones exactly when the commit returns. *)
Lemma commit_effect (w : World) :
  exists fl,
    (exists d, flush (pending w) (db w) = Some d
               /\ commit w = (Ok tt, set_pending [] (set_db d (set_faults fl w))))
    \/ (exists e, commit w = (Raise e, set_pending [] (set_faults fl w))).
Proof.
  unfold commit, fallible.
  destruct (faults w) as [|[|] rest] eqn:E.
  - exists []. rewrite <- E, set_faults_same.
    destruct (flush (pending w) (db w)) as [d|]; [left | right]; eauto.
  - exists rest. right. eauto.
  - exists rest. cbn [pending db set_faults].
    destruct (flush (pending w) (db w)) as [d|]; [left | right]; eauto.
Qed.

Lemma commit_quiet (w : World) (d : Database) :
  faults w = [] -> flush (pending w) (db w) = Some d ->
  commit w = (Ok tt, set_pending [] (set_db d w)).
Proof.
  intros Hf Hd. unfold commit. rewrite (fallible_quiet _ _ Hf), Hd. reflexivity.
Qed.

Section AuditFacts.

Variable utcnow : datetime.
Variable remote_addr : string.
Variable user_agent : option string.
Variable es : bool.

Let record := log_audit_event utcnow remote_addr user_agent es.
Let row := audit_row utcnow remote_addr user_agent.

(** The recorder always returns normally; it touches neither the disk
    nor the session, empties the unit of work, and the tables are either
    untouched or the result of flushing the pending work with the new
    row. *)
Lemma log_audit_event_effect (user_id : option string) (event_type action : string)
    (resource_type resource_id : option string) (details : list (string * json))
    (w : World) :
  exists w',
    record user_id event_type action resource_type resource_id details w = (Ok tt, w')
    /\ fs w' = fs w /\ dirs w' = dirs w /\ session w' = session w
    /\ tasks w' = tasks w /\ flashed w' = flashed w /\ uuid_ctr w' = uuid_ctr w
    /\ pending w' = []
    /\ (db w' = db w
        \/ flush (pending w ++ [AddAudit (row w user_id event_type action resource_type
                                            resource_id details)]) (db w)
           = Some (db w')).
Proof.
  subst record row. destruct w as [fs0 dirs0 db0 pend0 sess0 es0 tasks0 logs0 fl0 faults0 ctr0].
  unfold log_audit_event, try_except, bind, get, session_do, modify, commit, fallible,
    es_index, logger, ret.
  cbn [faults set_pending set_faults set_db set_es_docs set_logs pending db fs dirs session
       es_docs tasks logs flashed uuid_ctr].
  set (r := audit_row _ _ _ _ _ _ _ _ _ _).
  destruct faults0 as [|[|] rest];
    cbn [faults set_pending set_faults set_db set_es_docs set_logs pending db];
    try destruct (flush (pend0 ++ [AddAudit r]) db0) as [d|] eqn:Hd;
    try destruct es;
    cbn [faults set_pending set_faults set_db set_es_docs set_logs pending db];
    try (destruct rest as [|[|] rest']);
    cbn [faults set_pending set_faults set_db set_es_docs set_logs pending db];
    (eexists; split; [reflexivity|]; cbn;
     repeat (split; [reflexivity|]); first [left; reflexivity | right; reflexivity]).
Qed.

Lemma log_audit_event_unfold (user_id : option string) (event_type action : string)
    (resource_type resource_id : option string) (details : list (string * json))
    (w : World) :
  let audit_log := row w user_id event_type action resource_type resource_id details in
  record user_id event_type action resource_type resource_id details w
  = match commit (set_pending (pending w ++ [AddAudit audit_log]) w) with
    | (Raise _, w1) => (Ok tt, set_logs (logs w1 ++ [(ERROR, "Failed to log audit event")]) w1)
    | (Ok _, w1) =>
        if es then
          match es_index "audit-logs" (audit_document audit_log) w1 with
          | (Ok _, w2) => (Ok tt, w2)
          | (Raise _, w2) =>
              (Ok tt, set_logs (logs w2 ++ [(WARNING, "Failed to index audit log")]) w2)
          end
        else (Ok tt, w1)
    end.
Proof.
  subst record row. cbv zeta.
  unfold log_audit_event, try_except, bind, get, session_do, modify, logger, ret.
  destruct (commit _) as [[[]|e] w1]; [|reflexivity].
  destruct es; [|reflexivity].
  destruct (es_index _ _ w1) as [[[]|e] w2]; reflexivity.
Qed.

End AuditFacts.

Lemma commit_inv (w w1 : World) (r : Result unit) :
  commit w = (r, w1) ->
  exists fl,
    (exists d, r = Ok tt /\ flush (pending w) (db w) = Some d
               /\ w1 = set_pending [] (set_db d (set_faults fl w)))
    \/ (exists e, r = Raise e /\ w1 = set_pending [] (set_faults fl w)).
Proof.
  intros H. destruct (commit_effect w) as [fl [[d [Hd Hc]] | [e Hc]]];
    rewrite Hc in H; inversion H; subst; exists fl; [left | right]; eauto.
Qed.

Lemma flush_add_audit (ops : list SessOp) (a : AuditLog.t) (d d' : Database) :
  flush (ops ++ [AddAudit a]) d = Some d' -> In a (audit_logs d').
Proof.
  rewrite flush_app. destruct (flush ops d) as [d1|]; [|discriminate].
  simpl. destruct (AuditLog.organization_id a); [|discriminate].
  intros H. inversion H; subst. simpl. apply in_or_app. right. left. reflexivity.
Qed.

Lemma es_index_db (index : string) (body : list (string * json)) (w w' : World)
    (r : Result unit) :
  es_index index body w = (r, w') -> db w' = db w.
Proof.
  unfold es_index, bind, modify.
  destruct (fallible SearchIndexError w) as [[[]|e] w1] eqn:E; intros H; inversion H; subst;
    destruct (fallible_frame _ _ _ _ E) as [fl ->]; reflexivity.
Qed.

(** ** Audit recorder (C6) *)

(** C6, as stated, fails: when the commit of the audit row raises, the
    recorder logs the error and returns normally, so its caller sees the
    same result as after a recorded entry and is not notified. *)
Lemma audit_primary_failure_not_reported :
  let w := sample_world empty_db [true] in
  let out := log_audit_event 1000%Z "10.0.0.1" None true (Some "u1")
               "file_management" "file_uploaded" (Some "file") (Some "f1") [] w in
  (exists e w1, commit (set_pending [AddAudit (audit_row 1000%Z "10.0.0.1" None w (Some "u1")
                   "file_management" "file_uploaded" (Some "file") (Some "f1") [])] w)
                = (Raise e, w1))
  /\ fst out = Ok tt
  /\ audit_logs (db (snd out)) = []
  /\ logs (snd out) = [(ERROR, "Failed to log audit event")].
Proof.
  split; [do 2 eexists; vm_compute; reflexivity|].
  vm_compute. repeat split; reflexivity.
Qed.

(** C6, amended: the recorder never propagates a failure.  When the commit
    to the relational store raises, the error is logged and the call
    returns normally with the tables unchanged; when only the mirroring to
    the search index raises, a warning is logged, the call returns normally
    and the entry is in the committed audit table. *)
Theorem log_audit_event_swallows_failures
    (utcnow : datetime) (remote_addr : string) (user_agent : option string) (es : bool)
    (user_id : option string) (event_type action : string)
    (resource_type resource_id : option string) (details : list (string * json))
    (w : World) :
  let audit_log := audit_row utcnow remote_addr user_agent w user_id event_type action
                     resource_type resource_id details in
  let out := log_audit_event utcnow remote_addr user_agent es user_id event_type action
               resource_type resource_id details w in
  fst out = Ok tt
  /\ (forall e w1,
        commit (set_pending (pending w ++ [AddAudit audit_log]) w) = (Raise e, w1) ->
        snd out = set_logs (logs w1 ++ [(ERROR, "Failed to log audit event")]) w1
        /\ db (snd out) = db w)
  /\ (forall w1 e w2,
        es = true ->
        commit (set_pending (pending w ++ [AddAudit audit_log]) w) = (Ok tt, w1) ->
        es_index "audit-logs" (audit_document audit_log) w1 = (Raise e, w2) ->
        snd out = set_logs (logs w2 ++ [(WARNING, "Failed to index audit log")]) w2
        /\ In audit_log (audit_logs (db (snd out)))).
Proof.
  cbv zeta. rewrite log_audit_event_unfold. cbv zeta.
  set (w0 := set_pending _ w). split; [|split].
  - destruct (commit w0) as [[[]|e] w1]; [|reflexivity].
    destruct es; [|reflexivity].
    destruct (es_index _ _ w1) as [[[]|e] w2]; reflexivity.
  - intros e w1 Hc. rewrite Hc. split; [reflexivity|].
    destruct (commit_inv _ _ _ Hc) as [fl [[d [Hr _]] | [e' [_ ->]]]]; [discriminate Hr|].
    reflexivity.
  - intros w1 e w2 -> Hc He. rewrite Hc, He. split; [reflexivity|].
    cbn [snd db set_logs]. rewrite (es_index_db _ _ _ _ _ He).
    destruct (commit_inv _ _ _ Hc) as [fl [[d [_ [Hd ->]]] | [e' [Hr _]]]]; [|discriminate Hr].
    cbn [db set_pending set_db]. subst w0. cbn [pending db set_pending] in Hd.
    eapply flush_add_audit. exact Hd.
Qed.

Lemma log_audit_event_swallows_failures_witness :
  let w := sample_world empty_db [false; true] in
  let audit_log := audit_row 1000%Z "10.0.0.1" None w (Some "u1") "authentication" "logout"
                     None None [] in
  let out := log_audit_event 1000%Z "10.0.0.1" None true (Some "u1") "authentication"
               "logout" None None [] w in
  fst out = Ok tt /\ In audit_log (audit_logs (db (snd out))).
Proof.
  cbv zeta.
  pose proof (log_audit_event_swallows_failures 1000%Z "10.0.0.1" None true (Some "u1")
                "authentication" "logout" None None []
                (sample_world empty_db [false; true])) as H.
  cbv zeta in H. destruct H as [H1 [_ H3]]. split; [exact H1|].
  eapply H3; [reflexivity | vm_compute; reflexivity | vm_compute; reflexivity].
Defined.

Lemma log_audit_event_returns
    (utcnow : datetime) (remote_addr : string) (user_agent : option string) (es : bool)
    (user_id : option string) (event_type action : string)
    (resource_type resource_id : option string) (details : list (string * json))
    (w : World) :
  fst (log_audit_event utcnow remote_addr user_agent es user_id event_type action
         resource_type resource_id details w) = Ok tt.
Proof.
  destruct (log_audit_event_effect utcnow remote_addr user_agent es user_id event_type
              action resource_type resource_id details w) as [w' [-> _]].
  reflexivity.
Qed.

Lemma log_audit_event_recorded
    (utcnow : datetime) (remote_addr : string) (user_agent : option string) (es : bool)
    (user_id : option string) (event_type action : string)
    (resource_type resource_id : option string) (details : list (string * json))
    (w w1 : World) :
  let audit_log := audit_row utcnow remote_addr user_agent w user_id event_type action
                     resource_type resource_id details in
  commit (set_pending (pending w ++ [AddAudit audit_log]) w) = (Ok tt, w1) ->
  In audit_log
     (audit_logs (db (snd (log_audit_event utcnow remote_addr user_agent es user_id
                             event_type action resource_type resource_id details w)))).
Proof.
  cbv zeta. intros Hc. rewrite log_audit_event_unfold. cbv zeta. rewrite Hc.
  assert (Hin : In (audit_row utcnow remote_addr user_agent w user_id event_type action
                      resource_type resource_id details) (audit_logs (db w1))).
  { destruct (commit_inv _ _ _ Hc) as [fl [[d [_ [Hd ->]]] | [e' [Hr _]]]]; [|discriminate Hr].
    cbn [db set_pending set_db set_faults pending] in *.
    eapply flush_add_audit. exact Hd. }
  destruct es; [|exact Hin].
  destruct (es_index _ _ w1) as [[[]|e] w2] eqn:He; cbn [snd db set_logs];
    rewrite (es_index_db _ _ _ _ _ He); exact Hin.
Qed.

(** ** Role guard (C9) *)

Example role_hierarchy_order :
  (user_level "user" < user_level "manager" < user_level "admin")%Z
  /\ (user_level "admin" < user_level "super_admin")%Z
  /\ required_level "super_admin" = 3%Z
  /\ required_level "auditor" = 99%Z.
Proof. vm_compute. repeat split; reflexivity. Qed.

(** C9, as stated, fails: when the commit of the audit row raises, the
    denial is reported although no [access_denied] entry was recorded. *)
Lemma denial_reported_without_audit_entry :
  let w := sample_world empty_db [true] in
  let out := requires_role 1000%Z "10.0.0.1" None true "admin"
               (ret (Jsonify 200 (JObj []))) w in
  (user_level (User.role alice) < required_level "admin")%Z
  /\ fst out = Ok (Jsonify 403 (error_body "Insufficient permissions"))
  /\ audit_logs (db (snd out)) = [].
Proof. vm_compute. repeat split; reflexivity. Qed.

(** C9, amended: a user whose role is strictly below the required level is
    always denied with status 403 and the guarded handler does not run; the
    [access_denied] entry with the required and the held role is committed
    before the denial is returned whenever the relational store accepts the
    commit (otherwise the failure is logged and the denial is still
    returned). *)
Theorem requires_role_denies_lower_roles
    (utcnow : datetime) (remote_addr : string) (user_agent : option string) (es : bool)
    (required_role : string) (f : M Response) (w : World) (uid : string) (user : User.t) :
  session w !! "user_id" = Some uid ->
  query_user uid (db w) = Some user ->
  (user_level (User.role user) < required_level required_role)%Z ->
  let details := [ ("required_role", JStr required_role);
                   ("user_role", JStr (User.role user)) ] in
  let audit_log := audit_row utcnow remote_addr user_agent w (Some (User.id user))
                     "access_denied" "insufficient_role" None None details in
  let out := requires_role utcnow remote_addr user_agent es required_role f w in
  fst out = Ok (Jsonify 403 (error_body "Insufficient permissions"))
  /\ snd out = snd (log_audit_event utcnow remote_addr user_agent es (Some (User.id user))
                      "access_denied" "insufficient_role" None None details w)
  /\ (forall w1,
        commit (set_pending (pending w ++ [AddAudit audit_log]) w) = (Ok tt, w1) ->
        In audit_log (audit_logs (db (snd out)))).
Proof.
  intros Hs Hq Hlt. cbv zeta.
  assert (Hout : requires_role utcnow remote_addr user_agent es required_role f w
                 = (Ok (Jsonify 403 (error_body "Insufficient permissions")),
                    snd (log_audit_event utcnow remote_addr user_agent es
                           (Some (User.id user)) "access_denied" "insufficient_role" None None
                           [ ("required_role", JStr required_role);
                             ("user_role", JStr (User.role user)) ] w))).
  { unfold requires_role. unfold bind at 1. unfold get at 1. rewrite Hs, Hq.
    apply Z.ltb_lt in Hlt. rewrite Hlt. unfold bind, ret.
    destruct (log_audit_event_effect utcnow remote_addr user_agent es (Some (User.id user))
                "access_denied" "insufficient_role" None None
                [ ("required_role", JStr required_role);
                  ("user_role", JStr (User.role user)) ] w) as [w' [-> _]].
    reflexivity. }
  rewrite Hout. cbn [fst snd]. split; [reflexivity|]. split; [reflexivity|].
  intros w1 Hc. eapply log_audit_event_recorded. exact Hc.
Qed.

Lemma requires_role_denies_lower_roles_witness :
  let w := sample_world empty_db [] in
  let out := requires_role 1000%Z "10.0.0.1" None true "admin"
               (ret (Jsonify 200 (JObj []))) w in
  fst out = Ok (Jsonify 403 (error_body "Insufficient permissions"))
  /\ In (audit_row 1000%Z "10.0.0.1" None w (Some "u1") "access_denied" "insufficient_role"
           None None [ ("required_role", JStr "admin"); ("user_role", JStr "user") ])
        (audit_logs (db (snd out))).
Proof.
  cbv zeta.
  pose proof (requires_role_denies_lower_roles 1000%Z "10.0.0.1" None true "admin"
                (ret (Jsonify 200 (JObj []))) (sample_world empty_db []) "u1" alice) as H.
  cbv zeta in H.
  destruct H as [H1 [_ H3]];
    [vm_compute; reflexivity | vm_compute; reflexivity | vm_compute; reflexivity |].
  split; [exact H1|]. eapply H3. vm_compute. reflexivity.
Defined.

(** ** Login lockout (C10) *)

Lemma commit_accepted (w : World) (d : Database) :
  hd false (faults w) = false ->
  flush (pending w) (db w) = Some d ->
  exists fl, commit w = (Ok tt, set_pending [] (set_db d (set_faults fl w))).
Proof.
  intros Hf Hd. unfold commit, fallible.
  destruct (faults w) as [|[|] rest] eqn:E; [| discriminate Hf |].
  - exists []. rewrite <- E, set_faults_same, Hd. reflexivity.
  - exists rest. cbn [pending db set_faults]. rewrite Hd. reflexivity.
Qed.

Lemma flush_audit_only (a : AuditLog.t) (d d' : Database) :
  flush [AddAudit a] d = Some d' ->
  users d' = users d /\ file_metadata d' = file_metadata d
  /\ file_permissions d' = file_permissions d /\ audit_logs d' = (audit_logs d ++ [a])%list.
Proof.
  simpl. destruct (AuditLog.organization_id a); [|discriminate].
  intros H. inversion H; subst. simpl. auto.
Qed.

Lemma query_replace_user (u' : User.t) (l : list User.t) :
  (exists v, In v l /\ User.id v = User.id u') ->
  find (fun v => String.eqb (User.id v) (User.id u')) (replace_user u' l) = Some u'.
Proof.
  induction l as [|x l IH]; intros [v [Hin Hid]]; [contradiction|].
  simpl. destruct (String.eqb (User.id x) (User.id u')) eqn:E.
  - rewrite String.eqb_refl. reflexivity.
  - rewrite E. apply IH. destruct Hin as [-> | Hin].
    + rewrite Hid, String.eqb_refl in E. discriminate.
    + exists v. auto.
Qed.

Section LoginFacts.

Variable utcnow : datetime.
Variable remote_addr : string.
Variable user_agent : option string.
Variable es : bool.
Variable uuid4 : nat -> string.
Variable check_password_hash : string -> string -> bool.
Variable totp_verify : string -> string -> bool.

Let login_ := login utcnow remote_addr user_agent es uuid4 check_password_hash totp_verify.
Let record := log_audit_event utcnow remote_addr user_agent es.

(** What the recorder leaves of a world whose unit of work is empty. *)
Lemma audit_after_commit (user_id : option string) (event_type action : string) (w : World) :
  pending w = [] ->
  exists w', record user_id event_type action None None [] w = (Ok tt, w')
             /\ users (db w') = users (db w) /\ session w' = session w.
Proof.
  intros Hp. subst record.
  destruct (log_audit_event_effect utcnow remote_addr user_agent es user_id event_type action
              None None [] w) as [w' [Hr [_ [_ [Hs [_ [_ [_ [_ Hdb]]]]]]]]].
  exists w'. split; [exact Hr|]. split; [|exact Hs].
  destruct Hdb as [-> | Hfl]; [reflexivity|].
  rewrite Hp in Hfl. simpl app in Hfl. apply flush_audit_only in Hfl. tauto.
Qed.

(** A wrong password for an existing user: the attempt is counted, and
    from the fifth on the account is locked for 30 minutes. *)
Lemma login_failed_attempt (form : LoginForm) (w : World) (user : User.t) :
  validate_on_submit form = true ->
  find (fun u => String.eqb (User.username u) (username form)) (users (db w)) = Some user ->
  check_password check_password_hash user (password form) = false ->
  pending w = [] ->
  hd false (faults w) = false ->
  exists w',
    login_ form w = (Ok (RenderTemplate "login.html"), w')
    /\ query_user (User.id user) (db w') = Some (record_failure utcnow user).
Proof.
  intros Hv Hfind Hpw Hp Hf. subst login_. unfold login. rewrite Hv.
  unfold bind at 1. unfold get at 1. rewrite Hfind, Hpw.
  unfold bind at 1. unfold session_do at 1, modify at 1.
  unfold bind at 1.
  set (w1 := set_pending _ w).
  destruct (commit_accepted w1 (mkDatabase (replace_user (record_failure utcnow user)
                                              (users (db w)))
                                 (file_metadata (db w)) (file_permissions (db w))
                                 (audit_logs (db w)))) as [fl Hc].
  { exact Hf. }
  { subst w1. cbn [pending db set_pending]. rewrite Hp. reflexivity. }
  rewrite Hc. unfold bind at 1.
  set (w2 := set_pending [] _).
  destruct (audit_after_commit (Some (User.id user)) "authentication" "login_failed" w2)
    as [w3 [Hr [Hu _]]]; [reflexivity|].
  fold record. rewrite Hr. unfold bind, flash, modify, ret.
  eexists. split; [reflexivity|]. cbn [db set_flashed].
  unfold query_user. rewrite Hu. subst w2 w1.
  cbn [db set_pending set_db set_faults users].
  apply (query_replace_user (record_failure utcnow user)).
  exists user. split; [|reflexivity].
  apply find_some in Hfind. tauto.
Qed.

(** A locked account is refused even with the right password, and nothing
    but the flashed message changes. *)
Lemma login_refused_while_locked (form : LoginForm) (w : World) (user : User.t) :
  validate_on_submit form = true ->
  find (fun u => String.eqb (User.username u) (username form)) (users (db w)) = Some user ->
  check_password check_password_hash user (password form) = true ->
  is_locked utcnow user = true ->
  login_ form w
  = (Ok (RenderTemplate "login.html"),
     set_flashed (flashed w ++ [("Account is temporarily locked. Please try again later.",
                                 "error")]) w).
Proof.
  intros Hv Hfind Hpw Hl. subst login_. unfold login. rewrite Hv.
  unfold bind at 1. unfold get at 1. rewrite Hfind, Hpw, Hl. reflexivity.
Qed.

(** Every login that ends in the redirect to the index has reset the
    counter and cleared the lock of the user's row. *)
Lemma login_success_resets (form : LoginForm) (w w' : World) :
  pending w = [] ->
  login_ form w = (Ok (Redirect "index"), w') ->
  exists user,
    find (fun u => String.eqb (User.username u) (username form)) (users (db w)) = Some user
    /\ check_password check_password_hash user (password form) = true
    /\ is_locked utcnow user = false
    /\ query_user (User.id user) (db w') = Some (reset_lockout utcnow user)
    /\ session w' !! "user_id" = Some (User.id user).
Proof.
  intros Hp. subst login_. unfold login.
  destruct (validate_on_submit form); [|discriminate].
  unfold bind at 1. unfold get at 1.
  destruct (find _ (users (db w))) as [user|] eqn:Hfind; [|discriminate].
  destruct (check_password check_password_hash user (password form)) eqn:Hpw.
  - destruct (is_locked utcnow user) eqn:Hl; [discriminate|].
    destruct (User.two_factor_enabled user && _).
    + unfold bind at 1. unfold flash at 1, modify at 1. unfold bind at 1.
      fold record.
      destruct (log_audit_event_effect utcnow remote_addr user_agent es (Some (User.id user))
                  "authentication" "login_failed_2fa" None None []
                  (set_flashed (flashed w ++ [("Invalid 2FA code.", "error")]) w))
        as [wa [Hr _]].
      subst record. rewrite Hr. discriminate.
    + unfold bind at 1. unfold session_do at 1, modify at 1.
      unfold bind at 1. unfold session_set at 1, modify at 1.
      unfold bind at 1. unfold session_set at 1, modify at 1.
      unfold bind at 1. unfold fresh_uuid at 1.
      unfold bind at 1. unfold session_set at 1, modify at 1.
      unfold bind at 1.
      match goal with |- context [commit ?x] => set (w1 := x) end.
      destruct (commit w1) as [[[]|e] w2] eqn:Hc; [|discriminate].
      destruct (commit_inv _ _ _ Hc) as [fl [[d [_ [Hd Hw2]]] | [e' [Hr _]]]]; [|discriminate Hr].
      subst w1. cbn [pending db set_pending set_session set_uuid_ctr] in Hd.
      rewrite Hp in Hd. simpl in Hd. inversion Hd; subst d; clear Hd.
      unfold bind at 1. fold record.
      destruct (audit_after_commit (Some (User.id user)) "authentication" "login_success" w2)
        as [w3 [Hr [Hu Hs]]]; [subst w2; reflexivity|].
      rewrite Hr. unfold bind, flash, modify, ret. intros Hout.
      inversion Hout; subst w'; clear Hout.
      exists user. split; [reflexivity|]. split; [exact Hpw|]. split; [exact Hl|]. split.
      * cbn [snd db set_flashed]. unfold query_user. rewrite Hu. subst w2.
        cbn [db set_pending set_db set_faults users].
        apply (query_replace_user (reset_lockout utcnow user)).
        exists user. split; [|reflexivity]. apply find_some in Hfind. tauto.
      * cbn [snd session set_flashed]. rewrite Hs. subst w2.
        cbn [session set_pending set_db set_faults set_session set_uuid_ctr].
        rewrite lookup_insert_ne by discriminate.
        rewrite lookup_insert_ne by discriminate.
        apply lookup_insert_eq.
  - unfold bind at 1. unfold session_do at 1, modify at 1. unfold bind at 1.
    destruct (commit _) as [[[]|e] w2] eqn:Hc; [|discriminate].
    unfold bind at 1. fold record.
    destruct (log_audit_event_effect utcnow remote_addr user_agent es (Some (User.id user))
                "authentication" "login_failed" None None [] w2) as [wa [Hr _]].
    subst record. rewrite Hr. discriminate.
Qed.

(** A right password on an unlocked account whose second factor, if any,
    checks out: the login succeeds as soon as the store accepts the commit. *)
Lemma login_succeeds (form : LoginForm) (w : World) (user : User.t) :
  validate_on_submit form = true ->
  find (fun u => String.eqb (User.username u) (username form)) (users (db w)) = Some user ->
  check_password check_password_hash user (password form) = true ->
  is_locked utcnow user = false ->
  User.two_factor_enabled user
  && (String.eqb (totp_code form) ""
      || negb (verify_totp totp_verify user (totp_code form))) = false ->
  pending w = [] ->
  hd false (faults w) = false ->
  exists w', login_ form w = (Ok (Redirect "index"), w').
Proof.
  intros Hv Hfind Hpw Hl H2 Hp Hf. subst login_. unfold login. rewrite Hv.
  unfold bind at 1. unfold get at 1. rewrite Hfind, Hpw, Hl, H2.
  unfold bind at 1. unfold session_do at 1, modify at 1.
  unfold bind at 1. unfold session_set at 1, modify at 1.
  unfold bind at 1. unfold session_set at 1, modify at 1.
  unfold bind at 1. unfold fresh_uuid at 1.
  unfold bind at 1. unfold session_set at 1, modify at 1.
  unfold bind at 1.
  match goal with |- context [commit ?x] => set (w1 := x) end.
  destruct (commit_accepted w1 (mkDatabase (replace_user (reset_lockout utcnow user)
                                              (users (db w)))
                                 (file_metadata (db w)) (file_permissions (db w))
                                 (audit_logs (db w)))) as [fl Hc].
  { exact Hf. }
  { subst w1. cbn [pending db set_pending set_session set_uuid_ctr]. rewrite Hp. reflexivity. }
  rewrite Hc. unfold bind at 1. fold record.
  match goal with |- context [record _ _ _ _ _ _ ?x] => set (w2 := x) end.
  destruct (audit_after_commit (Some (User.id user)) "authentication" "login_success" w2)
    as [w3 [Hr _]]; [reflexivity|].
  rewrite Hr. unfold bind, flash, modify, ret. eexists. reflexivity.
Qed.

End LoginFacts.

Lemma record_failure_counts (utcnow : datetime) (user : User.t) :
  User.failed_login_attempts (record_failure utcnow user)
  = (User.failed_login_attempts user + 1)%Z.
Proof. reflexivity. Qed.

Lemma record_failure_locks (utcnow : datetime) (user : User.t) :
  (5 <= User.failed_login_attempts user + 1)%Z ->
  User.locked_until (record_failure utcnow user) = Some (utcnow + 30 * 60)%Z.
Proof.
  intros H. unfold record_failure. cbn [User.locked_until].
  apply Z.leb_le in H. rewrite H. reflexivity.
Qed.

Lemma record_failure_below_threshold (utcnow : datetime) (user : User.t) :
  (User.failed_login_attempts user + 1 < 5)%Z ->
  User.locked_until (record_failure utcnow user) = User.locked_until user.
Proof.
  intros H. unfold record_failure. cbn [User.locked_until].
  apply Z.leb_gt in H. rewrite H. reflexivity.
Qed.

(** C10: a failed password attempt for an existing user adds one to
    [failed_login_attempts] and, once the count has reached 5, sets
    [locked_until] 30 minutes ahead; while [locked_until] is in the future
    a login with the right password is refused and changes neither the
    tables nor the session; every login that succeeds leaves the counter
    at 0 and [locked_until] cleared, and a right password on an unlocked
    account does succeed. *)
Theorem login_lockout
    (utcnow : datetime) (remote_addr : string) (user_agent : option string) (es : bool)
    (uuid4 : nat -> string) (check_password_hash totp_verify : string -> string -> bool)
    (form : LoginForm) (w : World) (user : User.t) :
  validate_on_submit form = true ->
  find (fun u => String.eqb (User.username u) (username form)) (users (db w)) = Some user ->
  pending w = [] ->
  let login_ := login utcnow remote_addr user_agent es uuid4 check_password_hash totp_verify in
  (check_password check_password_hash user (password form) = false ->
   hd false (faults w) = false ->
   exists w' user',
     login_ form w = (Ok (RenderTemplate "login.html"), w')
     /\ query_user (User.id user) (db w') = Some user'
     /\ User.failed_login_attempts user' = (User.failed_login_attempts user + 1)%Z
     /\ ((5 <= User.failed_login_attempts user')%Z ->
         User.locked_until user' = Some (utcnow + 30 * 60)%Z)
     /\ ((User.failed_login_attempts user' < 5)%Z ->
         User.locked_until user' = User.locked_until user))
  /\ (check_password check_password_hash user (password form) = true ->
      forall t, User.locked_until user = Some t -> (utcnow < t)%Z ->
      exists w',
        login_ form w = (Ok (RenderTemplate "login.html"), w')
        /\ db w' = db w /\ session w' = session w)
  /\ (forall w',
        login_ form w = (Ok (Redirect "index"), w') ->
        exists user',
          query_user (User.id user) (db w') = Some user'
          /\ User.failed_login_attempts user' = 0%Z
          /\ User.locked_until user' = None)
  /\ (check_password check_password_hash user (password form) = true ->
      is_locked utcnow user = false ->
      User.two_factor_enabled user = false ->
      hd false (faults w) = false ->
      exists w', login_ form w = (Ok (Redirect "index"), w')).
Proof.
  intros Hv Hfind Hp. cbv zeta. repeat split.
  - intros Hpw Hf.
    destruct (login_failed_attempt utcnow remote_addr user_agent es uuid4 check_password_hash
                totp_verify form w user Hv Hfind Hpw Hp Hf) as [w' [Hr Hq]].
    exists w', (record_failure utcnow user). split; [exact Hr|]. split; [exact Hq|].
    rewrite record_failure_counts. split; [reflexivity|]. split.
    + apply record_failure_locks.
    + apply record_failure_below_threshold.
  - intros Hpw t Ht Hlt.
    assert (Hl : is_locked utcnow user = true).
    { unfold is_locked. rewrite Ht. apply Z.ltb_lt. exact Hlt. }
    rewrite (login_refused_while_locked utcnow remote_addr user_agent es uuid4
               check_password_hash totp_verify form w user Hv Hfind Hpw Hl).
    eexists. split; [reflexivity|]. split; reflexivity.
  - intros w' Hr.
    destruct (login_success_resets utcnow remote_addr user_agent es uuid4 check_password_hash
                totp_verify form w w' Hp Hr) as [u [Hfu [_ [_ [Hq _]]]]].
    rewrite Hfind in Hfu. inversion Hfu; subst u.
    exists (reset_lockout utcnow user). split; [exact Hq|]. split; reflexivity.
  - intros Hpw Hl H2 Hf.
    apply (login_succeeds utcnow remote_addr user_agent es uuid4 check_password_hash
             totp_verify form w user Hv Hfind Hpw Hl); [|exact Hp|exact Hf].
    rewrite H2. reflexivity.
Qed.

Lemma login_lockout_witness :
  let form := mkLoginForm true "alice" "guess" "" false in
  let w := login_world alice_four_failures [] in
  exists w' user',
    login 1000%Z "10.0.0.1" None false sample_uuid4 sample_check_password_hash
          (fun _ _ => false) form w = (Ok (RenderTemplate "login.html"), w')
    /\ query_user "u1" (db w') = Some user'
    /\ User.failed_login_attempts user' = 5%Z
    /\ User.locked_until user' = Some 2800%Z.
Proof.
  cbv zeta.
  pose proof (login_lockout 1000%Z "10.0.0.1" None false sample_uuid4
                sample_check_password_hash (fun _ _ => false)
                (mkLoginForm true "alice" "guess" "" false)
                (login_world alice_four_failures []) alice_four_failures) as H.
  cbv zeta in H.
  destruct H as [H1 _]; [reflexivity | reflexivity | reflexivity |].
  destruct H1 as [w' [user' [Hr [Hq [Hn [Hlock _]]]]]]; [reflexivity | reflexivity |].
  exists w', user'. split; [exact Hr|]. split; [exact Hq|]. split; [exact Hn|].
  apply Hlock. rewrite Hn. discriminate.
Defined.

(** ** Retention sweep inside a request *)

Lemma NoDup_map_eq {A B : Type} (h : A -> B) (l : list A) (a b : A) :
  List.NoDup (map h l) -> In a l -> In b l -> h a = h b -> a = b.
Proof.
  induction l as [|x l IH]; simpl; intros Hnd Ha Hb Hab; [contradiction|].
  apply NoDup_cons_iff in Hnd. destruct Hnd as [Hx Hnd].
  destruct Ha as [-> | Ha], Hb as [-> | Hb].
  - reflexivity.
  - exfalso. apply Hx. rewrite Hab. apply in_map. exact Hb.
  - exfalso. apply Hx. rewrite <- Hab. apply in_map. exact Ha.
  - apply IH; assumption.
Qed.

Lemma flush_op_keeps_file (g : FileMetadata.t) (op : SessOp) (d d' : Database) :
  op <> DeleteFile (FileMetadata.id g) ->
  In g (file_metadata d) ->
  flush_op d op = Some d' ->
  In g (file_metadata d').
Proof.
  intros Hne Hin. destruct op as [f | p | a | fid | u]; simpl.
  - destruct (has_file_id _ d); [discriminate|]. intros H; inversion H; subst; simpl.
    apply in_or_app. left. exact Hin.
  - intros H; inversion H; subst. exact Hin.
  - destruct (AuditLog.organization_id a); [|discriminate].
    intros H; inversion H; subst. exact Hin.
  - intros H; inversion H; subst; simpl. apply filter_In. split; [exact Hin|].
    destruct (String.eqb (FileMetadata.id g) fid) eqn:E; [|reflexivity].
    apply String.eqb_eq in E. subst fid. contradiction Hne. reflexivity.
  - intros H; inversion H; subst. exact Hin.
Qed.

Lemma flush_keeps_file (g : FileMetadata.t) (ops : list SessOp) (d d' : Database) :
  ~ In (DeleteFile (FileMetadata.id g)) ops ->
  In g (file_metadata d) ->
  flush ops d = Some d' ->
  In g (file_metadata d').
Proof.
  revert d. induction ops as [|op ops IH]; intros d Hn Hin; simpl.
  - intros H; inversion H; subst. exact Hin.
  - destruct (flush_op d op) as [d1|] eqn:E; [|discriminate].
    apply IH.
    + intros Hc. apply Hn. right. exact Hc.
    + eapply flush_op_keeps_file; [|exact Hin|exact E].
      intros ->. apply Hn. left. reflexivity.
Qed.

Section RetentionFacts.

Variable utcnow : datetime.
Variable remote_addr : string.
Variable user_agent : option string.
Variable es : bool.

Let body := retention_body utcnow remote_addr user_agent es.
Let sweep := apply_retention_policies utcnow remote_addr user_agent es.


(** One iteration, whatever fails: it always returns, it can only remove
    the artifact of its own file, and it either leaves tables and unit of
    work alone or flushes the pending work with an audit row and schedules
    the deletion of its own row. *)
Lemma retention_body_effect (file_meta : FileMetadata.t) (w : World) :
  exists w',
    body file_meta w = (Ok tt, w')
    /\ (fs w' = fs w \/ fs w' = delete (FileMetadata.file_path file_meta) (fs w))
    /\ ((db w' = db w /\ pending w' = pending w)
        \/ ((db w' = db w
             \/ exists a, flush (pending w ++ [AddAudit a]) (db w) = Some (db w'))
            /\ pending w' = [DeleteFile (FileMetadata.id file_meta)])).
Proof.
  subst body. unfold retention_body, try_except.
  unfold bind at 1.
  set (pre := if str_in _ _ then _ else _).
  assert (Hpre : exists r w1, pre w = (r, w1)
                   /\ db w1 = db w /\ pending w1 = pending w
                   /\ (fs w1 = fs w
                       \/ (r = Ok tt
                           /\ fs w1 = delete (FileMetadata.file_path file_meta) (fs w)))).
  { subst pre. destruct (str_in _ _).
    - unfold bind at 1. unfold os_path_exists, bind, get, ret.
      destruct (bool_decide _).
      + unfold os_remove, bind, get, modify, raise.
        destruct (fallible OSError w) as [[[]|e] w1] eqn:E;
          destruct (fallible_frame _ _ _ _ E) as [fl ->].
        * cbn [fs set_faults].
          destruct (fs w !! FileMetadata.file_path file_meta);
            do 2 eexists; (split; [reflexivity|]); cbn; auto.
        * do 2 eexists; (split; [reflexivity|]); cbn; auto.
      + do 2 eexists; (split; [reflexivity|]); auto.
    - unfold ret. do 2 eexists; (split; [reflexivity|]); auto. }
  destruct Hpre as [r [w1 [-> [Hdb [Hpend Hfs]]]]].
  destruct r as [[]|e].
  - unfold bind at 1.
    destruct (log_audit_event_effect utcnow remote_addr user_agent es None "data_retention"
                "file_deleted" (Some "file") (Some (FileMetadata.id file_meta))
                (retention_audit_details file_meta) w1)
      as [w2 [-> [Hfs2 [_ [_ [_ [_ [_ [Hp2 Hdb2]]]]]]]]].
    unfold session_do, modify. eexists. split; [reflexivity|].
    cbn [fs db pending set_pending]. rewrite Hfs2, Hp2. split.
    + destruct Hfs as [-> | [_ ->]]; auto.
    + right. split; [|reflexivity].
      destruct Hdb2 as [-> | Hfl]; [left; exact Hdb|].
      right. rewrite Hpend, Hdb in Hfl. eexists. exact Hfl.
  - unfold logger, modify. eexists. split; [reflexivity|].
    cbn [fs db pending set_logs].
    destruct Hfs as [-> | [Hr _]]; [|discriminate Hr]. auto.
Qed.

(** The loop never removes the row of a file that it does not visit. *)
Lemma sweep_loop_keeps_row (g : FileMetadata.t) (l : list FileMetadata.t) (w : World) :
  (forall f, In f l -> FileMetadata.id f <> FileMetadata.id g) ->
  In g (file_metadata (db w)) ->
  ~ In (DeleteFile (FileMetadata.id g)) (pending w) ->
  exists w',
    for_each l body w = (Ok tt, w')
    /\ In g (file_metadata (db w'))
    /\ ~ In (DeleteFile (FileMetadata.id g)) (pending w').
Proof.
  revert w. induction l as [|f l IH]; intros w Hids Hin Hpend.
  - exists w. split; [reflexivity|]. auto.
  - simpl. unfold bind.
    destruct (retention_body_effect f w) as [w1 [-> [_ Hcase]]].
    apply IH.
    + intros f' Hf'. apply Hids. right. exact Hf'.
    + destruct Hcase as [[-> _] | [[-> | [a Hfl]] _]]; try exact Hin.
      eapply flush_keeps_file; [|exact Hin|exact Hfl].
      intros Hc. apply in_app_or in Hc. destruct Hc as [Hc | [Hc | []]]; [|discriminate Hc].
      exact (Hpend Hc).
    + destruct Hcase as [[_ ->] | [_ ->]]; [exact Hpend|].
      intros [Hc | []]. inversion Hc as [Hid]. apply (Hids f); [left; reflexivity | exact Hid].
Qed.

(** The whole sweep, whatever fails, keeps the row of every file whose
    identifier is not among the selected ones. *)
Lemma sweep_keeps_row (g : FileMetadata.t) (w : World) :
  (forall f, In f (List.filter (expired utcnow) (file_metadata (db w))) ->
             FileMetadata.id f <> FileMetadata.id g) ->
  In g (file_metadata (db w)) ->
  ~ In (DeleteFile (FileMetadata.id g)) (pending w) ->
  In g (file_metadata (db (snd (sweep w)))).
Proof.
  intros Hids Hin Hpend. subst sweep. unfold apply_retention_policies, try_except.
  unfold bind at 1. unfold get at 1. unfold bind at 1.
  destruct (sweep_loop_keeps_row g _ w Hids Hin Hpend) as [w1 [Hr [Hin1 Hp1]]].
  subst body. rewrite Hr. unfold bind at 1.
  destruct (commit w1) as [r w2] eqn:Hc.
  destruct (commit_inv _ _ _ Hc) as [fl [[d [-> [Hd ->]]] | [e [-> ->]]]].
  - unfold ret. cbn [snd db set_pending set_db].
    eapply flush_keeps_file; [exact Hp1 | exact Hin1 | exact Hd].
  - unfold bind, logger, modify, ret. cbn [snd db set_pending set_faults set_logs].
    exact Hin1.
Qed.

End RetentionFacts.

(** *** The sweep when nothing fails *)

Lemma flush_deletes (ops : list SessOp) (d : Database) :
  Forall is_delete ops ->
  exists d',
    flush ops d = Some d'
    /\ users d' = users d
    /\ audit_logs d' = audit_logs d
    /\ (forall g, In g (file_metadata d')
                  <-> In g (file_metadata d) /\ ~ In (DeleteFile (FileMetadata.id g)) ops).
Proof.
  revert d. induction ops as [|op ops IH]; intros d Hall.
  - exists d. simpl. repeat split; tauto.
  - inversion Hall as [|? ? [fid ->] Hrest]; subst. simpl.
    set (d1 := mkDatabase _ _ _ _).
    destruct (IH d1 Hrest) as [d' [Hfl [Hu [Ha Hfiles]]]].
    exists d'. split; [exact Hfl|]. split; [exact Hu|]. split; [exact Ha|].
    intros g. rewrite Hfiles. subst d1. cbn [file_metadata]. rewrite filter_In.
    split.
    + intros [[Hin Hne] Hno]. split; [exact Hin|].
      intros [Hc | Hc]; [|exact (Hno Hc)].
      inversion Hc; subst fid. rewrite String.eqb_refl in Hne. discriminate Hne.
    + intros [Hin Hno]. split; [split; [exact Hin|]|].
      * destruct (String.eqb (FileMetadata.id g) fid) eqn:E; [|reflexivity].
        apply String.eqb_eq in E. subst fid. exfalso. apply Hno. left. reflexivity.
      * intros Hc. apply Hno. right. exact Hc.
Qed.

Lemma audit_row_session (utcnow : datetime) (remote_addr : string)
    (user_agent : option string) (w1 w2 : World) (user_id : option string)
    (event_type action : string) (resource_type resource_id : option string)
    (details : list (string * json)) :
  session w1 = session w2 ->
  audit_row utcnow remote_addr user_agent w1 user_id event_type action resource_type
            resource_id details
  = audit_row utcnow remote_addr user_agent w2 user_id event_type action resource_type
              resource_id details.
Proof. unfold audit_row. intros ->. reflexivity. Qed.

(** The recorder when nothing fails and the flush is accepted. *)
Lemma log_audit_event_quiet
    (utcnow : datetime) (remote_addr : string) (user_agent : option string) (es : bool)
    (user_id : option string) (event_type action : string)
    (resource_type resource_id : option string) (details : list (string * json))
    (w : World) (d : Database) :
  faults w = [] ->
  flush (pending w ++ [AddAudit (audit_row utcnow remote_addr user_agent w user_id event_type
                                   action resource_type resource_id details)]) (db w)
  = Some d ->
  exists w',
    log_audit_event utcnow remote_addr user_agent es user_id event_type action
      resource_type resource_id details w = (Ok tt, w')
    /\ db w' = d /\ pending w' = [] /\ faults w' = []
    /\ fs w' = fs w /\ dirs w' = dirs w /\ session w' = session w
    /\ tasks w' = tasks w /\ uuid_ctr w' = uuid_ctr w.
Proof.
  intros Hf Hd. rewrite log_audit_event_unfold. cbv zeta.
  rewrite (commit_quiet _ d); [| exact Hf | exact Hd].
  destruct es.
  - unfold es_index, bind, modify. rewrite fallible_quiet by exact Hf.
    eexists. split; [reflexivity|]. cbn. repeat split; try reflexivity. exact Hf.
  - eexists. split; [reflexivity|]. cbn. repeat split; try reflexivity. exact Hf.
Qed.

Section QuietRetention.

Variable utcnow : datetime.
Variable remote_addr : string.
Variable user_agent : option string.
Variable es : bool.

Let body := retention_body utcnow remote_addr user_agent es.
Let sweep := apply_retention_policies utcnow remote_addr user_agent es.

(** One iteration when nothing fails: the artifact of a confidential or
    restricted file is removed and any other artifact is left alone; the
    pending deletions are flushed together with the audit row; and the
    deletion of the row of this file is only scheduled. *)
Lemma retention_body_quiet (f : FileMetadata.t) (w : World) (org : string) :
  faults w = [] ->
  session w !! "organization_id" = Some org ->
  Forall is_delete (pending w) ->
  exists w' d1,
    body f w = (Ok tt, w')
    /\ flush (pending w) (db w) = Some d1
    /\ file_metadata (db w') = file_metadata d1
    /\ audit_logs (db w') = (audit_logs (db w) ++ [retention_audit_row utcnow remote_addr user_agent w f])%list
    /\ pending w' = [DeleteFile (FileMetadata.id f)]
    /\ faults w' = [] /\ session w' = session w
    /\ fs w' = (if classified f then delete (FileMetadata.file_path f) (fs w) else fs w).
Proof.
  intros Hf Horg Hdel.
  destruct (flush_deletes (pending w) (db w) Hdel) as [d1 [Hd1 [_ [Ha1 _]]]].
  set (row := retention_audit_row utcnow remote_addr user_agent w f).
  set (d2 := mkDatabase (users d1) (file_metadata d1) (file_permissions d1)
                        (audit_logs d1 ++ [row])).
  assert (Hflush : forall w1, session w1 = session w -> pending w1 = pending w ->
                              db w1 = db w ->
             flush (pending w1 ++ [AddAudit (retention_audit_row utcnow remote_addr user_agent w1 f)]) (db w1) = Some d2).
  { intros w1 Hs Hp Hdb. rewrite flush_app, Hp, Hdb, Hd1.
    unfold retention_audit_row. rewrite (audit_row_session _ _ _ w1 w) by exact Hs.
    fold (retention_audit_row utcnow remote_addr user_agent w f). fold row.
    assert (Hrow : AuditLog.organization_id row = Some org) by exact Horg.
    clearbody row. cbn [flush flush_op]. rewrite Hrow. reflexivity. }
  assert (Hpre : exists w1,
             (if classified f
              then present <- os_path_exists (FileMetadata.file_path f) ;;
                   if present then os_remove (FileMetadata.file_path f) else ret tt
              else ret tt) w = (Ok tt, w1)
             /\ faults w1 = [] /\ session w1 = session w /\ pending w1 = pending w
             /\ db w1 = db w
             /\ fs w1 = (if classified f then delete (FileMetadata.file_path f) (fs w)
                         else fs w)).
  { destruct (classified f).
    - unfold bind at 1. unfold os_path_exists, bind, get, ret.
      destruct (fs w !! FileMetadata.file_path f) as [content|] eqn:E.
      + rewrite bool_decide_eq_true_2 by eauto.
        unfold os_remove, bind, get, modify. rewrite fallible_quiet by exact Hf.
        rewrite E. eexists. split; [reflexivity|]. cbn. auto.
      + rewrite bool_decide_eq_false_2 by (intros [? Hc]; discriminate Hc).
        eexists. split; [reflexivity|]. rewrite delete_id by exact E. auto.
    - unfold ret. eexists. split; [reflexivity|]. auto. }
  destruct Hpre as [w1 [Hr1 [Hf1 [Hs1 [Hp1 [Hdb1 Hfs1]]]]]].
  destruct (log_audit_event_quiet utcnow remote_addr user_agent es None "data_retention"
              "file_deleted" (Some "file") (Some (FileMetadata.id f))
              (retention_audit_details f) w1 d2 Hf1 (Hflush w1 Hs1 Hp1 Hdb1))
    as [w2 [Hr2 [Hdb2 [Hp2 [Hf2 [Hfs2 [_ [Hs2 _]]]]]]]].
  subst body. unfold retention_body, try_except. unfold bind at 1.
  fold (classified f). rewrite Hr1. unfold bind at 1. rewrite Hr2.
  unfold session_do, modify.
  eexists. exists d1. split; [reflexivity|]. split; [exact Hd1|].
  cbn [db pending faults session fs set_pending]. rewrite Hdb2, Hp2, Hf2, Hs2, Hfs2.
  subst d2. cbn [file_metadata audit_logs]. rewrite Ha1.
  repeat split; try reflexivity; assumption.
Qed.

Lemma doomed_after_body (fid : string) (w w1 : World) (d1 : Database) :
  Forall is_delete (pending w) ->
  flush (pending w) (db w) = Some d1 ->
  file_metadata (db w1) = file_metadata d1 ->
  doomed fid w -> doomed fid w1.
Proof.
  intros Hdel Hd1 Hfiles Hdoom. right. intros g Hg. rewrite Hfiles in Hg.
  destruct (flush_deletes (pending w) (db w) Hdel) as [d [Hd [_ [_ Hchar]]]].
  rewrite Hd1 in Hd. inversion Hd; subst d. apply Hchar in Hg. destruct Hg as [Hg Hno].
  destruct Hdoom as [Hp | Hgone].
  - intros Hid. apply Hno. rewrite Hid. exact Hp.
  - apply Hgone. exact Hg.
Qed.

(** The loop when nothing fails. *)
Lemma sweep_loop_quiet (l : list FileMetadata.t) (w : World) (org : string) :
  faults w = [] ->
  session w !! "organization_id" = Some org ->
  Forall is_delete (pending w) ->
  exists w',
    for_each l body w = (Ok tt, w')
    /\ faults w' = [] /\ session w' = session w /\ Forall is_delete (pending w')
    /\ (forall fid, doomed fid w -> doomed fid w')
    /\ (forall f, In f l -> doomed (FileMetadata.id f) w')
    /\ (forall a, In a (audit_logs (db w)) -> In a (audit_logs (db w')))
    /\ (forall f, In f l ->
                  In (retention_audit_row utcnow remote_addr user_agent w f)
                     (audit_logs (db w')))
    /\ (forall p, fs w !! p = None -> fs w' !! p = None)
    /\ (forall f, In f l -> classified f = true ->
                  fs w' !! FileMetadata.file_path f = None)
    /\ (forall p, (forall f, In f l -> classified f = true ->
                             FileMetadata.file_path f <> p) ->
                  fs w' !! p = fs w !! p).
Proof.
  revert w. induction l as [|f0 l IH]; intros w Hf Horg Hdel.
  - exists w. split; [reflexivity|]. repeat split; auto; intros ? [].
  - destruct (retention_body_quiet f0 w org Hf Horg Hdel)
      as [w1 [d1 [Hr1 [Hd1 [Hfiles1 [Haud1 [Hp1 [Hf1 [Hs1 Hfs1]]]]]]]]].
    assert (Hdel1 : Forall is_delete (pending w1)).
    { rewrite Hp1. constructor; [eexists; reflexivity | constructor]. }
    assert (Horg1 : session w1 !! "organization_id" = Some org)
      by (rewrite Hs1; exact Horg).
    destruct (IH w1 Hf1 Horg1 Hdel1)
      as [w' [Hr [Hf' [Hs' [Hdel' [Hdoom [Hvis [Hmono [Haud [Hnone [Hcls Hframe]]]]]]]]]]].
    assert (Hnone1 : forall p, fs w !! p = None -> fs w1 !! p = None).
    { intros p Hp. rewrite Hfs1. destruct (classified f0); [|exact Hp].
      apply lookup_delete_None. right. exact Hp. }
    exists w'. simpl. unfold bind. subst body. rewrite Hr1. split; [exact Hr|].
    split; [exact Hf'|]. split; [congruence|]. split; [exact Hdel'|].
    split; [|split; [|split; [|split; [|split; [|split]]]]].
    + intros fid Hd. apply Hdoom. exact (doomed_after_body fid w w1 d1 Hdel Hd1 Hfiles1 Hd).
    + intros f [<- | Hin]; [|exact (Hvis f Hin)].
      apply Hdoom. left. rewrite Hp1. left. reflexivity.
    + intros a Ha. apply Hmono. rewrite Haud1. apply in_or_app. left. exact Ha.
    + intros f [<- | Hin].
      * apply Hmono. rewrite Haud1. apply in_or_app. right. left. reflexivity.
      * unfold retention_audit_row.
        rewrite <- (audit_row_session utcnow remote_addr user_agent w1 w) by exact Hs1.
        exact (Haud f Hin).
    + intros p Hp. apply Hnone, Hnone1, Hp.
    + intros f [<- | Hin] Hc; [|exact (Hcls f Hin Hc)].
      apply Hnone. rewrite Hfs1, Hc. apply lookup_delete_eq.
    + intros p Hp. rewrite Hframe.
      * rewrite Hfs1. destruct (classified f0) eqn:Hc; [|reflexivity].
        apply lookup_delete_ne. apply Hp; [left; reflexivity | exact Hc].
      * intros f Hin Hc. apply Hp; [right; exact Hin | exact Hc].
Qed.

End QuietRetention.

(** ** Upload pipeline (C1, C2, C3, C7, C8) *)

Lemma fallible_Ok (e : exn) (w w' : World) (u : unit) :
  fallible e w = (Ok u, w') -> exists fl, w' = set_faults fl w.
Proof. apply fallible_frame. Qed.

Lemma commit_Ok (w w' : World) (u : unit) :
  commit w = (Ok u, w') ->
  exists fl d, flush (pending w) (db w) = Some d
               /\ w' = set_pending [] (set_db d (set_faults fl w)).
Proof.
  intros H. destruct (commit_inv _ _ _ H) as [fl [[d [_ [Hd ->]]] | [e [Hr _]]]].
  - eauto.
  - discriminate Hr.
Qed.

Lemma os_makedirs_Ok (path : string) (w w' : World) (u : unit) :
  os_makedirs path w = (Ok u, w') ->
  exists fl, w' = set_dirs ({[path]} ∪ dirs w) (set_faults fl w).
Proof.
  unfold os_makedirs. intros H. apply bind_Ok in H. destruct H as [[] [w1 [H1 H2]]].
  apply fallible_Ok in H1. destruct H1 as [fl ->].
  unfold modify in H2. inversion H2; subst. exists fl. reflexivity.
Qed.

Lemma file_save_Ok (file : FileStorage) (path : string) (w w' : World) (u : unit) :
  file_save file path w = (Ok u, w') ->
  exists fl, w' = set_fs (<[path := stream file]> (fs w)) (set_faults fl w).
Proof.
  unfold file_save. intros H. apply bind_Ok in H. destruct H as [[] [w1 [H1 H2]]].
  apply fallible_Ok in H1. destruct H1 as [fl ->].
  unfold modify in H2. inversion H2; subst. exists fl. reflexivity.
Qed.

Lemma os_path_getsize_Ok (path : string) (w w' : World) (n : Z) :
  os_path_getsize path w = (Ok n, w') ->
  exists content fl,
    fs w !! path = Some content /\ n = Z.of_nat (length content) /\ w' = set_faults fl w.
Proof.
  unfold os_path_getsize, bind at 1, get. destruct (fs w !! path) as [content|]; [|discriminate].
  intros H. apply bind_Ok in H. destruct H as [[] [w1 [H1 H2]]].
  apply fallible_Ok in H1. destruct H1 as [fl ->].
  unfold ret in H2. inversion H2; subst. eauto.
Qed.

Lemma calculate_checksum_Ok (path : string) (w w' : World) (c : string) :
  calculate_checksum path w = (Ok c, w') ->
  exists content fl,
    fs w !! path = Some content /\ c = checksum_of content /\ w' = set_faults fl w.
Proof.
  unfold calculate_checksum, bind at 1, get.
  destruct (fs w !! path) as [content|]; [|discriminate].
  intros H. apply bind_Ok in H. destruct H as [[] [w1 [H1 H2]]].
  apply fallible_Ok in H1. destruct H1 as [fl ->].
  unfold ret in H2. inversion H2; subst. eauto.
Qed.

Lemma session_item_Ok (key : string) (w w' : World) (v : string) :
  session_item key w = (Ok v, w') -> session w !! key = Some v /\ w' = w.
Proof.
  unfold session_item, bind, get. destruct (session w !! key) as [x|]; [|discriminate].
  unfold ret. intros H. inversion H; subst. auto.
Qed.

Lemma user_id_of_Ok (user : option User.t) (w w' : World) (v : string) :
  user_id_of user w = (Ok v, w') -> exists u, user = Some u /\ v = User.id u /\ w' = w.
Proof.
  unfold user_id_of. destruct user as [u|]; [|discriminate].
  unfold ret. intros H. inversion H; subst. eauto.
Qed.

Lemma process_file_content_delay_Ok (fid : string) (w w' : World) (u : unit) :
  process_file_content_delay fid w = (Ok u, w') ->
  exists fl, w' = set_tasks (tasks w ++ [fid]) (set_faults fl w).
Proof.
  unfold process_file_content_delay. intros H. apply bind_Ok in H.
  destruct H as [[] [w1 [H1 H2]]].
  apply fallible_Ok in H1. destruct H1 as [fl ->].
  unfold modify in H2. inversion H2; subst. exists fl. reflexivity.
Qed.

Lemma flush_add_file (f : FileMetadata.t) (d d' : Database) :
  flush [AddFile f] d = Some d' ->
  has_file_id (FileMetadata.id f) d = false
  /\ d' = mkDatabase (users d) (file_metadata d ++ [f]) (file_permissions d) (audit_logs d).
Proof.
  simpl. destruct (has_file_id (FileMetadata.id f) d); [discriminate|].
  intros H. inversion H; subst. auto.
Qed.

Section UploadFacts.

Variable utcnow : datetime.
Variable remote_addr : string.
Variable user_agent : option string.
Variable es : bool.
Variable RETENTION_POLICY_DAYS : Z.
Variable uuid4 : nat -> string.
Variable secure_filename : string -> string.
Variable guess_type : string -> option string.

Let one := upload_one utcnow remote_addr user_agent es RETENTION_POLICY_DAYS uuid4
                      secure_filename guess_type.
Let loop := upload_loop utcnow remote_addr user_agent es RETENTION_POLICY_DAYS uuid4
                        secure_filename guess_type.
Let row := uploaded_row utcnow RETENTION_POLICY_DAYS uuid4 secure_filename guess_type.

(** What one iteration has done when it returns: the artifact is on disk,
    the row (with the checksum and the size of the stored bytes) and the
    creator's permission are committed, the identifier was not in use, and
    the unit of work is empty. *)
Lemma upload_one_Ok (user : option User.t) (folder_path classification category : string)
    (tags : list string) (file : FileStorage) (w w' : World) (summary : json) :
  one user folder_path classification category tags file w = (Ok summary, w') ->
  pending w = [] ->
  exists u org,
    user = Some u
    /\ session w !! "organization_id" = Some org
    /\ let f := row (User.id u) org folder_path classification category tags file w in
       summary = file_summary f
       /\ has_file_id (FileMetadata.id f) (db w) = false
       /\ file_metadata (db w') = (file_metadata (db w) ++ [f])%list
       /\ file_permissions (db w')
          = (file_permissions (db w) ++ [full_permission (FileMetadata.id f) (User.id u)])%list
       /\ users (db w') = users (db w)
       /\ fs w' = <[FileMetadata.file_path f := stream file]> (fs w)
       /\ pending w' = [] /\ session w' = session w
       /\ uuid_ctr w' = S (uuid_ctr w).
Proof.
  subst one row. unfold upload_one. intros H Hp.
  apply bind_Ok in H. destruct H as [fid [w1 [H1 H]]].
  unfold fresh_uuid in H1. inversion H1; subst fid w1; clear H1.
  apply bind_Ok in H. destruct H as [[] [w2 [H2 H]]].
  apply os_makedirs_Ok in H2. destruct H2 as [fl2 ->].
  apply bind_Ok in H. destruct H as [[] [w3 [H3 H]]].
  apply file_save_Ok in H3. destruct H3 as [fl3 ->].
  apply bind_Ok in H. destruct H as [size [w4 [H4 H]]].
  apply os_path_getsize_Ok in H4. destruct H4 as [content [fl4 [Hc [-> ->]]]].
  cbn [fs set_fs] in Hc. rewrite lookup_insert_eq in Hc. inversion Hc; subst content; clear Hc.
  apply bind_Ok in H. destruct H as [org [w5 [H5 H]]].
  apply session_item_Ok in H5. destruct H5 as [Horg ->].
  apply bind_Ok in H. destruct H as [uid [w6 [H6 H]]].
  apply user_id_of_Ok in H6. destruct H6 as [u [-> [-> ->]]].
  apply bind_Ok in H. destruct H as [sum [w7 [H7 H]]].
  apply calculate_checksum_Ok in H7. destruct H7 as [content [fl7 [Hc [-> ->]]]].
  cbn [fs set_fs set_faults] in Hc. rewrite lookup_insert_eq in Hc.
  inversion Hc; subst content; clear Hc.
  apply bind_Ok in H. destruct H as [[] [w8 [H8 H]]].
  unfold session_do, modify in H8. inversion H8; subst w8; clear H8.
  apply bind_Ok in H. destruct H as [[] [w9 [H9 H]]].
  apply commit_Ok in H9. destruct H9 as [fl9 [d9 [Hd9 ->]]].
  cbn [pending db set_pending set_faults set_fs set_dirs set_uuid_ctr] in Hd9.
  rewrite Hp in Hd9. simpl app in Hd9. apply flush_add_file in Hd9. destruct Hd9 as [Hfresh ->].
  apply bind_Ok in H. destruct H as [uid' [w10 [H10 H]]].
  cbn [user_id_of ret] in H10. inversion H10; subst uid' w10; clear H10.
  apply bind_Ok in H. destruct H as [[] [w11 [H11 H]]].
  unfold session_do, modify in H11. inversion H11; subst w11; clear H11.
  apply bind_Ok in H. destruct H as [[] [w12 [H12 H]]].
  apply commit_Ok in H12. destruct H12 as [fl12 [d12 [Hd12 ->]]].
  cbn [pending db set_pending set_db set_faults app] in Hd12.
  cbn [flush flush_op users file_metadata file_permissions audit_logs] in Hd12.
  inversion Hd12; subst d12; clear Hd12.
  apply bind_Ok in H. destruct H as [[] [w13 [H13 H]]].
  apply process_file_content_delay_Ok in H13. destruct H13 as [fl13 ->].
  apply bind_Ok in H. destruct H as [[] [w14 [H14 H]]].
  match type of H14 with log_audit_event _ _ _ _ ?a ?b ?c ?d ?e ?f ?x = _ =>
    destruct (log_audit_event_effect utcnow remote_addr user_agent es a b c d e f x)
      as [w15 [Hr [Hfs [_ [Hs [_ [_ [Hctr [Hp15 Hdb]]]]]]]]]
  end.
  rewrite Hr in H14. inversion H14; subst w15; clear H14 Hr.
  unfold ret in H. inversion H; subst summary w'; clear H.
  cbn [session fs uuid_ctr db pending set_pending set_db set_faults set_fs set_dirs
       set_uuid_ctr set_tasks] in *.
  exists u, org. split; [reflexivity|]. split; [exact Horg|]. cbv zeta.
  unfold uploaded_row. cbn [FileMetadata.id FileMetadata.file_path].
  cbn [FileMetadata.id] in Hfresh.
  split; [reflexivity|]. split; [exact Hfresh|].
  assert (Htables : file_metadata (db w14) = file_metadata
                      (mkDatabase (users (db w))
                         (file_metadata (db w) ++ [uploaded_row utcnow RETENTION_POLICY_DAYS
                            uuid4 secure_filename guess_type (User.id u) org folder_path
                            classification category tags file w])
                         (file_permissions (db w)
                          ++ [full_permission (uuid4 (uuid_ctr w)) (User.id u)])
                         (audit_logs (db w)))
                    /\ file_permissions (db w14) = (file_permissions (db w)
                          ++ [full_permission (uuid4 (uuid_ctr w)) (User.id u)])%list
                    /\ users (db w14) = users (db w)).
  { destruct Hdb as [-> | Hfl]; [cbn; auto|].
    apply flush_audit_only in Hfl. destruct Hfl as [-> [-> [-> _]]]. cbn. auto. }
  destruct Htables as [Hfm [Hfp Hu]].
  split; [exact Hfm|]. split; [exact Hfp|]. split; [exact Hu|].
  split; [exact Hfs|]. split; [exact Hp15|]. split; [exact Hs|]. exact Hctr.
Qed.

Lemma upload_success_inj (a b : list json) : upload_success a = upload_success b -> a = b.
Proof. unfold upload_success. intros H. inversion H. reflexivity. Qed.

(** What the loop has done when it ends in the success response: for some
    list [new] of rows, one per file that was neither skipped nor refused,
    the response lists their summaries after the ones already collected,
    the rows and the creator's permissions have been appended to the
    tables, and their identifiers are new and distinct. *)
Lemma upload_loop_Ok (user : option User.t) (folder_path classification category : string)
    (tags : list string) (files : list FileStorage) (acc acc' : list json) (w w' : World) :
  loop user folder_path classification category tags files acc w
  = (Ok (upload_success acc'), w') ->
  pending w = [] ->
  exists new,
    acc' = (acc ++ map file_summary new)%list
    /\ file_metadata (db w') = (file_metadata (db w) ++ new)%list
    /\ file_permissions (db w') = (file_permissions (db w) ++ map creator_grant new)%list
    /\ users (db w') = users (db w)
    /\ (forall f, In f new -> has_file_id (FileMetadata.id f) (db w) = false)
    /\ List.NoDup (map FileMetadata.id new)
    /\ (forall f, In f new -> exists u, user = Some u
                                       /\ FileMetadata.created_by_id f = User.id u)
    /\ pending w' = [] /\ session w' = session w.
Proof.
  subst loop. revert acc w. induction files as [|file rest IH]; intros acc w H Hp.
  - simpl in H. unfold ret in H. inversion H as [[Hacc Hw]]. subst w'.
    exists []. simpl. rewrite !app_nil_r.
    repeat split; auto; try constructor; intros ? [].
  - simpl in H. destruct (String.eqb (filename file) "").
    { exact (IH acc w H Hp). }
    destruct (negb (allowed_file (filename file))).
    { unfold ret in H. inversion H. }
    apply bind_Ok in H. destruct H as [summary [w1 [H1 H]]].
    destruct (upload_one_Ok user folder_path classification category tags file w w1 summary
                H1 Hp)
      as [u [org [-> [Horg Hrow]]]].
    cbv zeta in Hrow. subst row.
    set (f := uploaded_row _ _ _ _ _ _ _ _ _ _ _ _ w) in *.
    destruct Hrow as [-> [Hfresh [Hfm [Hfp [Hu [_ [Hp1 [Hs1 _]]]]]]]].
    destruct (IH _ w1 H Hp1)
      as [new [-> [Hfm' [Hfp' [Hu' [Hfresh' [Hnd [Hcr [Hp' Hs']]]]]]]]].
    assert (Hsplit : forall g, In g new ->
              has_file_id (FileMetadata.id g) (db w) = false
              /\ FileMetadata.id f <> FileMetadata.id g).
    { intros g Hg. specialize (Hfresh' g Hg). unfold has_file_id in Hfresh' |- *.
      rewrite Hfm, existsb_app in Hfresh'. apply orb_false_iff in Hfresh'.
      destruct Hfresh' as [Hold Hnew]. split; [exact Hold|].
      cbn [existsb] in Hnew. rewrite orb_false_r in Hnew. intros Heq. rewrite Heq in Hnew.
      rewrite String.eqb_refl in Hnew. discriminate Hnew. }
    exists (f :: new). cbn [map]. rewrite <- !app_assoc. cbn [app].
    split; [reflexivity|]. split; [rewrite Hfm', Hfm, <- app_assoc; reflexivity|].
    split; [rewrite Hfp', Hfp, <- app_assoc; reflexivity|].
    split; [congruence|].
    split; [intros g [<- | Hg]; [exact Hfresh | exact (proj1 (Hsplit g Hg))]|].
    split.
    { constructor; [|exact Hnd]. intros Hin. apply in_map_iff in Hin.
      destruct Hin as [g [Hid Hg]]. apply (proj2 (Hsplit g Hg)). symmetry. exact Hid. }
    split; [intros g [<- | Hg]; [exists u; split; reflexivity | exact (Hcr g Hg)]|].
    split; [exact Hp' | congruence].
Qed.

(** A file refused for its extension ends the loop where it stands: the
    files after it are not looked at, and the world is the one left by the
    files before it. *)
Lemma upload_loop_app (user : option User.t) (folder_path classification category : string)
    (tags : list string) (pre rest : list FileStorage) (acc acc' : list json)
    (w w1 : World) :
  loop user folder_path classification category tags pre acc w
  = (Ok (upload_success acc'), w1) ->
  loop user folder_path classification category tags (pre ++ rest) acc w
  = loop user folder_path classification category tags rest acc' w1.
Proof.
  subst loop. revert acc w. induction pre as [|file pre IH]; intros acc w H.
  - simpl in H. unfold ret in H. inversion H as [[Hacc Hw]]. reflexivity.
  - simpl in H |- *. destruct (String.eqb (filename file) "").
    { exact (IH acc w H). }
    destruct (negb (allowed_file (filename file))).
    { unfold ret in H. inversion H. }
    unfold bind in H |- *.
    destruct (upload_one _ _ _ _ _ _ _ _ user folder_path classification category tags file w)
      as [[summary | e] w2]; [|discriminate H].
    exact (IH _ w2 H).
Qed.

End UploadFacts.

Lemma creator_grant_full (f : FileMetadata.t) :
  is_full_grant (FileMetadata.id f) (FileMetadata.created_by_id f) (creator_grant f) = true.
Proof.
  unfold is_full_grant, creator_grant, full_permission. cbn.
  rewrite !String.eqb_refl. reflexivity.
Qed.

Lemma other_grant_not_full (f g : FileMetadata.t) :
  FileMetadata.id g <> FileMetadata.id f ->
  is_full_grant (FileMetadata.id f) (FileMetadata.created_by_id f) (creator_grant g) = false.
Proof.
  intros Hne. unfold is_full_grant, creator_grant, full_permission. cbn.
  destruct (String.eqb (FileMetadata.id g) (FileMetadata.id f)) eqn:E; [|reflexivity].
  apply String.eqb_eq in E. contradiction.
Qed.

Lemma one_grant_among_new (f : FileMetadata.t) (new : list FileMetadata.t) :
  List.NoDup (map FileMetadata.id new) ->
  In f new ->
  length (List.filter (is_full_grant (FileMetadata.id f) (FileMetadata.created_by_id f))
                      (map creator_grant new)) = 1%nat.
Proof.
  induction new as [|g new IH]; intros Hnd Hin; [contradiction|].
  cbn [map] in Hnd. apply NoDup_cons_iff in Hnd. destruct Hnd as [Hg Hnd].
  cbn [map List.filter].
  destruct Hin as [-> | Hin].
  - rewrite creator_grant_full. cbn [length]. f_equal.
    assert (Hnone : forall l, (forall x, In x l -> FileMetadata.id x <> FileMetadata.id f) ->
              List.filter (is_full_grant (FileMetadata.id f) (FileMetadata.created_by_id f))
                          (map creator_grant l) = []).
    { induction l as [|x l IHl]; intros Hl; [reflexivity|].
      cbn [map List.filter]. rewrite other_grant_not_full by (apply Hl; left; reflexivity).
      apply IHl. intros y Hy. apply Hl. right. exact Hy. }
    rewrite Hnone; [reflexivity|].
    intros x Hx Heq. apply Hg. rewrite <- Heq. apply in_map. exact Hx.
  - rewrite other_grant_not_full; [exact (IH Hnd Hin)|].
    intros Heq. apply Hg. rewrite Heq. apply in_map. exact Hin.
Qed.

Lemma no_grant_before (f : FileMetadata.t) (d : Database) :
  ref_integrity d ->
  has_file_id (FileMetadata.id f) d = false ->
  List.filter (is_full_grant (FileMetadata.id f) (FileMetadata.created_by_id f))
              (file_permissions d) = [].
Proof.
  intros Href Hfresh. unfold ref_integrity in Href.
  induction (file_permissions d) as [|p l IH]; [reflexivity|].
  cbn [List.filter].
  assert (Hp : is_full_grant (FileMetadata.id f) (FileMetadata.created_by_id f) p = false).
  { unfold is_full_grant.
    destruct (String.eqb (FilePermission.file_id p) (FileMetadata.id f)) eqn:E; [|reflexivity].
    apply String.eqb_eq in E. specialize (Href p (or_introl eq_refl)).
    rewrite E, Hfresh in Href. discriminate Href. }
  rewrite Hp. apply IH. intros q Hq. apply Href. right. exact Hq.
Qed.

Lemma query_user_id (uid : string) (d : Database) (u : User.t) :
  query_user uid d = Some u -> User.id u = uid.
Proof.
  unfold query_user. intros H. apply find_some in H. destruct H as [_ H].
  apply String.eqb_eq. exact H.
Qed.

Section RouteFacts.

Variable utcnow : datetime.
Variable remote_addr : string.
Variable user_agent : option string.
Variable is_json : bool.
Variable es : bool.
Variable RETENTION_POLICY_DAYS : Z.
Variable uuid4 : nat -> string.
Variable secure_filename : string -> string.
Variable guess_type : string -> option string.

Let route := upload_file utcnow remote_addr user_agent is_json es RETENTION_POLICY_DAYS uuid4
                         secure_filename guess_type.
Let rloop := route_loop utcnow remote_addr user_agent es RETENTION_POLICY_DAYS uuid4
                        secure_filename guess_type.

(** For an active logged-in user and a request with a [files] part, the
    route answers what its loop answers, and turns any exception of the
    loop into the 500 response. *)
Lemma upload_file_unfold (request : UploadRequest) (w : World) (uid : string)
    (user : User.t) (files : list FileStorage) :
  session w !! "user_id" = Some uid ->
  query_user uid (db w) = Some user ->
  User.status user = "active" ->
  request_files request !! "files" = Some files ->
  route request w
  = match rloop request user files w with
    | (Ok r, w1) => (Ok r, w1)
    | (Raise _, w1) =>
        (Ok (Jsonify 500 (error_body "Upload failed")),
         set_logs (logs w1 ++ [(ERROR, "Upload error")]) w1)
    end.
Proof.
  intros Hs Hq Hact Hfiles. subst route rloop.
  unfold upload_file, requires_auth. unfold bind at 1. unfold get at 1.
  rewrite Hs, Hq, Hact. cbn [String.eqb Ascii.eqb Bool.eqb andb].
  unfold try_except, upload_body. rewrite Hfiles.
  unfold bind at 1. unfold session_item, bind at 1, get at 1. rewrite Hs.
  unfold ret at 1. unfold bind at 1. unfold get at 1. rewrite Hq.
  unfold route_loop.
  destruct (upload_loop _ _ _ _ _ _ _ _ _ _ _ _ _ _ _ w) as [[r | e] w1]; reflexivity.
Qed.

(** A success response of the route comes from its loop, run for the
    active user of the session. *)
Lemma upload_file_success (request : UploadRequest) (w w' : World) (summaries : list json) :
  route request w = (Ok (upload_success summaries), w') ->
  exists uid user files,
    session w !! "user_id" = Some uid
    /\ query_user uid (db w) = Some user
    /\ request_files request !! "files" = Some files
    /\ rloop request user files w = (Ok (upload_success summaries), w').
Proof.
  intros H.
  destruct (session w !! "user_id") as [uid|] eqn:Hs.
  2:{ exfalso. subst route. unfold upload_file, requires_auth in H.
      unfold bind at 1 in H. unfold get at 1 in H. rewrite Hs in H.
      destruct is_json; unfold bind, flash, modify, ret in H; inversion H. }
  destruct (query_user uid (db w)) as [user|] eqn:Hq.
  2:{ exfalso. subst route. unfold upload_file, requires_auth in H.
      unfold bind at 1 in H. unfold get at 1 in H. rewrite Hs, Hq in H.
      destruct is_json; unfold bind, flash, modify, ret in H; inversion H. }
  destruct (String.eqb (User.status user) "active") eqn:Hact.
  2:{ exfalso. subst route. unfold upload_file, requires_auth in H.
      unfold bind at 1 in H. unfold get at 1 in H. rewrite Hs, Hq, Hact in H.
      destruct is_json; unfold bind, flash, modify, ret in H; inversion H. }
  apply String.eqb_eq in Hact.
  destruct (request_files request !! "files") as [files|] eqn:Hfiles.
  2:{ exfalso. subst route. unfold upload_file, requires_auth in H.
      unfold bind at 1 in H. unfold get at 1 in H. rewrite Hs, Hq, Hact in H.
      cbn [String.eqb Ascii.eqb Bool.eqb andb] in H.
      unfold try_except, upload_body in H. rewrite Hfiles in H.
      unfold ret in H. inversion H. }
  rewrite (upload_file_unfold request w uid user files Hs Hq Hact Hfiles) in H.
  exists uid, user, files. split; [reflexivity|]. split; [exact Hq|]. split; [reflexivity|].
  destruct (rloop request user files w) as [[r | e] w1]; inversion H; reflexivity.
Qed.

End RouteFacts.

(** *** Metadata and creator permission (C1) *)

(** C1, as stated, fails: the metadata row and the permission row are
    committed one after the other.  When the second commit raises, the
    request fails with the metadata row committed and no grantee at all. *)
Lemma metadata_committed_without_grant :
  let out := sample_upload [false; false; false; false; false; true] ["a.txt"] "docs" in
  fst out = Ok (Jsonify 500 (error_body "Upload failed"))
  /\ map FileMetadata.id (file_metadata (db (snd out))) = ["uuid-0"]
  /\ file_permissions (db (snd out)) = [].
Proof. vm_compute. repeat split; reflexivity. Qed.

(** C1, amended: after a successful upload, every file of the response has
    its metadata row committed, created by the user of the session, and
    exactly one full-capability permission row of that creator (the tables
    being referentially intact before the request). *)
Theorem upload_grants_creator_once
    (utcnow : datetime) (remote_addr : string) (user_agent : option string)
    (is_json es : bool) (RETENTION_POLICY_DAYS : Z) (uuid4 : nat -> string)
    (secure_filename : string -> string) (guess_type : string -> option string)
    (request : UploadRequest) (w w' : World) (summaries : list json) :
  upload_file utcnow remote_addr user_agent is_json es RETENTION_POLICY_DAYS uuid4
              secure_filename guess_type request w
  = (Ok (upload_success summaries), w') ->
  pending w = [] ->
  ref_integrity (db w) ->
  exists new,
    summaries = map file_summary new
    /\ forall f, In f new ->
         In f (file_metadata (db w'))
         /\ session w !! "user_id" = Some (FileMetadata.created_by_id f)
         /\ In (creator_grant f) (file_permissions (db w'))
         /\ creator_grants f (db w') = 1%nat.
Proof.
  intros H Hp Href.
  apply upload_file_success in H.
  destruct H as [uid [user [files [Hs [Hq [_ Hloop]]]]]].
  unfold route_loop in Hloop.
  apply upload_loop_Ok in Hloop; [|exact Hp].
  destruct Hloop as [new [Hsum [Hfm [Hfp [_ [Hfresh [Hnd [Hcr _]]]]]]]].
  exists new. split; [exact Hsum|]. intros f Hf.
  split; [rewrite Hfm; apply in_or_app; right; exact Hf|].
  split.
  { destruct (Hcr f Hf) as [u [Hu ->]]. inversion Hu; subst u.
    rewrite (query_user_id _ _ _ Hq). exact Hs. }
  split; [rewrite Hfp; apply in_or_app; right; apply in_map; exact Hf|].
  unfold creator_grants. rewrite Hfp, List.filter_app, List.length_app.
  rewrite (no_grant_before f (db w) Href (Hfresh f Hf)).
  rewrite (one_grant_among_new f new Hnd Hf). reflexivity.
Qed.

Lemma upload_grants_creator_once_witness :
  let out := sample_upload [] ["a.txt"; ""; "b.PDF"] "docs" in
  exists new,
    length new = 2%nat
    /\ forall f, In f new ->
         In f (file_metadata (db (snd out)))
         /\ FileMetadata.created_by_id f = "u1"
         /\ creator_grants f (db (snd out)) = 1%nat.
Proof.
  cbv zeta.
  pose proof (upload_grants_creator_once 1000%Z "10.0.0.1" None true true 2555%Z sample_uuid4
                (fun s => s) (fun _ => None) (sample_request ["a.txt"; ""; "b.PDF"] "docs")
                (sample_world empty_db [])
                (snd (sample_upload [] ["a.txt"; ""; "b.PDF"] "docs"))
                [ JObj [ ("id", JStr "uuid-0"); ("name", JStr "a.txt"); ("size", JInt 10);
                         ("type", JStr "txt") ];
                  JObj [ ("id", JStr "uuid-1"); ("name", JStr "b.PDF"); ("size", JInt 10);
                         ("type", JStr "pdf") ] ]) as H.
  destruct H as [new [Hsum Hall]].
  - vm_compute. reflexivity.
  - reflexivity.
  - intros p [].
  - exists new. split.
    + apply (f_equal (@length json)) in Hsum. rewrite length_map in Hsum.
      symmetry. exact Hsum.
    + intros f Hf. destruct (Hall f Hf) as [Hin [Hs [_ Hone]]].
      split; [exact Hin|]. split; [|exact Hone].
      assert (Hsess : session (sample_world empty_db []) !! "user_id" = Some "u1")
        by (vm_compute; reflexivity).
      rewrite Hsess in Hs. inversion Hs. reflexivity.
Defined.

(** *** Batches (C2) *)

(** C2, as stated, fails: a file refused for its extension ends the whole
    request.  The answer is the bare error for that file, without the
    records committed before it, and a valid file after it is never
    processed. *)
Lemma refused_file_hides_committed_and_blocks_rest :
  let out := sample_upload [] ["a.txt"; "b.exe"; "c.txt"] "docs" in
  fst out = Ok (Jsonify 400 (error_body "File type not allowed: b.exe"))
  /\ map FileMetadata.original_name (file_metadata (db (snd out))) = ["a.txt"]
  /\ allowed_file "c.txt" = true.
Proof. vm_compute. repeat split; reflexivity. Qed.

(** C2, amended: a file refused for its extension stops the batch at that
    file.  The files before it that were committed stay committed with
    their creator permissions (nothing is rolled back: the final state is
    the one their own upload left), the files after it are not processed,
    and the response is the 400 error naming the refused file, without the
    list of the records committed so far. *)
Theorem upload_batch_stops_at_refused_file
    (utcnow : datetime) (remote_addr : string) (user_agent : option string)
    (is_json es : bool) (RETENTION_POLICY_DAYS : Z) (uuid4 : nat -> string)
    (secure_filename : string -> string) (guess_type : string -> option string)
    (request : UploadRequest) (w w1 : World) (uid : string) (user : User.t)
    (pre rest : list FileStorage) (bad : FileStorage) (committed : list json) :
  session w !! "user_id" = Some uid ->
  query_user uid (db w) = Some user ->
  User.status user = "active" ->
  request_files request !! "files" = Some (pre ++ bad :: rest)%list ->
  filename bad <> "" ->
  allowed_file (filename bad) = false ->
  pending w = [] ->
  route_loop utcnow remote_addr user_agent es RETENTION_POLICY_DAYS uuid4 secure_filename
             guess_type request user pre w
  = (Ok (upload_success committed), w1) ->
  upload_file utcnow remote_addr user_agent is_json es RETENTION_POLICY_DAYS uuid4
              secure_filename guess_type request w
  = (Ok (Jsonify 400 (error_body ("File type not allowed: " ++ filename bad))), w1)
  /\ exists new,
       committed = map file_summary new
       /\ file_metadata (db w1) = (file_metadata (db w) ++ new)%list
       /\ file_permissions (db w1) = (file_permissions (db w) ++ map creator_grant new)%list.
Proof.
  intros Hs Hq Hact Hfiles Hname Hext Hp Hpre. split.
  - rewrite (upload_file_unfold utcnow remote_addr user_agent is_json es
               RETENTION_POLICY_DAYS uuid4 secure_filename guess_type request w uid user
               _ Hs Hq Hact Hfiles).
    unfold route_loop in *. rewrite (upload_loop_app _ _ _ _ _ _ _ _ _ _ _ _ _ _ _ _ _ _ _ Hpre).
    cbn [upload_loop]. apply String.eqb_neq in Hname. rewrite Hname, Hext. reflexivity.
  - unfold route_loop in Hpre. apply upload_loop_Ok in Hpre; [|exact Hp].
    destruct Hpre as [new [Hsum [Hfm [Hfp _]]]]. exists new. auto.
Qed.

Lemma upload_batch_stops_at_refused_file_witness :
  upload_file 1000%Z "10.0.0.1" None true true 2555%Z sample_uuid4 (fun s => s)
              (fun _ => None) (sample_request ["a.txt"; "b.exe"; "c.txt"] "docs")
              (sample_world empty_db [])
  = (Ok (Jsonify 400 (error_body ("File type not allowed: "
                                  ++ filename (mkFileStorage "b.exe"
                                                 (bytes_of_string "0123456789"))))),
     snd (sample_upload [] ["a.txt"] "docs"))
  /\ exists new,
       [ JObj [ ("id", JStr "uuid-0"); ("name", JStr "a.txt"); ("size", JInt 10);
                ("type", JStr "txt") ] ] = map file_summary new
       /\ file_metadata (db (snd (sample_upload [] ["a.txt"] "docs")))
          = (file_metadata (db (sample_world empty_db [])) ++ new)%list
       /\ file_permissions (db (snd (sample_upload [] ["a.txt"] "docs")))
          = (file_permissions (db (sample_world empty_db [])) ++ map creator_grant new)%list.
Proof.
  apply (upload_batch_stops_at_refused_file 1000%Z "10.0.0.1" None true true 2555%Z
           sample_uuid4 (fun s => s) (fun _ => None)
           (sample_request ["a.txt"; "b.exe"; "c.txt"] "docs")
           (sample_world empty_db []) (snd (sample_upload [] ["a.txt"] "docs"))
           "u1" alice
           [mkFileStorage "a.txt" (bytes_of_string "0123456789")]
           [mkFileStorage "c.txt" (bytes_of_string "0123456789")]
           (mkFileStorage "b.exe" (bytes_of_string "0123456789"))
           [ JObj [ ("id", JStr "uuid-0"); ("name", JStr "a.txt"); ("size", JInt 10);
                    ("type", JStr "txt") ] ]).
  - vm_compute. reflexivity.
  - vm_compute. reflexivity.
  - vm_compute. reflexivity.
  - vm_compute. reflexivity.
  - discriminate.
  - vm_compute. reflexivity.
  - vm_compute. reflexivity.
  - vm_compute. reflexivity.
Defined.

(** *** Refused file names (C8) *)

(** C8, as stated, fails for the empty file name: the part is skipped
    without any error and the request succeeds. *)
Lemma empty_filename_is_not_an_error :
  fst (sample_upload [] [""] "docs")
  = Ok (Jsonify 200 (JObj [ ("message", JStr "Successfully uploaded 0 files");
                            ("files", JList []) ])).
Proof. vm_compute. reflexivity. Qed.

(** C8, amended: a part with an empty file name is skipped silently, and a
    part whose extension is not allowed ends the request with the 400 error
    [File type not allowed]; in both cases the loop does nothing for that
    part before moving on or answering: the world (storage, tables, audit
    log, search index, task queue) is exactly what it was. *)
Theorem refused_names_touch_nothing
    (utcnow : datetime) (remote_addr : string) (user_agent : option string)
    (is_json es : bool) (RETENTION_POLICY_DAYS : Z) (uuid4 : nat -> string)
    (secure_filename : string -> string) (guess_type : string -> option string)
    (user : option User.t) (folder_path classification category : string)
    (tags : list string) (file : FileStorage) (rest : list FileStorage)
    (acc : list json) (w : World) :
  let loop := upload_loop utcnow remote_addr user_agent es RETENTION_POLICY_DAYS uuid4
                          secure_filename guess_type user folder_path classification
                          category tags in
  (filename file = "" -> loop (file :: rest) acc w = loop rest acc w)
  /\ (filename file <> "" -> allowed_file (filename file) = false ->
      loop (file :: rest) acc w
      = (Ok (Jsonify 400 (error_body ("File type not allowed: " ++ filename file))), w))
  /\ (filename file <> "" -> allowed_file (filename file) = false ->
      forall request uid u,
        session w !! "user_id" = Some uid ->
        query_user uid (db w) = Some u ->
        User.status u = "active" ->
        request_files request !! "files" = Some (file :: rest) ->
        upload_file utcnow remote_addr user_agent is_json es RETENTION_POLICY_DAYS uuid4
                    secure_filename guess_type request w
        = (Ok (Jsonify 400 (error_body ("File type not allowed: " ++ filename file))), w)).
Proof.
  cbv zeta. split; [|split].
  - intros Hempty. cbn [upload_loop]. rewrite Hempty. reflexivity.
  - intros Hname Hext. cbn [upload_loop].
    apply String.eqb_neq in Hname. rewrite Hname, Hext. reflexivity.
  - intros Hname Hext request uid u Hs Hq Hact Hfiles.
    rewrite (upload_file_unfold utcnow remote_addr user_agent is_json es
               RETENTION_POLICY_DAYS uuid4 secure_filename guess_type request w uid u
               _ Hs Hq Hact Hfiles).
    unfold route_loop. cbn [upload_loop].
    apply String.eqb_neq in Hname. rewrite Hname, Hext. reflexivity.
Qed.

Lemma refused_names_touch_nothing_witness :
  sample_upload [] ["setup.exe"; "a.txt"] "docs"
  = (Ok (Jsonify 400 (error_body "File type not allowed: setup.exe")),
     sample_world empty_db []).
Proof.
  pose proof (refused_names_touch_nothing 1000%Z "10.0.0.1" None true true 2555%Z
                sample_uuid4 (fun s => s) (fun _ => None) (Some alice) "docs" "internal" ""
                [] (mkFileStorage "setup.exe" (bytes_of_string "0123456789"))
                [mkFileStorage "a.txt" (bytes_of_string "0123456789")] []
                (sample_world empty_db [])) as H.
  cbv zeta in H. destruct H as [_ [_ H]].
  apply (H ltac:(discriminate) ltac:(vm_compute; reflexivity)
           (sample_request ["setup.exe"; "a.txt"] "docs") "u1" alice);
    vm_compute; reflexivity.
Defined.

(** *** Checksum of an upload (C7) *)

Lemma calculate_checksum_frame (path : string) (w w' : World) (r : Result string) :
  calculate_checksum path w = (r, w') -> exists fl, w' = set_faults fl w.
Proof.
  unfold calculate_checksum, bind at 1, get.
  destruct (fs w !! path) as [content|].
  - unfold bind, ret.
    destruct (fallible OSError w) as [[[]|e] w1] eqn:E; intros H; inversion H; subst;
      exact (fallible_frame _ _ _ _ E).
  - unfold raise. intros H. inversion H; subst. eexists.
    symmetry. apply set_faults_same.
Qed.

Lemma calculate_checksum_value (path : string) (w : World) (content : list byte) :
  fs w !! path = Some content ->
  hd false (faults w) = false ->
  fst (calculate_checksum path w) = Ok (checksum_of content).
Proof.
  intros Hc Hf. unfold calculate_checksum, bind at 1, get. rewrite Hc.
  unfold bind, ret, fallible.
  destruct (faults w) as [|[|] rest]; [reflexivity | discriminate Hf | reflexivity].
Qed.

(** C7: the checksum of a byte stream is the SHA-256 digest of its whole
    contents, written as 64 lowercase hexadecimal characters; it is
    computed by feeding the hash with successive reads of at most 4096
    bytes until a read returns nothing; computing it changes nothing but
    the failure schedule it consumes; and after the upload of a file the
    checksum in its committed row is the checksum of the bytes stored at
    its path, so that computing it again returns the recorded value. *)
Theorem checksum_is_streamed_sha256
    (utcnow : datetime) (remote_addr : string) (user_agent : option string) (es : bool)
    (RETENTION_POLICY_DAYS : Z) (uuid4 : nat -> string)
    (secure_filename : string -> string) (guess_type : string -> option string) :
  (forall content,
     checksum_of content = SHA256.hexdigest content
     /\ String.length (checksum_of content) = 64%nat
     /\ Forall (fun c => In c hex_alphabet) (list_ascii_of_string (checksum_of content)))
  /\ (forall h, hash_blocks h [] = h)
  /\ (forall h b f,
        hash_blocks h (b :: f)
        = hash_blocks (sha256_update h (take 4096 (b :: f))) (drop 4096 (b :: f)))
  /\ (forall path w r w',
        calculate_checksum path w = (r, w') -> exists fl, w' = set_faults fl w)
  /\ (forall user folder_path classification category tags file w w' summary,
        upload_one utcnow remote_addr user_agent es RETENTION_POLICY_DAYS uuid4
                   secure_filename guess_type user folder_path classification category
                   tags file w = (Ok summary, w') ->
        pending w = [] ->
        exists f,
          In f (file_metadata (db w'))
          /\ summary = file_summary f
          /\ fs w' !! FileMetadata.file_path f = Some (stream file)
          /\ FileMetadata.checksum f = SHA256.hexdigest (stream file)
          /\ FileMetadata.size f = Z.of_nat (length (stream file))
          /\ forall w2, fs w2 = fs w' -> hd false (faults w2) = false ->
               fst (calculate_checksum (FileMetadata.file_path f) w2)
               = Ok (FileMetadata.checksum f)).
Proof.
  split; [|split; [|split; [|split]]].
  - intros content. rewrite checksum_of_sha256. split; [reflexivity|]. split.
    + unfold SHA256.hexdigest. rewrite string_length_of_list. apply hex_of_words_length.
    + rewrite hexdigest_chars. apply hex_of_words_lower.
  - apply hash_blocks_nil.
  - apply hash_blocks_chunk.
  - intros path w r w'. apply calculate_checksum_frame.
  - intros user folder_path classification category tags file w w' summary H Hp.
    destruct (upload_one_Ok utcnow remote_addr user_agent es RETENTION_POLICY_DAYS uuid4
                secure_filename guess_type user folder_path classification category tags
                file w w' summary H Hp) as [u [org [_ [_ Hrow]]]].
    cbv zeta in Hrow.
    set (f := uploaded_row _ _ _ _ _ _ _ _ _ _ _ _ w) in *.
    destruct Hrow as [Hsum [_ [Hfm [_ [_ [Hfs _]]]]]].
    assert (Hstored : fs w' !! FileMetadata.file_path f = Some (stream file))
      by (rewrite Hfs; apply lookup_insert_eq).
    exists f. split; [rewrite Hfm; apply in_or_app; right; left; reflexivity|].
    split; [exact Hsum|]. split; [exact Hstored|].
    split; [apply checksum_of_sha256|]. split; [reflexivity|].
    intros w2 Hfs2 Hf2. apply calculate_checksum_value; [|exact Hf2].
    rewrite Hfs2. exact Hstored.
Qed.

Lemma checksum_is_streamed_sha256_witness :
  exists f,
    In f (file_metadata (db (snd (sample_upload [] ["a.txt"] "docs"))))
    /\ FileMetadata.checksum f
       = "84d89877f0d4041efb6bf91a16f0248f2fd573e6af05c19f96bedb9f882f7882"
    /\ FileMetadata.size f = 10%Z.
Proof.
  pose proof (checksum_is_streamed_sha256 1000%Z "10.0.0.1" None true 2555%Z sample_uuid4
                (fun s => s) (fun _ => None)) as H.
  destruct H as [_ [_ [_ [_ H]]]].
  destruct (H (Some alice) "docs" "internal" "" []
              (mkFileStorage "a.txt" (bytes_of_string "0123456789"))
              (sample_world empty_db [])
              (snd (sample_upload [] ["a.txt"] "docs"))
              (JObj [ ("id", JStr "uuid-0"); ("name", JStr "a.txt"); ("size", JInt 10);
                      ("type", JStr "txt") ]))
    as [f [Hin [_ [_ [Hsum [Hsize _]]]]]].
  - vm_compute. reflexivity.
  - reflexivity.
  - exists f. split; [exact Hin|]. split.
    + rewrite Hsum. vm_compute. reflexivity.
    + rewrite Hsize. reflexivity.
Defined.

(** *** Storage path (C3) *)

(** The slashes around the folder path are stripped, so the joined path is
    never taken as absolute: it always starts with the upload folder. *)
Lemma lstrip_slash_suffix (l : list ascii) :
  exists p, l = (p ++ PyStr.lstrip_slash l)%list.
Proof.
  induction l as [|c l [p IH]]; [exists []; reflexivity|].
  simpl. destruct (PyStr.is_slash c).
  - exists (c :: p). simpl. f_equal. exact IH.
  - exists []. reflexivity.
Qed.

Lemma lstrip_slash_head (l : list ascii) (c : ascii) (r : list ascii) :
  PyStr.lstrip_slash l = c :: r -> PyStr.is_slash c = false.
Proof.
  induction l as [|x l IH]; simpl; [discriminate|].
  destruct (PyStr.is_slash x) eqn:E; [exact IH|].
  intros H. inversion H; subst. exact E.
Qed.

Lemma strip_slash_not_absolute (s : string) :
  PyStr.starts_with_slash (PyStr.strip_slash s) = false.
Proof.
  unfold PyStr.strip_slash, PyStr.of_chars.
  set (l := PyStr.lstrip_slash (PyStr.chars s)).
  destruct (lstrip_slash_suffix (rev l)) as [p Hp].
  assert (Hl : l = (rev (PyStr.lstrip_slash (rev l)) ++ rev p)%list).
  { rewrite <- rev_app_distr, <- Hp, rev_involutive. reflexivity. }
  destruct (rev (PyStr.lstrip_slash (rev l))) as [|c r] eqn:E; [reflexivity|].
  simpl. simpl in Hl. subst l. eapply lstrip_slash_head. exact Hl.
Qed.

Lemma upload_path_under_folder (folder_path : string) :
  upload_path_of folder_path = UPLOAD_FOLDER ++ "/" ++ PyStr.strip_slash folder_path.
Proof.
  unfold upload_path_of, PyStr.path_join. rewrite strip_slash_not_absolute. reflexivity.
Qed.

(** C3 on the code: a folder path with [..] components is neither refused
    nor neutralized.  The upload is accepted and the artifact is written to
    a location that resolves outside the upload root. *)
Theorem traversal_escapes_upload_root :
  let out := sample_upload [] ["a.txt"] "../outside" in
  fst out
  = Ok (upload_success [ JObj [ ("id", JStr "uuid-0"); ("name", JStr "a.txt");
                                ("size", JInt 10); ("type", JStr "txt") ] ])
  /\ map FileMetadata.file_path (file_metadata (db (snd out)))
     = ["enterprise_files/../outside/uuid-0.txt"]
  /\ fs (snd out) !! "enterprise_files/../outside/uuid-0.txt"
     = Some (bytes_of_string "0123456789")
  /\ normpath_components "enterprise_files/../outside/uuid-0.txt" = ["outside"; "uuid-0.txt"]
  /\ under_upload_root "enterprise_files/../outside/uuid-0.txt" = false
  /\ under_upload_root "enterprise_files/docs/uuid-0.txt" = true.
Proof. vm_compute. repeat split; reflexivity. Qed.

(** * Further properties of the code *)

(** ** File names and extensions *)

Lemma chars_app (a b : string) :
  PyStr.chars (a ++ b) = (PyStr.chars a ++ PyStr.chars b)%list.
Proof.
  unfold PyStr.chars. induction a as [|c a IH]; simpl; [reflexivity|].
  rewrite IH. reflexivity.
Qed.

Lemma of_chars_chars (s : string) : PyStr.of_chars (PyStr.chars s) = s.
Proof. apply string_of_list_ascii_of_string. Qed.

Lemma chars_of_chars (l : list ascii) : PyStr.chars (PyStr.of_chars l) = l.
Proof. apply list_ascii_of_string_of_list_ascii. Qed.

Lemma rsplit_scan_no_dot (l suffix : list ascii) :
  existsb PyStr.is_dot l = false -> PyStr.rsplit_scan l suffix = None.
Proof.
  revert suffix. induction l as [|c l IH]; intros suffix H; [reflexivity|].
  simpl in H |- *. apply orb_false_iff in H. destruct H as [Hc Hl].
  rewrite Hc. apply IH. exact Hl.
Qed.

Lemma rsplit_scan_last_dot (l rest suffix : list ascii) :
  existsb PyStr.is_dot l = false ->
  PyStr.rsplit_scan (l ++ "."%char :: rest) suffix = Some (rev rest, (rev l ++ suffix)%list).
Proof.
  revert suffix. induction l as [|c l IH]; intros suffix H.
  - reflexivity.
  - simpl in H. apply orb_false_iff in H. destruct H as [Hc Hl].
    simpl. rewrite Hc, (IH _ Hl), <- app_assoc. reflexivity.
Qed.

Lemma existsb_rev {A : Type} (f : A -> bool) (l : list A) :
  existsb f (rev l) = existsb f l.
Proof.
  induction l as [|x l IH]; [reflexivity|].
  simpl. rewrite existsb_app, IH. simpl. rewrite orb_false_r. apply orb_comm.
Qed.

(** [rsplit('.', 1)] cuts at the last dot. *)
Lemma rsplit_dot_last (stem ext : string) :
  PyStr.contains_dot ext = false ->
  PyStr.rsplit_dot (stem ++ "." ++ ext) = Some (stem, ext).
Proof.
  intros H. unfold PyStr.rsplit_dot.
  assert (Hrev : rev (PyStr.chars (stem ++ "." ++ ext))
                 = (rev (PyStr.chars ext) ++ "."%char :: rev (PyStr.chars stem))%list).
  { rewrite chars_app, chars_app. change (PyStr.chars ".") with ["."%char].
    rewrite rev_app_distr. cbn [app rev]. rewrite <- app_assoc. reflexivity. }
  rewrite Hrev, rsplit_scan_last_dot.
  - rewrite !rev_involutive, app_nil_r, !of_chars_chars. reflexivity.
  - rewrite existsb_rev. exact H.
Qed.

Lemma lower_ascii_idem (c : ascii) :
  PyStr.lower_ascii (PyStr.lower_ascii c) = PyStr.lower_ascii c.
Proof. destruct c as [[] [] [] [] [] [] [] []]; reflexivity. Qed.

Lemma lower_ascii_dot (c : ascii) : PyStr.is_dot (PyStr.lower_ascii c) = PyStr.is_dot c.
Proof. destruct c as [[] [] [] [] [] [] [] []]; reflexivity. Qed.

Lemma lower_idem (s : string) : PyStr.lower (PyStr.lower s) = PyStr.lower s.
Proof.
  unfold PyStr.lower. rewrite chars_of_chars, map_map. f_equal.
  apply map_ext. intros c. apply lower_ascii_idem.
Qed.

Lemma lower_contains_dot (s : string) :
  PyStr.contains_dot (PyStr.lower s) = PyStr.contains_dot s.
Proof.
  unfold PyStr.contains_dot, PyStr.lower. rewrite chars_of_chars.
  induction (PyStr.chars s) as [|c l IH]; [reflexivity|].
  simpl. rewrite lower_ascii_dot, IH. reflexivity.
Qed.

(** X1: a name without a dot is refused; otherwise only what follows the
    last dot counts, compared in lower case with the configured set, so
    the verdict does not depend on the case of the extension nor on the
    part before the last dot. *)
Theorem allowed_file_by_last_extension (stem ext : string) :
  PyStr.contains_dot ext = false ->
  allowed_file (stem ++ "." ++ ext) = str_in (PyStr.lower ext) ALLOWED_EXTENSIONS
  /\ allowed_file (stem ++ "." ++ PyStr.lower ext) = allowed_file (stem ++ "." ++ ext)
  /\ allowed_file ext = false.
Proof.
  intros H.
  assert (Hspec : forall e, PyStr.contains_dot e = false ->
            allowed_file (stem ++ "." ++ e) = str_in (PyStr.lower e) ALLOWED_EXTENSIONS).
  { intros e He. unfold allowed_file. rewrite (rsplit_dot_last stem e He).
    unfold PyStr.contains_dot. rewrite chars_app, existsb_app, chars_app, existsb_app.
    change (existsb PyStr.is_dot (PyStr.chars ".")) with true.
    rewrite orb_true_r. reflexivity. }
  split; [exact (Hspec ext H)|]. split.
  - rewrite Hspec by (rewrite lower_contains_dot; exact H).
    rewrite lower_idem. symmetry. exact (Hspec ext H).
  - unfold allowed_file. rewrite H. reflexivity.
Qed.

Lemma allowed_file_by_last_extension_witness :
  allowed_file ("report.final" ++ "." ++ "PDF") = true
  /\ allowed_file ("photo.jpg" ++ "." ++ "exe") = false.
Proof.
  split.
  - rewrite (proj1 (allowed_file_by_last_extension "report.final" "PDF" eq_refl)).
    reflexivity.
  - rewrite (proj1 (allowed_file_by_last_extension "photo.jpg" "exe" eq_refl)).
    reflexivity.
Defined.

(** ** Tags *)

Lemma of_chars_app (a b : list ascii) :
  PyStr.of_chars (a ++ b) = PyStr.of_chars a ++ PyStr.of_chars b.
Proof.
  unfold PyStr.of_chars. induction a as [|c a IH]; simpl; [reflexivity|].
  rewrite IH. reflexivity.
Qed.

Lemma split_aux_join (sep : ascii) (l cur : list ascii) :
  str_join (String sep "") (PyStr.split_aux sep l cur) = PyStr.of_chars (rev cur ++ l).
Proof.
  revert cur. induction l as [|c l IH]; intros cur.
  - simpl. rewrite app_nil_r. reflexivity.
  - cbn [PyStr.split_aux]. destruct (Ascii.eqb c sep) eqn:E.
    + apply Ascii.eqb_eq in E. subst c.
      assert (Hne : exists x xs, PyStr.split_aux sep l [] = x :: xs).
      { clear. generalize (@nil ascii) as acc. induction l as [|d l IHl]; intros acc.
        - eexists _, _. reflexivity.
        - cbn [PyStr.split_aux]. destruct (Ascii.eqb d sep); [eexists _, _; reflexivity|].
          apply IHl. }
      destruct Hne as [x [xs Hx]]. cbn [str_join]. rewrite Hx, <- Hx, IH.
      cbn [rev app]. rewrite (of_chars_app (rev cur) (sep :: l)). reflexivity.
    + rewrite IH. simpl rev. rewrite <- app_assoc. reflexivity.
Qed.

Lemma split_aux_length (sep : ascii) (l cur : list ascii) :
  length (PyStr.split_aux sep l cur)
  = S (length (List.filter (fun c => Ascii.eqb c sep) l)).
Proof.
  revert cur. induction l as [|c l IH]; intros cur; [reflexivity|].
  cbn [PyStr.split_aux List.filter]. destruct (Ascii.eqb c sep).
  - cbn [length]. rewrite IH. reflexivity.
  - apply IH.
Qed.

(** X2: the tags are the comma-separated pieces of the form field, kept as
    they are typed: joining them with commas gives the field back, and
    there is one tag more than there are commas.  A missing or empty field
    gives no tag. *)
Theorem form_tags_round_trip (form : gmap string string) :
  (forall t, form !! "tags" = Some t -> t <> "" ->
             str_join "," (form_tags form) = t
             /\ length (form_tags form)
                = S (length (List.filter (fun c => Ascii.eqb c ","%char) (PyStr.chars t))))
  /\ (form !! "tags" = None -> form_tags form = [])
  /\ (form !! "tags" = Some "" -> form_tags form = []).
Proof.
  split; [|split].
  - intros t Ht Hne. unfold form_tags. rewrite Ht.
    apply String.eqb_neq in Hne. rewrite Hne. unfold PyStr.split. split.
    + rewrite split_aux_join. simpl app. apply of_chars_chars.
    + apply split_aux_length.
  - intros Ht. unfold form_tags. rewrite Ht. reflexivity.
  - intros Ht. unfold form_tags. rewrite Ht. reflexivity.
Qed.

Lemma form_tags_round_trip_witness :
  form_tags (<["tags" := "q3, draft,,final"]> ∅) = ["q3"; " draft"; ""; "final"]
  /\ str_join "," (form_tags (<["tags" := "q3, draft,,final"]> ∅)) = "q3, draft,,final".
Proof.
  split; [vm_compute; reflexivity|].
  apply (proj1 (form_tags_round_trip (<["tags" := "q3, draft,,final"]> ∅))
           "q3, draft,,final"); [vm_compute; reflexivity | discriminate].
Defined.

(** ** Guards *)

(** X3: the authentication guard runs the handler exactly for a session
    that names an existing user whose status is [active], and then adds
    nothing of its own.  Without a user in the session it answers 401 (or
    redirects to the login page) and the handler is not run; for a user
    that is gone or not active it also empties the session, and touches
    neither the tables nor the storage. *)
Theorem requires_auth_gate (is_json : bool) (f : M Response) (w : World) :
  (session w !! "user_id" = None ->
   requires_auth is_json f w
   = if is_json then (Ok (Jsonify 401 (error_body "Authentication required")), w)
     else (Ok (Redirect "login"),
           set_flashed (flashed w ++ [("Please log in to access this page.", "error")]) w))
  /\ (forall uid,
        session w !! "user_id" = Some uid ->
        (forall u, query_user uid (db w) = Some u -> User.status u <> "active") ->
        exists w',
          requires_auth is_json f w
          = (Ok (if is_json then Jsonify 401 (error_body "Account inactive")
                 else Redirect "login"), w')
          /\ session w' = ∅ /\ db w' = db w /\ fs w' = fs w /\ pending w' = pending w)
  /\ (forall uid u,
        session w !! "user_id" = Some uid ->
        query_user uid (db w) = Some u ->
        User.status u = "active" ->
        requires_auth is_json f w = f w).
Proof.
  split; [|split].
  - intros Hs. unfold requires_auth, bind at 1, get at 1. rewrite Hs.
    destruct is_json; reflexivity.
  - intros uid Hs Hbad. unfold requires_auth, bind at 1, get at 1. rewrite Hs.
    destruct (query_user uid (db w)) as [u|] eqn:Hq.
    + specialize (Hbad u eq_refl). apply String.eqb_neq in Hbad. rewrite Hbad.
      destruct is_json; eexists; (split; [reflexivity|]); cbn; auto.
    + destruct is_json; eexists; (split; [reflexivity|]); cbn; auto.
  - intros uid u Hs Hq Hact. unfold requires_auth, bind at 1, get at 1.
    rewrite Hs, Hq, Hact. reflexivity.
Qed.

Lemma requires_auth_gate_witness :
  exists w',
    requires_auth true (ret (Jsonify 200 (JObj [])))
                  (mkWorld ∅ ∅ (mkDatabase [] [] [] []) [] sample_session [] [] [] [] [] 0)
    = (Ok (Jsonify 401 (error_body "Account inactive")), w')
    /\ session w' = ∅.
Proof.
  destruct (proj1 (proj2 (requires_auth_gate true (ret (Jsonify 200 (JObj [])))
                            (mkWorld ∅ ∅ (mkDatabase [] [] [] []) [] sample_session
                                     [] [] [] [] [] 0)))
              "u1") as [w' [Hr [Hs _]]].
  - vm_compute. reflexivity.
  - intros u Hu. discriminate Hu.
  - exists w'. split; [exact Hr | exact Hs].
Defined.

Lemma user_level_cases (r : string) :
  user_level r
  = if String.eqb r "user" then 0%Z
    else if String.eqb r "manager" then 1%Z
    else if String.eqb r "admin" then 2%Z
    else if String.eqb r "super_admin" then 3%Z
    else 0%Z.
Proof.
  unfold user_level, role_hierarchy.
  destruct (String.eqb_spec r "user") as [-> | H1]; [rewrite lookup_insert_eq; reflexivity|].
  rewrite lookup_insert_ne by congruence.
  destruct (String.eqb_spec r "manager") as [-> | H2]; [rewrite lookup_insert_eq; reflexivity|].
  rewrite lookup_insert_ne by congruence.
  destruct (String.eqb_spec r "admin") as [-> | H3]; [rewrite lookup_insert_eq; reflexivity|].
  rewrite lookup_insert_ne by congruence.
  destruct (String.eqb_spec r "super_admin") as [-> | H4];
    [rewrite lookup_insert_eq; reflexivity|].
  rewrite lookup_insert_ne by congruence. rewrite lookup_empty. reflexivity.
Qed.

Lemma user_level_bounds (r : string) : (0 <= user_level r <= 3)%Z.
Proof.
  rewrite user_level_cases.
  repeat match goal with |- context [if ?b then _ else _] => destruct b end; lia.
Qed.

Lemma required_level_unknown (q : string) :
  role_hierarchy !! q = None -> required_level q = 99%Z.
Proof. unfold required_level. intros ->. reflexivity. Qed.

(** X4: a user whose level reaches the required one passes the role guard
    untouched: the handler runs on the same world, with no audit entry and
    no log line added by the guard.  A required role that is not in the
    hierarchy is never reached: every user, [super_admin] included, gets
    the 403.  A session without a user, or naming a user that does not
    exist, gets the 401 and changes nothing. *)
Theorem requires_role_gate
    (utcnow : datetime) (remote_addr : string) (user_agent : option string) (es : bool)
    (required_role : string) (f : M Response) (w : World) :
  (forall uid user,
     session w !! "user_id" = Some uid ->
     query_user uid (db w) = Some user ->
     (required_level required_role <= user_level (User.role user))%Z ->
     requires_role utcnow remote_addr user_agent es required_role f w = f w)
  /\ (forall uid user,
        session w !! "user_id" = Some uid ->
        query_user uid (db w) = Some user ->
        role_hierarchy !! required_role = None ->
        fst (requires_role utcnow remote_addr user_agent es required_role f w)
        = Ok (Jsonify 403 (error_body "Insufficient permissions")))
  /\ (session w !! "user_id" = None ->
      requires_role utcnow remote_addr user_agent es required_role f w
      = (Ok (Jsonify 401 (error_body "Authentication required")), w))
  /\ (forall uid,
        session w !! "user_id" = Some uid ->
        query_user uid (db w) = None ->
        requires_role utcnow remote_addr user_agent es required_role f w
        = (Ok (Jsonify 401 (error_body "User not found")), w)).
Proof.
  split; [|split; [|split]].
  - intros uid user Hs Hq Hle. unfold requires_role, bind at 1, get at 1.
    rewrite Hs, Hq. apply Z.ltb_ge in Hle. rewrite Hle. reflexivity.
  - intros uid user Hs Hq Hunknown. unfold requires_role, bind at 1, get at 1.
    rewrite Hs, Hq, (required_level_unknown _ Hunknown).
    pose proof (user_level_bounds (User.role user)) as Hb.
    assert (Hlt : (user_level (User.role user) <? 99)%Z = true) by (apply Z.ltb_lt; lia).
    rewrite Hlt. unfold bind, ret.
    destruct (log_audit_event_effect utcnow remote_addr user_agent es (Some (User.id user))
                "access_denied" "insufficient_role" None None
                [ ("required_role", JStr required_role);
                  ("user_role", JStr (User.role user)) ] w) as [w' [-> _]].
    reflexivity.
  - intros Hs. unfold requires_role, bind at 1, get at 1. rewrite Hs. reflexivity.
  - intros uid Hs Hq. unfold requires_role, bind at 1, get at 1. rewrite Hs, Hq. reflexivity.
Qed.

Lemma requires_role_gate_witness :
  requires_role 1000%Z "10.0.0.1" None true "user" (ret (Jsonify 200 (JObj [])))
                (sample_world empty_db [])
  = (Ok (Jsonify 200 (JObj [])), sample_world empty_db []).
Proof.
  apply (proj1 (requires_role_gate 1000%Z "10.0.0.1" None true "user"
                  (ret (Jsonify 200 (JObj []))) (sample_world empty_db []))
           "u1" alice); vm_compute; first [reflexivity | discriminate].
Defined.

(** X5: the [is_admin] property and the role guard for [admin] agree on
    every role string: [is_admin] holds exactly for the roles that pass
    [requires_role('admin')]; a role outside the hierarchy counts as the
    lowest level and is not an administrator. *)
Theorem is_admin_agrees_with_admin_guard (user : User.t) :
  (is_admin user = true
   <-> (required_level "admin" <= user_level (User.role user))%Z)
  /\ (role_hierarchy !! User.role user = None ->
      is_admin user = false /\ user_level (User.role user) = 0%Z).
Proof.
  assert (Hreq : required_level "admin" = 2%Z) by (vm_compute; reflexivity).
  assert (Hcases : is_admin user = (2 <=? user_level (User.role user))%Z).
  { unfold is_admin, str_in. cbn [existsb]. rewrite user_level_cases.
    destruct (String.eqb_spec (User.role user) "user") as [-> | H1]; [reflexivity|].
    destruct (String.eqb_spec (User.role user) "manager") as [-> | H2]; [reflexivity|].
    destruct (String.eqb_spec (User.role user) "admin") as [-> | H3]; [reflexivity|].
    destruct (String.eqb_spec (User.role user) "super_admin") as [E | H4]; reflexivity. }
  split.
  - rewrite Hreq, Hcases. apply Z.leb_le.
  - intros Hnone. rewrite Hcases. unfold user_level.
    rewrite Hnone. split; reflexivity.
Qed.

Lemma is_admin_agrees_with_admin_guard_witness :
  is_admin alice = false /\ user_level (User.role alice) = 0%Z.
Proof.
  split.
  - destruct (is_admin alice) eqn:E; [|reflexivity].
    apply (proj1 (is_admin_agrees_with_admin_guard alice)) in E.
    vm_compute in E. contradiction E. reflexivity.
  - vm_compute. reflexivity.
Defined.

(** ** Audit recorder and sessions *)

Lemma flush_null_organization (ops : list SessOp) (a : AuditLog.t) (d : Database) :
  AuditLog.organization_id a = None -> flush (ops ++ [AddAudit a]) d = None.
Proof.
  intros Ha. rewrite flush_app. destruct (flush ops d) as [d1|]; [|reflexivity].
  simpl. rewrite Ha. reflexivity.
Qed.

Lemma flush_audit_accepted (a : AuditLog.t) (d : Database) (org : string) :
  AuditLog.organization_id a = Some org ->
  flush [AddAudit a] d
  = Some (mkDatabase (users d) (file_metadata d) (file_permissions d) (audit_logs d ++ [a])).
Proof. intros Ha. simpl. rewrite Ha. reflexivity. Qed.

(** X6: an audit row needs the organization of the session
    ([audit_logs.organization_id] is not nullable).  When the session
    carries none, as for a visitor who is not logged in, the recorder
    never adds a row, whatever else happens: the commit is refused, the
    refusal is swallowed and logged, the tables and the search index stay
    as they were, and the work pending in the session is discarded. *)
Theorem audit_needs_organization
    (utcnow : datetime) (remote_addr : string) (user_agent : option string) (es : bool)
    (user_id : option string) (event_type action : string)
    (resource_type resource_id : option string) (details : list (string * json))
    (w : World) :
  session w !! "organization_id" = None ->
  exists w',
    log_audit_event utcnow remote_addr user_agent es user_id event_type action
      resource_type resource_id details w = (Ok tt, w')
    /\ db w' = db w /\ es_docs w' = es_docs w /\ pending w' = []
    /\ logs w' = (logs w ++ [(ERROR, "Failed to log audit event")])%list.
Proof.
  intros Horg. rewrite log_audit_event_unfold. cbv zeta.
  set (a := audit_row _ _ _ w _ _ _ _ _ _).
  destruct (commit (set_pending (pending w ++ [AddAudit a]) w)) as [r w1] eqn:Hc.
  destruct (commit_inv _ _ _ Hc) as [fl [[d [_ [Hd _]]] | [e [-> ->]]]].
  - cbn [pending db set_pending] in Hd.
    rewrite (flush_null_organization (pending w) a (db w) Horg) in Hd. discriminate Hd.
  - eexists. split; [reflexivity|]. cbn. auto.
Qed.

Lemma audit_needs_organization_witness :
  exists w',
    log_audit_event 1000%Z "10.0.0.1" None true (Some "u1") "authentication" "login_failed"
      None None [] (login_world alice []) = (Ok tt, w')
    /\ db w' = db (login_world alice []).
Proof.
  destruct (audit_needs_organization 1000%Z "10.0.0.1" None true (Some "u1")
              "authentication" "login_failed" None None [] (login_world alice []))
    as [w' [Hr [Hdb _]]].
  - vm_compute. reflexivity.
  - exists w'. split; [exact Hr | exact Hdb].
Defined.

Section MoreLoginFacts.

Variable utcnow : datetime.
Variable remote_addr : string.
Variable user_agent : option string.
Variable es : bool.
Variable uuid4 : nat -> string.
Variable check_password_hash : string -> string -> bool.
Variable totp_verify : string -> string -> bool.

Let login_ := login utcnow remote_addr user_agent es uuid4 check_password_hash totp_verify.
Let record := log_audit_event utcnow remote_addr user_agent es.

(** Any answer of the login route other than the redirect to the index
    leaves the session as it was. *)
Lemma login_refusal_keeps_session (form : LoginForm) (w w' : World) (r : Response) :
  login_ form w = (Ok r, w') ->
  r <> Redirect "index" ->
  session w' = session w.
Proof.
  subst login_. unfold login.
  destruct (validate_on_submit form).
  2:{ unfold ret. intros H _. inversion H; reflexivity. }
  unfold bind at 1. unfold get at 1.
  destruct (find _ (users (db w))) as [user|].
  2:{ unfold bind, flash, modify, ret. intros H _. inversion H; reflexivity. }
  destruct (check_password check_password_hash user (password form)).
  - destruct (is_locked utcnow user).
    { unfold bind, flash, modify, ret. intros H _. inversion H; reflexivity. }
    destruct (User.two_factor_enabled user && _).
    + unfold bind at 1. unfold flash at 1, modify at 1. unfold bind at 1.
      match goal with |- context [log_audit_event _ _ _ _ ?a ?b ?c ?d ?e ?f ?x] =>
        destruct (log_audit_event_effect utcnow remote_addr user_agent es a b c d e f x)
          as [w1 [-> [_ [_ [Hs _]]]]]
      end.
      unfold ret. intros H _. inversion H; subst. exact Hs.
    + unfold bind at 1. unfold session_do at 1, modify at 1.
      unfold bind at 1. unfold session_set at 1, modify at 1.
      unfold bind at 1. unfold session_set at 1, modify at 1.
      unfold bind at 1. unfold fresh_uuid at 1.
      unfold bind at 1. unfold session_set at 1, modify at 1.
      unfold bind at 1.
      destruct (commit _) as [[[]|e] w2]; [|discriminate].
      unfold bind at 1.
      match goal with |- context [log_audit_event _ _ _ _ ?a ?b ?c ?d ?e ?f ?x] =>
        destruct (log_audit_event_effect utcnow remote_addr user_agent es a b c d e f x)
          as [w3 [-> _]]
      end.
      unfold bind, flash, modify, ret. intros H Hne. inversion H; subst.
      contradiction Hne. reflexivity.
  - unfold bind at 1. unfold session_do at 1, modify at 1. unfold bind at 1.
    destruct (commit _) as [[[]|e] w2] eqn:Hc; [|discriminate].
    apply commit_Ok in Hc. destruct Hc as [fl [d [_ ->]]].
    unfold bind at 1.
    match goal with |- context [log_audit_event _ _ _ _ ?a ?b ?c ?d ?e ?f ?x] =>
      destruct (log_audit_event_effect utcnow remote_addr user_agent es a b c d e f x)
        as [w3 [-> [_ [_ [Hs _]]]]]
    end.
    unfold bind, flash, modify, ret. intros H _. inversion H; subst. exact Hs.
Qed.

(** An unknown user name, or a form that does not validate, changes
    nothing but the flashed message. *)
Lemma login_unknown_user (form : LoginForm) (w : World) :
  validate_on_submit form = false
  \/ find (fun u => String.eqb (User.username u) (username form)) (users (db w)) = None ->
  exists w', login_ form w = (Ok (RenderTemplate "login.html"), w')
             /\ db w' = db w /\ pending w' = pending w /\ logs w' = logs w
             /\ faults w' = faults w.
Proof.
  subst login_. unfold login. intros [Hv | Hfind].
  - rewrite Hv. eexists. split; [reflexivity|]. auto.
  - destruct (validate_on_submit form).
    + unfold bind at 1. unfold get at 1. rewrite Hfind.
      eexists. split; [reflexivity|]. cbn. auto.
    + eexists. split; [reflexivity|]. auto.
Qed.

(** The second factor: with the right password on an unlocked account
    that has two-factor authentication enabled, an empty or rejected code
    refuses the login without counting a failed attempt. *)
Lemma login_second_factor_refused (form : LoginForm) (w : World) (user : User.t) :
  validate_on_submit form = true ->
  find (fun u => String.eqb (User.username u) (username form)) (users (db w)) = Some user ->
  check_password check_password_hash user (password form) = true ->
  is_locked utcnow user = false ->
  User.two_factor_enabled user = true ->
  totp_code form = "" \/ verify_totp totp_verify user (totp_code form) = false ->
  pending w = [] ->
  exists w', login_ form w = (Ok (RenderTemplate "login.html"), w')
             /\ users (db w') = users (db w) /\ session w' = session w.
Proof.
  intros Hv Hfind Hpw Hl H2 Hcode Hp. subst login_. unfold login. rewrite Hv.
  unfold bind at 1. unfold get at 1. rewrite Hfind, Hpw, Hl, H2.
  assert (Hc : String.eqb (totp_code form) ""
               || negb (verify_totp totp_verify user (totp_code form)) = true).
  { destruct Hcode as [-> | ->]; [reflexivity | apply orb_true_r]. }
  rewrite Hc. cbn [andb].
  unfold bind at 1. unfold flash at 1, modify at 1. unfold bind at 1.
  fold record.
  destruct (audit_after_commit utcnow remote_addr user_agent es (Some (User.id user))
              "authentication" "login_failed_2fa"
              (set_flashed (flashed w ++ [("Invalid 2FA code.", "error")]) w) Hp)
    as [w1 [Hr [Hu Hs]]].
  subst record. rewrite Hr. unfold ret. eexists. split; [reflexivity|].
  split; [exact Hu | exact Hs].
Qed.

End MoreLoginFacts.

Section SessionOnLogin.

Variable utcnow : datetime.
Variable remote_addr : string.
Variable user_agent : option string.
Variable es : bool.
Variable uuid4 : nat -> string.
Variable check_password_hash : string -> string -> bool.
Variable totp_verify : string -> string -> bool.

Let login_ := login utcnow remote_addr user_agent es uuid4 check_password_hash totp_verify.

(** The session that the route writes for [user], started in [w]. *)
Let written (user : User.t) (w : World) : gmap string string :=
  <["session_id" := uuid4 (uuid_ctr w)]>
    (<["organization_id" := User.organization_id user]>
       (<["user_id" := User.id user]> (session w))).

(** When the route ends in an exception, the session is what it was,
    unless the credentials had been accepted: the session is written
    before the commit. *)
Lemma login_raise_session (form : LoginForm) (w w' : World) (e : exn) :
  login_ form w = (Raise e, w') ->
  session w' = session w
  \/ exists user,
       find (fun u => String.eqb (User.username u) (username form)) (users (db w))
       = Some user
       /\ check_password check_password_hash user (password form) = true
       /\ is_locked utcnow user = false
       /\ session w' = written user w.
Proof.
  subst login_ written. unfold login.
  destruct (validate_on_submit form).
  2:{ unfold ret. intros H. inversion H. }
  unfold bind at 1. unfold get at 1.
  destruct (find _ (users (db w))) as [user|] eqn:Hfind.
  2:{ unfold bind, flash, modify, ret. intros H. inversion H. }
  destruct (check_password check_password_hash user (password form)) eqn:Hpw.
  - destruct (is_locked utcnow user) eqn:Hl.
    { unfold bind, flash, modify, ret. intros H. inversion H. }
    destruct (User.two_factor_enabled user && _).
    + unfold bind at 1. unfold flash at 1, modify at 1. unfold bind at 1.
      match goal with |- context [log_audit_event _ _ _ _ ?a ?b ?c ?d ?e ?f ?x] =>
        destruct (log_audit_event_effect utcnow remote_addr user_agent es a b c d e f x)
          as [w1 [-> _]]
      end.
      unfold ret. intros H. inversion H.
    + unfold bind at 1. unfold session_do at 1, modify at 1.
      unfold bind at 1. unfold session_set at 1, modify at 1.
      unfold bind at 1. unfold session_set at 1, modify at 1.
      unfold bind at 1. unfold fresh_uuid at 1.
      unfold bind at 1. unfold session_set at 1, modify at 1.
      unfold bind at 1.
      destruct (commit _) as [[[]|e0] w2] eqn:Hc.
      * unfold bind at 1.
        match goal with |- context [log_audit_event _ _ _ _ ?a ?b ?c ?d ?e ?f ?x] =>
          destruct (log_audit_event_effect utcnow remote_addr user_agent es a b c d e f x)
            as [w3 [-> _]]
        end.
        unfold bind, flash, modify, ret. intros H. inversion H.
      * intros H. inversion H; subst. right. exists user.
        do 3 (split; [first [reflexivity | assumption]|]).
        destruct (commit_inv _ _ _ Hc) as [fl [[d [Hr _]] | [e1 [_ ->]]]];
          [discriminate Hr|]. destruct w; reflexivity.
  - unfold bind at 1. unfold session_do at 1, modify at 1. unfold bind at 1.
    destruct (commit _) as [[[]|e0] w2] eqn:Hc.
    + unfold bind at 1.
      match goal with |- context [log_audit_event _ _ _ _ ?a ?b ?c ?d ?e ?f ?x] =>
        destruct (log_audit_event_effect utcnow remote_addr user_agent es a b c d e f x)
          as [w3 [-> _]]
      end.
      unfold bind, flash, modify, ret. intros H. inversion H.
    + intros H. inversion H; subst. left.
      destruct (commit_inv _ _ _ Hc) as [fl [[d [Hr _]] | [e1 [_ ->]]]];
        [discriminate Hr|]. reflexivity.
Qed.

(** The commit that follows accepted credentials raises: the request
    fails, and the session already names the user. *)
Lemma login_commit_fails (form : LoginForm) (w : World) (user : User.t) (rest : list bool) :
  validate_on_submit form = true ->
  find (fun u => String.eqb (User.username u) (username form)) (users (db w)) = Some user ->
  check_password check_password_hash user (password form) = true ->
  is_locked utcnow user = false ->
  User.two_factor_enabled user = false ->
  faults w = true :: rest ->
  exists w',
    login_ form w = (Raise DatabaseError, w')
    /\ session w' = written user w
    /\ db w' = db w
    /\ pending w' = [].
Proof.
  intros Hv Hfind Hpw Hl H2 Hf. subst login_ written. unfold login.
  rewrite Hv. unfold bind at 1. unfold get at 1. rewrite Hfind, Hpw, Hl, H2. cbn [andb].
  unfold bind at 1. unfold session_do at 1, modify at 1.
  unfold bind at 1. unfold session_set at 1, modify at 1.
  unfold bind at 1. unfold session_set at 1, modify at 1.
  unfold bind at 1. unfold fresh_uuid at 1.
  unfold bind at 1. unfold session_set at 1, modify at 1.
  unfold bind at 1. unfold commit, fallible.
  destruct w as [fs0 dirs0 db0 pend0 sess0 es0 tasks0 logs0 fl0 faults0 ctr0].
  cbn [faults] in Hf. subst faults0. cbn.
  eexists. split; [reflexivity|]. cbn. auto.
Qed.

End SessionOnLogin.

(** X7: the login route writes the session before it commits.  Every
    answer other than the redirect to the index leaves the session as it
    was, and so does a request that ends in an exception after a wrong
    password.  But when the commit that follows accepted credentials
    raises, the request fails although the session already names the user,
    the organization and a new session identifier, while the tables are
    unchanged.  A form that does not validate or a user name that matches
    no user gets the login page back and leaves the tables, the unit of
    work and the log untouched, without consuming any external call. *)
Theorem login_writes_session_before_commit
    (utcnow : datetime) (remote_addr : string) (user_agent : option string) (es : bool)
    (uuid4 : nat -> string) (check_password_hash totp_verify : string -> string -> bool)
    (form : LoginForm) (w : World) :
  let login_ := login utcnow remote_addr user_agent es uuid4 check_password_hash totp_verify in
  let written (user : User.t) :=
    <["session_id" := uuid4 (uuid_ctr w)]>
      (<["organization_id" := User.organization_id user]>
         (<["user_id" := User.id user]> (session w))) in
  (forall r w', login_ form w = (Ok r, w') -> r <> Redirect "index" ->
                session w' = session w)
  /\ (forall e w', login_ form w = (Raise e, w') ->
        session w' = session w
        \/ exists user,
             find (fun u => String.eqb (User.username u) (username form)) (users (db w))
             = Some user
             /\ check_password check_password_hash user (password form) = true
             /\ is_locked utcnow user = false
             /\ session w' = written user)
  /\ (forall user rest,
        validate_on_submit form = true ->
        find (fun u => String.eqb (User.username u) (username form)) (users (db w))
        = Some user ->
        check_password check_password_hash user (password form) = true ->
        is_locked utcnow user = false ->
        User.two_factor_enabled user = false ->
        faults w = true :: rest ->
        exists w', login_ form w = (Raise DatabaseError, w')
                   /\ session w' = written user
                   /\ db w' = db w)
  /\ (validate_on_submit form = false
      \/ find (fun u => String.eqb (User.username u) (username form)) (users (db w)) = None ->
      exists w', login_ form w = (Ok (RenderTemplate "login.html"), w')
                 /\ db w' = db w /\ pending w' = pending w /\ logs w' = logs w
                 /\ faults w' = faults w).
Proof.
  cbv zeta. split; [|split; [|split]].
  - intros r w'. apply login_refusal_keeps_session.
  - intros e w'. apply login_raise_session.
  - intros user rest Hv Hfind Hpw Hl H2 Hf.
    destruct (login_commit_fails utcnow remote_addr user_agent es uuid4 check_password_hash
                totp_verify form w user rest Hv Hfind Hpw Hl H2 Hf)
      as [w' [Hr [Hs [Hdb _]]]].
    exists w'. auto.
  - apply login_unknown_user.
Qed.

Lemma login_writes_session_before_commit_witness :
  exists w',
    login 1000%Z "10.0.0.1" None true sample_uuid4 sample_check_password_hash
          (fun _ _ => false) (mkLoginForm true "alice" "secret" "" false)
          (login_world alice [true]) = (Raise DatabaseError, w')
    /\ session w' !! "user_id" = Some "u1"
    /\ db w' = db (login_world alice [true]).
Proof.
  pose proof (login_writes_session_before_commit 1000%Z "10.0.0.1" None true sample_uuid4
                sample_check_password_hash (fun _ _ => false)
                (mkLoginForm true "alice" "secret" "" false)
                (login_world alice [true])) as H.
  cbv zeta in H. destruct H as [_ [_ [H _]]].
  destruct (H alice [] eq_refl eq_refl eq_refl eq_refl eq_refl eq_refl)
    as [w' [Hr [Hs Hdb]]].
  exists w'. split; [exact Hr|]. split; [|exact Hdb].
  rewrite Hs. vm_compute. reflexivity.
Defined.

(** X8: the second factor.  For a user with two-factor authentication
    enabled, the right password with an empty or rejected code is refused:
    the login page comes back, no failed attempt is counted, no lock is
    set and the session is not written.  A user with two-factor
    authentication enabled and no secret on record is refused whatever the
    code. *)
Theorem login_requires_second_factor
    (utcnow : datetime) (remote_addr : string) (user_agent : option string) (es : bool)
    (uuid4 : nat -> string) (check_password_hash totp_verify : string -> string -> bool)
    (form : LoginForm) (w : World) (user : User.t) :
  validate_on_submit form = true ->
  find (fun u => String.eqb (User.username u) (username form)) (users (db w)) = Some user ->
  check_password check_password_hash user (password form) = true ->
  is_locked utcnow user = false ->
  User.two_factor_enabled user = true ->
  pending w = [] ->
  let login_ := login utcnow remote_addr user_agent es uuid4 check_password_hash totp_verify in
  (totp_code form = "" \/ verify_totp totp_verify user (totp_code form) = false ->
   exists w', login_ form w = (Ok (RenderTemplate "login.html"), w')
              /\ users (db w') = users (db w) /\ session w' = session w)
  /\ (User.two_factor_secret user = None \/ User.two_factor_secret user = Some "" ->
      exists w', login_ form w = (Ok (RenderTemplate "login.html"), w')
                 /\ users (db w') = users (db w) /\ session w' = session w).
Proof.
  intros Hv Hfind Hpw Hl H2 Hp. cbv zeta. split.
  - intros Hcode.
    exact (login_second_factor_refused utcnow remote_addr user_agent es uuid4
             check_password_hash totp_verify form w user Hv Hfind Hpw Hl H2 Hcode Hp).
  - intros Hsecret.
    apply (login_second_factor_refused utcnow remote_addr user_agent es uuid4
             check_password_hash totp_verify form w user Hv Hfind Hpw Hl H2); [|exact Hp].
    right. unfold verify_totp. destruct Hsecret as [-> | ->]; reflexivity.
Qed.

(** Alice with two-factor authentication enabled and no secret on record. *)
Lemma login_requires_second_factor_witness :
  let alice2 := User.mk "u1" "org1" "alice" "hash:secret" "Alice" "user" "active" None true
                        0%Z None None in
  exists w',
    login 1000%Z "10.0.0.1" None true sample_uuid4 sample_check_password_hash
          (fun _ _ => true) (mkLoginForm true "alice" "secret" "123456" false)
          (login_world alice2 []) = (Ok (RenderTemplate "login.html"), w')
    /\ users (db w') = [alice2].
Proof.
  cbv zeta.
  pose proof (login_requires_second_factor 1000%Z "10.0.0.1" None true sample_uuid4
                sample_check_password_hash (fun _ _ => true)
                (mkLoginForm true "alice" "secret" "123456" false)
                (login_world (User.mk "u1" "org1" "alice" "hash:secret" "Alice" "user"
                                      "active" None true 0%Z None None) [])
                (User.mk "u1" "org1" "alice" "hash:secret" "Alice" "user" "active" None
                         true 0%Z None None)) as H.
  cbv zeta in H.
  destruct H as [_ H]; try reflexivity.
  destruct H as [w' [Hr [Hu _]]]; [left; reflexivity|].
  exists w'. split; [exact Hr | exact Hu].
Defined.

(** ** Lockout over several requests *)

Lemma find_username_replace (name : string) (u u' : User.t) (l : list User.t) :
  find (fun v => String.eqb (User.username v) name) l = Some u ->
  User.username u' = name ->
  User.id u' = User.id u ->
  find (fun v => String.eqb (User.username v) name) (replace_user u' l) = Some u'.
Proof.
  intros Hfind Hname Hid. induction l as [|x l IH]; [discriminate Hfind|].
  simpl in Hfind |- *.
  destruct (String.eqb (User.username x) name) eqn:Ex.
  - inversion Hfind; subst x. rewrite Hid, String.eqb_refl, Hname, String.eqb_refl.
    reflexivity.
  - destruct (String.eqb (User.id x) (User.id u')).
    + rewrite Hname, String.eqb_refl. reflexivity.
    + rewrite Ex. exact (IH Hfind).
Qed.

(** The recorder when no external call fails and nothing is pending: it
    leaves the schedule empty, the unit of work empty and the users alone. *)
Lemma log_audit_event_calm
    (utcnow : datetime) (remote_addr : string) (user_agent : option string) (es : bool)
    (user_id : option string) (event_type action : string)
    (resource_type resource_id : option string) (details : list (string * json))
    (w : World) :
  faults w = [] -> pending w = [] ->
  exists w',
    log_audit_event utcnow remote_addr user_agent es user_id event_type action
      resource_type resource_id details w = (Ok tt, w')
    /\ faults w' = [] /\ pending w' = [] /\ users (db w') = users (db w)
    /\ file_metadata (db w') = file_metadata (db w)
    /\ session w' = session w /\ fs w' = fs w.
Proof.
  intros Hf Hp. rewrite log_audit_event_unfold. cbv zeta.
  set (a := audit_row _ _ _ w _ _ _ _ _ _).
  unfold commit. rewrite fallible_quiet by exact Hf.
  cbn [pending db set_pending]. rewrite Hp. cbn [app].
  destruct (flush [AddAudit a] (db w)) as [d|] eqn:Hd.
  - apply flush_audit_only in Hd. destruct Hd as [Hu [Hfm _]].
    destruct es.
    + unfold es_index, bind, modify. rewrite fallible_quiet by exact Hf.
      eexists. split; [reflexivity|]. cbn. repeat split; try reflexivity; assumption.
    + eexists. split; [reflexivity|]. cbn. repeat split; try reflexivity; assumption.
  - eexists. split; [reflexivity|]. cbn. repeat split; try reflexivity; assumption.
Qed.

Section LockoutFacts.

Variable remote_addr : string.
Variable user_agent : option string.
Variable es : bool.
Variable uuid4 : nat -> string.
Variable check_password_hash : string -> string -> bool.
Variable totp_verify : string -> string -> bool.

Let login_at (t : datetime) :=
  login t remote_addr user_agent es uuid4 check_password_hash totp_verify.
Let attempts :=
  login_attempts remote_addr user_agent es uuid4 check_password_hash totp_verify.

(** One failed attempt in a calm world, ready for the next one. *)
Lemma login_failed_step (t : datetime) (form : LoginForm) (w : World) (user : User.t) :
  faults w = [] -> pending w = [] ->
  validate_on_submit form = true ->
  find (fun u => String.eqb (User.username u) (username form)) (users (db w)) = Some user ->
  check_password check_password_hash user (password form) = false ->
  exists w',
    login_at t form w = (Ok (RenderTemplate "login.html"), w')
    /\ faults w' = [] /\ pending w' = []
    /\ find (fun u => String.eqb (User.username u) (username form)) (users (db w'))
       = Some (record_failure t user).
Proof.
  intros Hf Hp Hv Hfind Hpw. subst login_at. cbv beta. unfold login. rewrite Hv.
  unfold bind at 1. unfold get at 1. rewrite Hfind, Hpw.
  unfold bind at 1. unfold session_do at 1, modify at 1. unfold bind at 1.
  rewrite (commit_quiet _ (mkDatabase (replace_user (record_failure t user) (users (db w)))
                             (file_metadata (db w)) (file_permissions (db w))
                             (audit_logs (db w))));
    [| exact Hf | cbn [pending db set_pending]; rewrite Hp; reflexivity].
  unfold bind at 1.
  match goal with |- context [log_audit_event _ _ _ _ ?a ?b ?c ?d ?e ?f ?x] =>
    destruct (log_audit_event_calm t remote_addr user_agent es a b c d e f x)
      as [w1 [-> [Hf1 [Hp1 [Hu1 _]]]]]; [exact Hf | reflexivity |]
  end.
  unfold bind, flash, modify, ret. eexists. split; [reflexivity|].
  cbn [faults pending db set_flashed]. split; [exact Hf1|]. split; [exact Hp1|].
  rewrite Hu1. cbn [db set_pending set_db users].
  apply find_username_replace with (u := user); [exact Hfind | | reflexivity].
  cbn [record_failure User.username]. apply find_some in Hfind. destruct Hfind as [_ H].
  apply String.eqb_eq. exact H.
Qed.

(** Failed attempts add up, and the last one past the threshold sets the
    lock from its own time. *)
Lemma login_failures_add_up (form : LoginForm) (times : list datetime) (last : datetime)
    (w : World) (user : User.t) :
  faults w = [] -> pending w = [] ->
  validate_on_submit form = true ->
  find (fun u => String.eqb (User.username u) (username form)) (users (db w)) = Some user ->
  check_password check_password_hash user (password form) = false ->
  exists w' user',
    attempts form (times ++ [last]) w = (Ok tt, w')
    /\ faults w' = [] /\ pending w' = []
    /\ find (fun u => String.eqb (User.username u) (username form)) (users (db w'))
       = Some user'
    /\ User.failed_login_attempts user'
       = (User.failed_login_attempts user + Z.of_nat (length times) + 1)%Z
    /\ ((5 <= User.failed_login_attempts user')%Z ->
        User.locked_until user' = Some (last + 30 * 60)%Z)
    /\ User.password_hash user' = User.password_hash user
    /\ User.two_factor_enabled user' = User.two_factor_enabled user.
Proof.
  subst attempts. revert w user. induction times as [|t times IH]; intros w user Hf Hp Hv Hfind Hpw.
  - destruct (login_failed_step last form w user Hf Hp Hv Hfind Hpw)
      as [w1 [Hr [Hf1 [Hp1 Hfind1]]]].
    exists w1, (record_failure last user). cbn [app login_attempts]. unfold bind.
    subst login_at. cbv beta in Hr. rewrite Hr. unfold ret.
    split; [reflexivity|]. split; [exact Hf1|]. split; [exact Hp1|]. split; [exact Hfind1|].
    split; [cbn; lia|]. split; [|split; reflexivity].
    intros H5. apply record_failure_locks. cbn in H5. exact H5.
  - destruct (login_failed_step t form w user Hf Hp Hv Hfind Hpw)
      as [w1 [Hr [Hf1 [Hp1 Hfind1]]]].
    destruct (IH w1 (record_failure t user) Hf1 Hp1 Hv Hfind1 Hpw)
      as [w' [user' [Hr' [Hf' [Hp' [Hfind' [Hn [Hlock [Hh H2]]]]]]]]].
    exists w', user'. cbn [app login_attempts]. unfold bind.
    subst login_at. cbv beta in Hr. rewrite Hr.
    split; [exact Hr'|]. split; [exact Hf'|]. split; [exact Hp'|]. split; [exact Hfind'|].
    split; [|split; [exact Hlock | split; [exact Hh | exact H2]]].
    rewrite Hn. cbn [record_failure User.failed_login_attempts length].
    rewrite Nat2Z.inj_succ. lia.
Qed.

End LockoutFacts.

(** X9: lockout across requests, when no external call fails.  After any
    run of consecutive wrong passwords for an existing user the counter has
    grown by the number of attempts; if that brings it to 5 or more, the account is locked until
    30 minutes after the last attempt.  From then on the right password is
    refused, leaving the tables as they are, at any time before that
    deadline; at or after the deadline it is accepted (no second factor
    being required) and leaves the counter at 0 and the lock cleared. *)
Theorem lockout_across_requests
    (remote_addr : string) (user_agent : option string) (es : bool)
    (uuid4 : nat -> string) (check_password_hash totp_verify : string -> string -> bool)
    (bad good : LoginForm) (times : list datetime) (last : datetime)
    (w : World) (user : User.t) :
  faults w = [] -> pending w = [] ->
  validate_on_submit bad = true ->
  validate_on_submit good = true ->
  username good = username bad ->
  find (fun u => String.eqb (User.username u) (username bad)) (users (db w)) = Some user ->
  check_password check_password_hash user (password bad) = false ->
  check_password check_password_hash user (password good) = true ->
  User.two_factor_enabled user = false ->
  (5 <= User.failed_login_attempts user + Z.of_nat (length times) + 1)%Z ->
  exists w' user',
    login_attempts remote_addr user_agent es uuid4 check_password_hash totp_verify bad
                   (times ++ [last]) w = (Ok tt, w')
    /\ find (fun u => String.eqb (User.username u) (username bad)) (users (db w'))
       = Some user'
    /\ User.failed_login_attempts user'
       = (User.failed_login_attempts user + Z.of_nat (length times) + 1)%Z
    /\ User.locked_until user' = Some (last + 30 * 60)%Z
    /\ (forall t, (t < last + 30 * 60)%Z ->
          exists w'',
            login t remote_addr user_agent es uuid4 check_password_hash totp_verify good w'
            = (Ok (RenderTemplate "login.html"), w'')
            /\ db w'' = db w' /\ session w'' = session w')
    /\ (forall t, (last + 30 * 60 <= t)%Z ->
          exists w'' user'',
            login t remote_addr user_agent es uuid4 check_password_hash totp_verify good w'
            = (Ok (Redirect "index"), w'')
            /\ query_user (User.id user') (db w'') = Some user''
            /\ User.failed_login_attempts user'' = 0%Z
            /\ User.locked_until user'' = None).
Proof.
  intros Hf Hp Hvb Hvg Hname Hfind Hbad Hgood H2 H5.
  destruct (login_failures_add_up remote_addr user_agent es uuid4 check_password_hash
              totp_verify bad times last w user Hf Hp Hvb Hfind Hbad)
    as [w' [user' [Hr [Hf' [Hp' [Hfind' [Hn [Hlock [Hh Htf]]]]]]]]].
  assert (Hl : User.locked_until user' = Some (last + 30 * 60)%Z)
    by (apply Hlock; rewrite Hn; exact H5).
  assert (Hfindg : find (fun u => String.eqb (User.username u) (username good))
                        (users (db w')) = Some user') by (rewrite Hname; exact Hfind').
  assert (Hpw : check_password check_password_hash user' (password good) = true).
  { unfold check_password in *. rewrite Hh. exact Hgood. }
  exists w', user'. split; [exact Hr|]. split; [exact Hfind'|]. split; [exact Hn|].
  split; [exact Hl|]. split.
  - intros t Ht.
    assert (Hlocked : is_locked t user' = true).
    { unfold is_locked. rewrite Hl. apply Z.ltb_lt. exact Ht. }
    rewrite (login_refused_while_locked t remote_addr user_agent es uuid4 check_password_hash
               totp_verify good w' user' Hvg Hfindg Hpw Hlocked).
    eexists. split; [reflexivity|]. split; reflexivity.
  - intros t Ht.
    assert (Hopen : is_locked t user' = false).
    { unfold is_locked. rewrite Hl. apply Z.ltb_ge. exact Ht. }
    destruct (login_succeeds t remote_addr user_agent es uuid4 check_password_hash
                totp_verify good w' user' Hvg Hfindg Hpw Hopen) as [w'' Hok].
    { rewrite Htf, H2. reflexivity. }
    { exact Hp'. }
    { rewrite Hf'. reflexivity. }
    destruct (login_success_resets t remote_addr user_agent es uuid4 check_password_hash
                totp_verify good w' w'' Hp' Hok) as [u [Hfu [_ [_ [Hq _]]]]].
    rewrite Hfindg in Hfu. inversion Hfu; subst u.
    exists w'', (reset_lockout t user'). split; [exact Hok|]. split; [exact Hq|].
    split; reflexivity.
Qed.

Lemma lockout_across_requests_witness :
  exists w' user',
    login_attempts "10.0.0.1" None true sample_uuid4 sample_check_password_hash
                   (fun _ _ => false) (mkLoginForm true "alice" "guess" "" false)
                   ([100; 200; 300; 400]%Z ++ [500%Z])%list (login_world alice [])
    = (Ok tt, w')
    /\ User.failed_login_attempts user' = 5%Z
    /\ User.locked_until user' = Some 2300%Z
    /\ exists w'',
         login 2299%Z "10.0.0.1" None true sample_uuid4 sample_check_password_hash
               (fun _ _ => false) (mkLoginForm true "alice" "secret" "" false) w'
         = (Ok (RenderTemplate "login.html"), w'').
Proof.
  destruct (lockout_across_requests "10.0.0.1" None true sample_uuid4
              sample_check_password_hash (fun _ _ => false)
              (mkLoginForm true "alice" "guess" "" false)
              (mkLoginForm true "alice" "secret" "" false)
              [100; 200; 300; 400]%Z 500%Z (login_world alice []) alice)
    as [w' [user' [Hr [_ [Hn [Hl [Hrefuse _]]]]]]];
    try reflexivity.
  exists w', user'. split; [exact Hr|]. split; [exact Hn|]. split; [exact Hl|].
  destruct (Hrefuse 2299%Z) as [w'' [Hr'' _]]; [reflexivity|].
  exists w''. exact Hr''.
Defined.

(** ** Login, guard and logout together *)

(** X10: the login route does not look at the status of the account.  A
    login that succeeds leaves a session that the authentication guard
    accepts exactly when the user is [active]: the handler of the next
    request then runs as it is; for any other status the guard refuses the
    next request and empties the session that the login has just written. *)
Theorem login_then_guard
    (utcnow : datetime) (remote_addr : string) (user_agent : option string)
    (is_json es : bool) (uuid4 : nat -> string)
    (check_password_hash totp_verify : string -> string -> bool)
    (form : LoginForm) (w w' : World) :
  login utcnow remote_addr user_agent es uuid4 check_password_hash totp_verify form w
  = (Ok (Redirect "index"), w') ->
  pending w = [] ->
  exists user,
    find (fun u => String.eqb (User.username u) (username form)) (users (db w)) = Some user
    /\ session w' !! "user_id" = Some (User.id user)
    /\ (User.status user = "active" -> forall f, requires_auth is_json f w' = f w')
    /\ (User.status user <> "active" ->
        forall f, exists w'',
          requires_auth is_json f w'
          = (Ok (if is_json then Jsonify 401 (error_body "Account inactive")
                 else Redirect "login"), w'')
          /\ session w'' = ∅).
Proof.
  intros Hr Hp.
  destruct (login_success_resets utcnow remote_addr user_agent es uuid4 check_password_hash
              totp_verify form w w' Hp Hr) as [user [Hfind [_ [_ [Hq Hs]]]]].
  exists user. split; [exact Hfind|]. split; [exact Hs|]. split.
  - intros Hact f. unfold requires_auth, bind at 1, get at 1. rewrite Hs, Hq.
    cbn [reset_lockout User.status]. rewrite Hact. reflexivity.
  - intros Hact f. unfold requires_auth, bind at 1, get at 1. rewrite Hs, Hq.
    cbn [reset_lockout User.status]. apply String.eqb_neq in Hact. rewrite Hact.
    destruct is_json; eexists; (split; [reflexivity|]); reflexivity.
Qed.

Lemma login_then_guard_witness :
  let suspended := User.mk "u1" "org1" "alice" "hash:secret" "Alice" "user" "suspended"
                           None false 0%Z None None in
  let out := login 1000%Z "10.0.0.1" None true sample_uuid4 sample_check_password_hash
                   (fun _ _ => false) (mkLoginForm true "alice" "secret" "" false)
                   (login_world suspended []) in
  fst out = Ok (Redirect "index")
  /\ exists w'',
       requires_auth true (ret (Jsonify 200 (JObj []))) (snd out)
       = (Ok (Jsonify 401 (error_body "Account inactive")), w'')
       /\ session w'' = ∅.
Proof.
  cbv zeta. split; [vm_compute; reflexivity|].
  destruct (login_then_guard 1000%Z "10.0.0.1" None true true sample_uuid4
              sample_check_password_hash (fun _ _ => false)
              (mkLoginForm true "alice" "secret" "" false)
              (login_world (User.mk "u1" "org1" "alice" "hash:secret" "Alice" "user"
                                    "suspended" None false 0%Z None None) [])
              (snd (login 1000%Z "10.0.0.1" None true sample_uuid4
                          sample_check_password_hash (fun _ _ => false)
                          (mkLoginForm true "alice" "secret" "" false)
                          (login_world (User.mk "u1" "org1" "alice" "hash:secret" "Alice"
                                                "user" "suspended" None false 0%Z None None)
                                       []))))
    as [user [Hfind [_ [_ Hbad]]]].
  - vm_compute. reflexivity.
  - reflexivity.
  - apply Hbad. vm_compute in Hfind. inversion Hfind; subst user. discriminate.
Defined.

Lemma logout_unfold
    (utcnow : datetime) (remote_addr : string) (user_agent : option string)
    (is_json es : bool) (w : World) (uid : string) (u : User.t) :
  session w !! "user_id" = Some uid ->
  query_user uid (db w) = Some u ->
  User.status u = "active" ->
  logout utcnow remote_addr user_agent is_json es w
  = (Ok (Redirect "login"),
     let w1 := snd (log_audit_event utcnow remote_addr user_agent es (Some uid)
                      "authentication" "logout" None None [] w) in
     set_flashed (flashed w1 ++ [("You have been logged out successfully.", "info")])
                 (set_session ∅ w1)).
Proof.
  intros Hs Hq Hact. unfold logout, requires_auth. unfold bind at 1. unfold get at 1.
  rewrite Hs, Hq, Hact. cbn [String.eqb Ascii.eqb Bool.eqb andb].
  unfold bind at 1. unfold get at 1. rewrite Hs. unfold bind at 1.
  destruct (log_audit_event_effect utcnow remote_addr user_agent es (Some uid)
              "authentication" "logout" None None [] w) as [w1 [-> _]].
  reflexivity.
Qed.

(** X11: logout of an active user always ends in the redirect to the login
    page with an empty session, so that the guard refuses the next request
    without running its handler; the files and the storage are untouched.
    The [logout] audit entry is written before the session is emptied: when
    no external call fails it is committed with the user and the
    organization that the session held. *)
Theorem logout_ends_session
    (utcnow : datetime) (remote_addr : string) (user_agent : option string)
    (is_json es : bool) (w : World) (uid : string) (u : User.t) :
  session w !! "user_id" = Some uid ->
  query_user uid (db w) = Some u ->
  User.status u = "active" ->
  pending w = [] ->
  exists w',
    logout utcnow remote_addr user_agent is_json es w = (Ok (Redirect "login"), w')
    /\ session w' = ∅
    /\ fs w' = fs w /\ file_metadata (db w') = file_metadata (db w)
    /\ users (db w') = users (db w)
    /\ (forall f,
          requires_auth is_json f w'
          = if is_json then (Ok (Jsonify 401 (error_body "Authentication required")), w')
            else (Ok (Redirect "login"),
                  set_flashed (flashed w' ++ [("Please log in to access this page.",
                                               "error")]) w'))
    /\ (faults w = [] ->
        forall org, session w !! "organization_id" = Some org ->
        audit_logs (db w')
        = (audit_logs (db w)
           ++ [audit_row utcnow remote_addr user_agent w (Some uid) "authentication"
                         "logout" None None []])%list).
Proof.
  intros Hs Hq Hact Hp.
  rewrite (logout_unfold utcnow remote_addr user_agent is_json es w uid u Hs Hq Hact).
  cbv zeta. eexists. split; [reflexivity|].
  destruct (log_audit_event_effect utcnow remote_addr user_agent es (Some uid)
              "authentication" "logout" None None [] w)
    as [w1 [Hr [Hfs [_ [_ [_ [_ [_ [_ Hdb]]]]]]]]].
  rewrite Hr. cbn [snd session fs db set_flashed set_session].
  split; [reflexivity|]. split; [exact Hfs|].
  assert (Htab : file_metadata (db w1) = file_metadata (db w)
                 /\ users (db w1) = users (db w)).
  { destruct Hdb as [-> | Hfl]; [auto|].
    rewrite Hp in Hfl. cbn [app] in Hfl. apply flush_audit_only in Hfl. tauto. }
  split; [exact (proj1 Htab)|]. split; [exact (proj2 Htab)|]. split.
  - intros f. unfold requires_auth, bind at 1, get at 1.
    cbn [session set_flashed set_session]. rewrite lookup_empty.
    destruct is_json; reflexivity.
  - intros Hf org Horg.
    set (a := audit_row utcnow remote_addr user_agent w (Some uid) "authentication" "logout"
                        None None []).
    destruct (log_audit_event_quiet utcnow remote_addr user_agent es (Some uid)
                "authentication" "logout" None None [] w
                (mkDatabase (users (db w)) (file_metadata (db w)) (file_permissions (db w))
                            (audit_logs (db w) ++ [a])) Hf)
      as [w2 [Hr2 [Hdb2 _]]].
    { rewrite Hp. cbn [app]. apply (flush_audit_accepted _ _ org). exact Horg. }
    rewrite Hr in Hr2. inversion Hr2; subst w2. rewrite Hdb2. reflexivity.
Qed.

Lemma logout_ends_session_witness :
  exists w',
    logout 1000%Z "10.0.0.1" None true true (sample_world empty_db [])
    = (Ok (Redirect "login"), w')
    /\ session w' = ∅
    /\ map AuditLog.action (audit_logs (db w')) = ["logout"].
Proof.
  destruct (logout_ends_session 1000%Z "10.0.0.1" None true true (sample_world empty_db [])
              "u1" alice) as [w' [Hr [Hs [_ [_ [_ [_ Haud]]]]]]];
    try (vm_compute; reflexivity).
  exists w'. split; [exact Hr|]. split; [exact Hs|].
  rewrite (Haud eq_refl "org1"); [reflexivity | vm_compute; reflexivity].
Defined.

(** ** Upload: the whole path and its failures *)

Ltac run_upload :=
  cbv beta iota zeta delta
      [upload_one bind ret raise get modify session_do fresh_uuid os_makedirs file_save
       os_path_getsize calculate_checksum session_item user_id_of
       process_file_content_delay fallible commit flush flush_op app
       fs dirs db pending session es_docs tasks logs flashed faults uuid_ctr
       set_fs set_dirs set_db set_pending set_session set_es_docs set_tasks set_logs
       set_flashed set_faults set_uuid_ctr
       users file_metadata file_permissions audit_logs FileMetadata.id].

(** Hides what is asked of the final world while the route is executed. *)
Ltac hide_post :=
  lazymatch goal with
  | |- @ex World (fun w' => @?E w' /\ @?P w') =>
      let Post := fresh "Post" in
      pose (Post := P); change (exists w', E w' /\ Post w')
  end.

Section UploadPath.

Variable utcnow : datetime.
Variable remote_addr : string.
Variable user_agent : option string.
Variable es : bool.
Variable RETENTION_POLICY_DAYS : Z.
Variable uuid4 : nat -> string.
Variable secure_filename : string -> string.
Variable guess_type : string -> option string.

Let one := upload_one utcnow remote_addr user_agent es RETENTION_POLICY_DAYS uuid4
                      secure_filename guess_type.
Let row := uploaded_row utcnow RETENTION_POLICY_DAYS uuid4 secure_filename guess_type.

(** The audit row of a finished upload. *)
Let upload_audit (w : World) (uid : string) (f : FileMetadata.t) : AuditLog.t :=
  audit_row utcnow remote_addr user_agent w (Some uid) "file_management" "file_uploaded"
            (Some "file") (Some (FileMetadata.id f))
            [ ("file_name", JStr (FileMetadata.original_name f));
              ("file_size", JInt (FileMetadata.size f)) ].

(** One iteration when nothing fails. *)
Lemma upload_one_quiet (u : User.t) (org folder_path classification category : string)
    (tags : list string) (file : FileStorage) (w : World) :
  faults w = [] -> pending w = [] ->
  session w !! "organization_id" = Some org ->
  has_file_id (uuid4 (uuid_ctr w)) (db w) = false ->
  let f := row (User.id u) org folder_path classification category tags file w in
  exists w',
    one (Some u) folder_path classification category tags file w = (Ok (file_summary f), w')
    /\ tasks w' = (tasks w ++ [FileMetadata.id f])%list
    /\ audit_logs (db w') = (audit_logs (db w) ++ [upload_audit w (User.id u) f])%list
    /\ dirs w' = {[upload_path_of folder_path]} ∪ dirs w
    /\ faults w' = [].
Proof.
  intros Hf Hp Horg Hfresh. cbv zeta. subst one row upload_audit.
  destruct w as [fs0 dirs0 db0 pend0 sess0 es0 tasks0 logs0 fl0 faults0 ctr0].
  cbn [faults pending session uuid_ctr db] in Hf, Hp, Horg, Hfresh. subst faults0 pend0.
  hide_post.
  run_upload. rewrite lookup_insert_eq. run_upload. rewrite Horg. run_upload.
  rewrite lookup_insert_eq. run_upload. rewrite Hfresh. run_upload.
  match goal with |- context [log_audit_event _ _ _ _ ?a ?b ?c ?d ?e ?g ?x] =>
    set (wa := x);
    destruct (log_audit_event_quiet utcnow remote_addr user_agent es a b c d e g wa
                (mkDatabase (users (db wa)) (file_metadata (db wa)) (file_permissions (db wa))
                   (audit_logs (db wa)
                    ++ [audit_row utcnow remote_addr user_agent wa a b c d e g])))
      as [w' [Hr [Hdb [_ [Hf' [_ [Hdirs [_ [Htasks _]]]]]]]]]
  end.
  { reflexivity. }
  { subst wa. cbn [pending app]. apply (flush_audit_accepted _ _ org). exact Horg. }
  rewrite Hr. cbv beta iota delta [ret]. exists w'. split; [reflexivity|].
  subst Post. cbv beta. rewrite Htasks, Hdb, Hdirs. subst wa.
  cbn [tasks dirs db audit_logs]. repeat split; try reflexivity. exact Hf'.
Qed.

(** The write of the artifact fails: the iteration raises with the folder
    created, and nothing else changed outside the destination of the
    artifact. *)
Lemma upload_one_save_fails (user : option User.t)
    (folder_path classification category : string) (tags : list string)
    (file : FileStorage) (w : World) (rest : list bool) :
  faults w = false :: true :: rest ->
  exists w',
    one user folder_path classification category tags file w = (Raise OSError, w')
    /\ db w' = db w /\ pending w' = pending w /\ tasks w' = tasks w
    /\ logs w' = logs w
    /\ dirs w' = {[upload_path_of folder_path]} ∪ dirs w
    /\ (forall p,
          p <> PyStr.path_join (upload_path_of folder_path)
                 (uuid4 (uuid_ctr w) ++ "."
                  ++ file_extension_of (secure_filename (filename file))) ->
          fs w' !! p = fs w !! p).
Proof.
  intros Hf. subst one.
  destruct w as [fs0 dirs0 db0 pend0 sess0 es0 tasks0 logs0 fl0 faults0 ctr0].
  cbn [faults] in Hf. subst faults0. hide_post. run_upload.
  eexists. split; [reflexivity|]. subst Post. cbn. repeat split; reflexivity.
Qed.

(** The dispatch of the background task fails: the iteration raises after
    both commits, before the audit entry. *)
Lemma upload_one_dispatch_fails (u : User.t)
    (org folder_path classification category : string) (tags : list string)
    (file : FileStorage) (w : World) (rest : list bool) :
  faults w = false :: false :: false :: false :: false :: false :: true :: rest ->
  pending w = [] ->
  session w !! "organization_id" = Some org ->
  has_file_id (uuid4 (uuid_ctr w)) (db w) = false ->
  let f := row (User.id u) org folder_path classification category tags file w in
  exists w',
    one (Some u) folder_path classification category tags file w = (Raise BrokerError, w')
    /\ file_metadata (db w') = (file_metadata (db w) ++ [f])%list
    /\ file_permissions (db w') = (file_permissions (db w) ++ [creator_grant f])%list
    /\ audit_logs (db w') = audit_logs (db w)
    /\ tasks w' = tasks w
    /\ fs w' !! FileMetadata.file_path f = Some (stream file).
Proof.
  intros Hf Hp Horg Hfresh. cbv zeta. subst one row.
  destruct w as [fs0 dirs0 db0 pend0 sess0 es0 tasks0 logs0 fl0 faults0 ctr0].
  cbn [faults pending session uuid_ctr db] in Hf, Hp, Horg, Hfresh. subst faults0 pend0.
  hide_post.
  run_upload. rewrite lookup_insert_eq. run_upload. rewrite Horg. run_upload.
  rewrite lookup_insert_eq. run_upload. rewrite Hfresh. run_upload.
  eexists. split; [reflexivity|]. subst Post.
  cbn [db fs tasks file_metadata file_permissions audit_logs].
  repeat split; try reflexivity. apply lookup_insert_eq.
Qed.

End UploadPath.

(** The route on one allowed file when nothing fails. *)
Lemma upload_file_quiet
    (utcnow : datetime) (remote_addr : string) (user_agent : option string)
    (is_json es : bool) (RETENTION_POLICY_DAYS : Z) (uuid4 : nat -> string)
    (secure_filename : string -> string) (guess_type : string -> option string)
    (request : UploadRequest) (w : World) (uid org : string) (u : User.t)
    (file : FileStorage) :
  session w !! "user_id" = Some uid ->
  query_user uid (db w) = Some u ->
  User.status u = "active" ->
  request_files request !! "files" = Some [file] ->
  filename file <> "" ->
  allowed_file (filename file) = true ->
  faults w = [] -> pending w = [] ->
  session w !! "organization_id" = Some org ->
  has_file_id (uuid4 (uuid_ctr w)) (db w) = false ->
  let f := uploaded_row utcnow RETENTION_POLICY_DAYS uuid4 secure_filename guess_type
             (User.id u) org
             (default "" (request_form request !! "folder_path"))
             (default "internal" (request_form request !! "classification"))
             (default "" (request_form request !! "category"))
             (form_tags (request_form request)) file w in
  exists w',
    upload_file utcnow remote_addr user_agent is_json es RETENTION_POLICY_DAYS uuid4
                secure_filename guess_type request w
    = (Ok (upload_success [file_summary f]), w')
    /\ fs w' = <[FileMetadata.file_path f := stream file]> (fs w)
    /\ file_metadata (db w') = (file_metadata (db w) ++ [f])%list
    /\ file_permissions (db w') = (file_permissions (db w) ++ [creator_grant f])%list
    /\ tasks w' = (tasks w ++ [FileMetadata.id f])%list
    /\ audit_logs (db w')
       = (audit_logs (db w)
          ++ [audit_row utcnow remote_addr user_agent w (Some (User.id u))
                        "file_management" "file_uploaded" (Some "file")
                        (Some (FileMetadata.id f))
                        [ ("file_name", JStr (filename file));
                          ("file_size", JInt (Z.of_nat (length (stream file)))) ]])%list
    /\ faults w' = [] /\ pending w' = [].
Proof.
  intros Hs Hq Hact Hfiles Hname Hext Hf Hp Horg Hfresh. cbv zeta.
  rewrite (upload_file_unfold utcnow remote_addr user_agent is_json es
             RETENTION_POLICY_DAYS uuid4 secure_filename guess_type request w uid u
             _ Hs Hq Hact Hfiles).
  unfold route_loop. cbn [upload_loop].
  apply String.eqb_neq in Hname. rewrite Hname, Hext. cbn [negb].
  destruct (upload_one_quiet utcnow remote_addr user_agent es RETENTION_POLICY_DAYS uuid4
              secure_filename guess_type u org
              (default "" (request_form request !! "folder_path"))
              (default "internal" (request_form request !! "classification"))
              (default "" (request_form request !! "category"))
              (form_tags (request_form request)) file w Hf Hp Horg Hfresh)
    as [w' [Hr [Htasks [Haud [_ Hf']]]]].
  destruct (upload_one_Ok utcnow remote_addr user_agent es RETENTION_POLICY_DAYS uuid4
              secure_filename guess_type _ _ _ _ _ _ _ _ _ Hr Hp)
    as [u0 [org0 [Hu0 [Horg0 Hrow]]]].
  inversion Hu0; subst u0. rewrite Horg in Horg0. inversion Horg0; subst org0.
  cbv zeta in Hrow. destruct Hrow as [_ [_ [Hfm [Hfp [_ [Hfs [Hp' _]]]]]]].
  unfold bind. rewrite Hr. unfold ret. exists w'. split; [reflexivity|].
  split; [exact Hfs|]. split; [exact Hfm|]. split; [exact Hfp|].
  split; [exact Htasks|]. split; [exact Haud|]. split; [exact Hf' | exact Hp'].
Qed.

(** X12: the upload of one allowed file goes through when nothing fails:
    for an active logged-in user with an organization, an identifier that
    is not in use and no failing external call, the route answers 200 with
    the summary of the new row; the artifact is stored under the stored
    name, the row and the creator's permission are committed, the content
    task is queued with the identifier of the file, and one
    [file_uploaded] audit entry with the original name and the size is
    committed. *)
Theorem upload_succeeds_when_nothing_fails
    (utcnow : datetime) (remote_addr : string) (user_agent : option string)
    (is_json es : bool) (RETENTION_POLICY_DAYS : Z) (uuid4 : nat -> string)
    (secure_filename : string -> string) (guess_type : string -> option string)
    (request : UploadRequest) (w : World) (uid org : string) (u : User.t)
    (file : FileStorage) :
  session w !! "user_id" = Some uid ->
  query_user uid (db w) = Some u ->
  User.status u = "active" ->
  request_files request !! "files" = Some [file] ->
  filename file <> "" ->
  allowed_file (filename file) = true ->
  faults w = [] -> pending w = [] ->
  session w !! "organization_id" = Some org ->
  has_file_id (uuid4 (uuid_ctr w)) (db w) = false ->
  let f := uploaded_row utcnow RETENTION_POLICY_DAYS uuid4 secure_filename guess_type
             (User.id u) org
             (default "" (request_form request !! "folder_path"))
             (default "internal" (request_form request !! "classification"))
             (default "" (request_form request !! "category"))
             (form_tags (request_form request)) file w in
  exists w',
    upload_file utcnow remote_addr user_agent is_json es RETENTION_POLICY_DAYS uuid4
                secure_filename guess_type request w
    = (Ok (upload_success [file_summary f]), w')
    /\ fs w' !! FileMetadata.file_path f = Some (stream file)
    /\ file_metadata (db w') = (file_metadata (db w) ++ [f])%list
    /\ file_permissions (db w') = (file_permissions (db w) ++ [creator_grant f])%list
    /\ tasks w' = (tasks w ++ [FileMetadata.id f])%list
    /\ audit_logs (db w')
       = (audit_logs (db w)
          ++ [audit_row utcnow remote_addr user_agent w (Some (User.id u))
                        "file_management" "file_uploaded" (Some "file")
                        (Some (FileMetadata.id f))
                        [ ("file_name", JStr (filename file));
                          ("file_size", JInt (Z.of_nat (length (stream file)))) ]])%list.
Proof.
  intros Hs Hq Hact Hfiles Hname Hext Hf Hp Horg Hfresh. cbv zeta.
  destruct (upload_file_quiet utcnow remote_addr user_agent is_json es RETENTION_POLICY_DAYS
              uuid4 secure_filename guess_type request w uid org u file
              Hs Hq Hact Hfiles Hname Hext Hf Hp Horg Hfresh)
    as [w' [Hr [Hfs [Hfm [Hfp [Htasks [Haud _]]]]]]].
  cbv zeta in Hr, Hfs, Hfm, Hfp, Htasks, Haud.
  exists w'. split; [exact Hr|].
  split; [rewrite Hfs; apply lookup_insert_eq|].
  split; [exact Hfm|]. split; [exact Hfp|]. split; [exact Htasks | exact Haud].
Qed.

Lemma upload_succeeds_when_nothing_fails_witness :
  exists w',
    sample_upload [] ["notes.TXT"] "/team/q3/"
    = (Ok (upload_success [ JObj [ ("id", JStr "uuid-0"); ("name", JStr "notes.TXT");
                                   ("size", JInt 10); ("type", JStr "txt") ] ]), w')
    /\ fs w' !! "enterprise_files/team/q3/uuid-0.txt" = Some (bytes_of_string "0123456789")
    /\ tasks w' = ["uuid-0"].
Proof.
  destruct (upload_succeeds_when_nothing_fails 1000%Z "10.0.0.1" None true true 2555%Z
              sample_uuid4 (fun s => s) (fun _ => None)
              (sample_request ["notes.TXT"] "/team/q3/") (sample_world empty_db [])
              "u1" "org1" alice (mkFileStorage "notes.TXT" (bytes_of_string "0123456789")))
    as [w' [Hr [Hfs [_ [_ [Htasks _]]]]]];
    try (vm_compute; reflexivity); [discriminate|].
  exists w'. split; [|split].
  - unfold sample_upload. rewrite Hr. vm_compute. reflexivity.
  - refine (eq_trans _ Hfs). f_equal.
  - rewrite Htasks. reflexivity.
Defined.

(** X13: a failure while the artifact is written fails the request with
    the 500 answer before any row is written: the tables and the task
    queue are what they were, an error is logged, and the target folder has
    been created.  No path of the storage other than the destination of
    the artifact is touched; what the failed write leaves at the
    destination is not cleaned up by the route. *)
Theorem upload_storage_failure_commits_nothing
    (utcnow : datetime) (remote_addr : string) (user_agent : option string)
    (is_json es : bool) (RETENTION_POLICY_DAYS : Z) (uuid4 : nat -> string)
    (secure_filename : string -> string) (guess_type : string -> option string)
    (request : UploadRequest) (w : World) (uid : string) (u : User.t)
    (file : FileStorage) (files : list FileStorage) (rest : list bool) :
  session w !! "user_id" = Some uid ->
  query_user uid (db w) = Some u ->
  User.status u = "active" ->
  request_files request !! "files" = Some (file :: files) ->
  filename file <> "" ->
  allowed_file (filename file) = true ->
  faults w = false :: true :: rest ->
  let destination :=
    PyStr.path_join (upload_path_of (default "" (request_form request !! "folder_path")))
                    (uuid4 (uuid_ctr w) ++ "."
                     ++ file_extension_of (secure_filename (filename file))) in
  exists w',
    upload_file utcnow remote_addr user_agent is_json es RETENTION_POLICY_DAYS uuid4
                secure_filename guess_type request w
    = (Ok (Jsonify 500 (error_body "Upload failed")), w')
    /\ db w' = db w /\ tasks w' = tasks w
    /\ logs w' = (logs w ++ [(ERROR, "Upload error")])%list
    /\ dirs w' = {[upload_path_of (default "" (request_form request !! "folder_path"))]}
                 ∪ dirs w
    /\ (forall p, p <> destination -> fs w' !! p = fs w !! p).
Proof.
  intros Hs Hq Hact Hfiles Hname Hext Hf. cbv zeta.
  rewrite (upload_file_unfold utcnow remote_addr user_agent is_json es
             RETENTION_POLICY_DAYS uuid4 secure_filename guess_type request w uid u
             _ Hs Hq Hact Hfiles).
  unfold route_loop. cbn [upload_loop].
  apply String.eqb_neq in Hname. rewrite Hname, Hext. cbn [negb].
  destruct (upload_one_save_fails utcnow remote_addr user_agent es RETENTION_POLICY_DAYS
              uuid4 secure_filename guess_type (Some u)
              (default "" (request_form request !! "folder_path"))
              (default "internal" (request_form request !! "classification"))
              (default "" (request_form request !! "category"))
              (form_tags (request_form request)) file w rest Hf)
    as [w' [Hr [Hdb [_ [Htasks [Hlogs [Hdirs Hfs]]]]]]].
  unfold bind. rewrite Hr. eexists. split; [reflexivity|].
  cbn [db fs tasks logs dirs set_logs]. rewrite Hlogs. auto.
Qed.

Lemma upload_storage_failure_commits_nothing_witness :
  exists w',
    sample_upload [false; true] ["a.txt"; "b.txt"] "docs"
    = (Ok (Jsonify 500 (error_body "Upload failed")), w')
    /\ db w' = empty_db /\ tasks w' = []
    /\ fs w' !! "enterprise_files/docs/other.txt" = None.
Proof.
  destruct (upload_storage_failure_commits_nothing 1000%Z "10.0.0.1" None true true 2555%Z
              sample_uuid4 (fun s => s) (fun _ => None)
              (sample_request ["a.txt"; "b.txt"] "docs") (sample_world empty_db [false; true])
              "u1" alice (mkFileStorage "a.txt" (bytes_of_string "0123456789"))
              [mkFileStorage "b.txt" (bytes_of_string "0123456789")] [])
    as [w' [Hr [Hdb [Htasks [_ [_ Hfs]]]]]];
    try (vm_compute; reflexivity); [discriminate|].
  exists w'. split; [exact Hr|]. split; [exact Hdb|]. split; [exact Htasks|].
  rewrite Hfs; [reflexivity|]. vm_compute. discriminate.
Defined.

(** X14: the handoff to the background task is not isolated from the
    request.  When the dispatch raises, the route answers 500 although the
    artifact is stored and the row and the creator's permission are
    committed; no [file_uploaded] audit entry is written and nothing is
    queued. *)
Theorem upload_dispatch_failure_after_commit
    (utcnow : datetime) (remote_addr : string) (user_agent : option string)
    (is_json es : bool) (RETENTION_POLICY_DAYS : Z) (uuid4 : nat -> string)
    (secure_filename : string -> string) (guess_type : string -> option string)
    (request : UploadRequest) (w : World) (uid org : string) (u : User.t)
    (file : FileStorage) (files : list FileStorage) (rest : list bool) :
  session w !! "user_id" = Some uid ->
  query_user uid (db w) = Some u ->
  User.status u = "active" ->
  request_files request !! "files" = Some (file :: files) ->
  filename file <> "" ->
  allowed_file (filename file) = true ->
  faults w = false :: false :: false :: false :: false :: false :: true :: rest ->
  pending w = [] ->
  session w !! "organization_id" = Some org ->
  has_file_id (uuid4 (uuid_ctr w)) (db w) = false ->
  let f := uploaded_row utcnow RETENTION_POLICY_DAYS uuid4 secure_filename guess_type
             (User.id u) org
             (default "" (request_form request !! "folder_path"))
             (default "internal" (request_form request !! "classification"))
             (default "" (request_form request !! "category"))
             (form_tags (request_form request)) file w in
  exists w',
    upload_file utcnow remote_addr user_agent is_json es RETENTION_POLICY_DAYS uuid4
                secure_filename guess_type request w
    = (Ok (Jsonify 500 (error_body "Upload failed")), w')
    /\ file_metadata (db w') = (file_metadata (db w) ++ [f])%list
    /\ file_permissions (db w') = (file_permissions (db w) ++ [creator_grant f])%list
    /\ fs w' !! FileMetadata.file_path f = Some (stream file)
    /\ audit_logs (db w') = audit_logs (db w)
    /\ tasks w' = tasks w.
Proof.
  intros Hs Hq Hact Hfiles Hname Hext Hf Hp Horg Hfresh. cbv zeta.
  rewrite (upload_file_unfold utcnow remote_addr user_agent is_json es
             RETENTION_POLICY_DAYS uuid4 secure_filename guess_type request w uid u
             _ Hs Hq Hact Hfiles).
  unfold route_loop. cbn [upload_loop].
  apply String.eqb_neq in Hname. rewrite Hname, Hext. cbn [negb].
  destruct (upload_one_dispatch_fails utcnow remote_addr user_agent es RETENTION_POLICY_DAYS
              uuid4 secure_filename guess_type u org
              (default "" (request_form request !! "folder_path"))
              (default "internal" (request_form request !! "classification"))
              (default "" (request_form request !! "category"))
              (form_tags (request_form request)) file w rest Hf Hp Horg Hfresh)
    as [w' [Hr [Hfm [Hfp [Haud [Htasks Hfs]]]]]].
  unfold bind. rewrite Hr. eexists. split; [reflexivity|].
  cbn [db fs tasks set_logs]. auto.
Qed.

Lemma upload_dispatch_failure_after_commit_witness :
  exists w',
    sample_upload [false; false; false; false; false; false; true] ["a.txt"] "docs"
    = (Ok (Jsonify 500 (error_body "Upload failed")), w')
    /\ audit_logs (db w') = []
    /\ tasks w' = [].
Proof.
  destruct (upload_dispatch_failure_after_commit 1000%Z "10.0.0.1" None true true 2555%Z
              sample_uuid4 (fun s => s) (fun _ => None)
              (sample_request ["a.txt"] "docs")
              (sample_world empty_db [false; false; false; false; false; false; true])
              "u1" "org1" alice (mkFileStorage "a.txt" (bytes_of_string "0123456789"))
              [] [])
    as [w' [Hr [_ [_ [_ [Haud Htasks]]]]]];
    try (vm_compute; reflexivity); [discriminate|].
  exists w'. split; [exact Hr|]. split; [exact Haud | exact Htasks].
Defined.

(** ** The artifact of a failed upload *)

(** The commit of the metadata row fails: the iteration raises with the
    artifact already written. *)
Lemma upload_one_commit_fails
    (utcnow : datetime) (remote_addr : string) (user_agent : option string) (es : bool)
    (RETENTION_POLICY_DAYS : Z) (uuid4 : nat -> string)
    (secure_filename : string -> string) (guess_type : string -> option string)
    (u : User.t) (org folder_path classification category : string) (tags : list string)
    (file : FileStorage) (w : World) (rest : list bool) :
  faults w = false :: false :: false :: false :: true :: rest ->
  pending w = [] ->
  session w !! "organization_id" = Some org ->
  let f := uploaded_row utcnow RETENTION_POLICY_DAYS uuid4 secure_filename guess_type
             (User.id u) org folder_path classification category tags file w in
  exists w',
    upload_one utcnow remote_addr user_agent es RETENTION_POLICY_DAYS uuid4 secure_filename
               guess_type (Some u) folder_path classification category tags file w
    = (Raise DatabaseError, w')
    /\ db w' = db w
    /\ pending w' = []
    /\ tasks w' = tasks w
    /\ fs w' = <[FileMetadata.file_path f := stream file]> (fs w).
Proof.
  intros Hf Hp Horg. cbv zeta.
  destruct w as [fs0 dirs0 db0 pend0 sess0 es0 tasks0 logs0 fl0 faults0 ctr0].
  cbn [faults pending session uuid_ctr db] in Hf, Hp, Horg. subst faults0 pend0.
  hide_post.
  run_upload. rewrite lookup_insert_eq. run_upload. rewrite Horg. run_upload.
  rewrite lookup_insert_eq. run_upload.
  eexists. split; [reflexivity|]. subst Post.
  cbn [db fs tasks pending]. repeat split; reflexivity.
Qed.

(** X15: a failed commit leaves the artifact behind.  When the commit of
    the metadata row raises, the route answers 500 and no row, permission
    or audit entry is written, but the artifact saved just before stays in
    storage although no row has been written for it; the route does not
    remove it. *)
Theorem upload_commit_failure_orphans_artifact
    (utcnow : datetime) (remote_addr : string) (user_agent : option string)
    (is_json es : bool) (RETENTION_POLICY_DAYS : Z) (uuid4 : nat -> string)
    (secure_filename : string -> string) (guess_type : string -> option string)
    (request : UploadRequest) (w : World) (uid org : string) (u : User.t)
    (file : FileStorage) (files : list FileStorage) (rest : list bool) :
  session w !! "user_id" = Some uid ->
  query_user uid (db w) = Some u ->
  User.status u = "active" ->
  request_files request !! "files" = Some (file :: files) ->
  filename file <> "" ->
  allowed_file (filename file) = true ->
  faults w = false :: false :: false :: false :: true :: rest ->
  pending w = [] ->
  session w !! "organization_id" = Some org ->
  let f := uploaded_row utcnow RETENTION_POLICY_DAYS uuid4 secure_filename guess_type
             (User.id u) org
             (default "" (request_form request !! "folder_path"))
             (default "internal" (request_form request !! "classification"))
             (default "" (request_form request !! "category"))
             (form_tags (request_form request)) file w in
  exists w',
    upload_file utcnow remote_addr user_agent is_json es RETENTION_POLICY_DAYS uuid4
                secure_filename guess_type request w
    = (Ok (Jsonify 500 (error_body "Upload failed")), w')
    /\ db w' = db w
    /\ tasks w' = tasks w
    /\ fs w' !! FileMetadata.file_path f = Some (stream file)
    /\ (forall p, p <> FileMetadata.file_path f -> fs w' !! p = fs w !! p).
Proof.
  intros Hs Hq Hact Hfiles Hname Hext Hf Hp Horg. cbv zeta.
  rewrite (upload_file_unfold utcnow remote_addr user_agent is_json es
             RETENTION_POLICY_DAYS uuid4 secure_filename guess_type request w uid u
             _ Hs Hq Hact Hfiles).
  unfold route_loop. cbn [upload_loop].
  apply String.eqb_neq in Hname. rewrite Hname, Hext. cbn [negb].
  destruct (upload_one_commit_fails utcnow remote_addr user_agent es RETENTION_POLICY_DAYS
              uuid4 secure_filename guess_type u org
              (default "" (request_form request !! "folder_path"))
              (default "internal" (request_form request !! "classification"))
              (default "" (request_form request !! "category"))
              (form_tags (request_form request)) file w rest Hf Hp Horg)
    as [w' [Hr [Hdb [_ [Htasks Hfs]]]]].
  cbv zeta in Hfs.
  unfold bind. rewrite Hr. eexists. split; [reflexivity|].
  cbn [db fs tasks set_logs]. rewrite Hfs.
  split; [exact Hdb|]. split; [exact Htasks|].
  split; [apply lookup_insert_eq|].
  intros p Hne. apply lookup_insert_ne. congruence.
Qed.

Lemma upload_commit_failure_orphans_artifact_witness :
  exists w',
    sample_upload [false; false; false; false; true] ["a.txt"] "docs"
    = (Ok (Jsonify 500 (error_body "Upload failed")), w')
    /\ db w' = empty_db
    /\ fs w' !! "enterprise_files/docs/uuid-0.txt" = Some (bytes_of_string "0123456789").
Proof.
  destruct (upload_commit_failure_orphans_artifact 1000%Z "10.0.0.1" None true true 2555%Z
              sample_uuid4 (fun s => s) (fun _ => None)
              (sample_request ["a.txt"] "docs")
              (sample_world empty_db [false; false; false; false; true])
              "u1" "org1" alice (mkFileStorage "a.txt" (bytes_of_string "0123456789"))
              [] [])
    as [w' [Hr [Hdb [_ [Hfs _]]]]];
    try (vm_compute; reflexivity); [discriminate|].
  exists w'. split; [exact Hr|]. split; [exact Hdb|].
  refine (eq_trans _ Hfs). f_equal.
Defined.

(** ** The store across requests *)

Lemma has_file_id_false (fid : string) (d : Database) :
  has_file_id fid d = false <-> ~ In fid (map FileMetadata.id (file_metadata d)).
Proof.
  unfold has_file_id. split.
  - intros H Hin. apply in_map_iff in Hin. destruct Hin as [f [Hid Hf]].
    assert (Ht : existsb (fun f => String.eqb (FileMetadata.id f) fid) (file_metadata d) = true).
    { apply existsb_exists. exists f. split; [exact Hf|]. rewrite Hid. apply String.eqb_refl. }
    congruence.
  - intros H. destruct (existsb _ _) eqn:E; [|reflexivity]. exfalso. apply H.
    apply existsb_exists in E. destruct E as [f [Hf Hid]]. apply String.eqb_eq in Hid.
    apply in_map_iff. exists f. auto.
Qed.

Lemma NoDup_ids_app (old new : list FileMetadata.t) :
  List.NoDup (map FileMetadata.id old) ->
  List.NoDup (map FileMetadata.id new) ->
  (forall f, In f new -> ~ In (FileMetadata.id f) (map FileMetadata.id old)) ->
  List.NoDup (map FileMetadata.id (old ++ new)).
Proof.
  intros Ho Hn Hfresh. induction old as [|g old IH]; [exact Hn|].
  cbn [map app]. inversion Ho as [|? ? Hg Ho']; subst. constructor.
  - rewrite map_app, in_app_iff. intros [Hc | Hc]; [exact (Hg Hc)|].
    apply in_map_iff in Hc. destruct Hc as [f [Hid Hf]].
    apply (Hfresh f Hf). left. symmetry. exact Hid.
  - apply IH; [exact Ho'|]. intros f Hf Hc. apply (Hfresh f Hf). right. exact Hc.
Qed.

(** X16: a successful upload keeps the store consistent.  If the
    identifiers of [file_metadata] are unique and every permission row
    refers to an existing file before the request, both still hold after
    it; the [users] table is untouched and the table of files has grown by
    one row per summary in the answer. *)
Theorem upload_keeps_store_consistent
    (utcnow : datetime) (remote_addr : string) (user_agent : option string)
    (is_json es : bool) (RETENTION_POLICY_DAYS : Z) (uuid4 : nat -> string)
    (secure_filename : string -> string) (guess_type : string -> option string)
    (request : UploadRequest) (w w' : World) (summaries : list json) :
  upload_file utcnow remote_addr user_agent is_json es RETENTION_POLICY_DAYS uuid4
              secure_filename guess_type request w
  = (Ok (upload_success summaries), w') ->
  pending w = [] ->
  List.NoDup (map FileMetadata.id (file_metadata (db w))) ->
  ref_integrity (db w) ->
  List.NoDup (map FileMetadata.id (file_metadata (db w')))
  /\ ref_integrity (db w')
  /\ users (db w') = users (db w)
  /\ length (file_metadata (db w'))
     = (length (file_metadata (db w)) + length summaries)%nat
  /\ pending w' = [].
Proof.
  intros H Hp Hnd Href.
  destruct (upload_file_success _ _ _ _ _ _ _ _ _ _ _ _ _ H)
    as [uid [user [files [_ [_ [_ Hloop]]]]]].
  unfold route_loop in Hloop.
  destruct (upload_loop_Ok _ _ _ _ _ _ _ _ _ _ _ _ _ _ _ _ _ _ Hloop Hp)
    as [new [Hacc [Hfm [Hfp [Hu [Hfresh [Hnew [_ [Hp' _]]]]]]]]].
  cbn [app] in Hacc. subst summaries.
  split; [|split; [|split; [|split]]].
  - rewrite Hfm. apply NoDup_ids_app; [exact Hnd | exact Hnew|].
    intros f Hf. apply has_file_id_false. exact (Hfresh f Hf).
  - intros p Hin. rewrite Hfp in Hin. unfold has_file_id. rewrite Hfm, existsb_app.
    apply in_app_or in Hin. destruct Hin as [Hin | Hin].
    + apply orb_true_iff. left. exact (Href p Hin).
    + apply orb_true_iff. right. apply in_map_iff in Hin. destruct Hin as [f [<- Hf]].
      apply existsb_exists. exists f. split; [exact Hf|]. apply String.eqb_refl.
  - exact Hu.
  - rewrite Hfm, List.length_app, List.length_map. reflexivity.
  - exact Hp'.
Qed.

Lemma upload_keeps_store_consistent_witness :
  let w' := snd (sample_upload [] ["a.txt"; "b.pdf"] "docs") in
  List.NoDup (map FileMetadata.id (file_metadata (db w')))
  /\ ref_integrity (db w')
  /\ users (db w') = [alice]
  /\ length (file_metadata (db w')) = 2%nat
  /\ pending w' = [].
Proof.
  cbv zeta.
  refine (upload_keeps_store_consistent 1000%Z "10.0.0.1" None true true 2555%Z
            sample_uuid4 (fun s => s) (fun _ => None)
            (sample_request ["a.txt"; "b.pdf"] "docs") (sample_world empty_db [])
            (snd (sample_upload [] ["a.txt"; "b.pdf"] "docs"))
            [ JObj [ ("id", JStr "uuid-0"); ("name", JStr "a.txt");
                     ("size", JInt 10); ("type", JStr "txt") ];
              JObj [ ("id", JStr "uuid-1"); ("name", JStr "b.pdf");
                     ("size", JInt 10); ("type", JStr "pdf") ] ] _ _ _ _).
  - vm_compute. reflexivity.
  - reflexivity.
  - constructor.
  - intros p [].
Defined.

(** Every row that a successful loop has added carries the retention
    deadline of the upload time and no legal hold. *)
Lemma upload_loop_retention
    (utcnow : datetime) (remote_addr : string) (user_agent : option string) (es : bool)
    (RETENTION_POLICY_DAYS : Z) (uuid4 : nat -> string)
    (secure_filename : string -> string) (guess_type : string -> option string)
    (user : option User.t) (folder_path classification category : string)
    (tags : list string) (files : list FileStorage) (acc acc' : list json) (w w' : World) :
  upload_loop utcnow remote_addr user_agent es RETENTION_POLICY_DAYS uuid4 secure_filename
              guess_type user folder_path classification category tags files acc w
  = (Ok (upload_success acc'), w') ->
  pending w = [] ->
  forall f, In f (file_metadata (db w')) ->
    In f (file_metadata (db w))
    \/ (FileMetadata.retention_until f
        = Some (utcnow + RETENTION_POLICY_DAYS * seconds_per_day)%Z
        /\ FileMetadata.legal_hold f = Some false
        /\ FileMetadata.classification f = classification
        /\ FileMetadata.folder_path f = folder_path).
Proof.
  revert acc w. induction files as [|file rest IH]; intros acc w H Hp f Hin.
  - simpl in H. unfold ret in H. inversion H; subst. left. exact Hin.
  - simpl in H. destruct (String.eqb (filename file) "").
    { exact (IH acc w H Hp f Hin). }
    destruct (negb (allowed_file (filename file))).
    { unfold ret in H. inversion H. }
    apply bind_Ok in H. destruct H as [summary [w1 [H1 H]]].
    destruct (upload_one_Ok _ _ _ _ _ _ _ _ _ _ _ _ _ _ _ _ _ H1 Hp)
      as [u [org [_ [_ Hrow]]]].
    cbv zeta in Hrow. destruct Hrow as [_ [_ [Hfm [_ [_ [_ [Hp1 _]]]]]]].
    destruct (IH _ w1 H Hp1 f Hin) as [Hold | Hnew]; [|right; exact Hnew].
    rewrite Hfm in Hold. apply in_app_or in Hold. destruct Hold as [Hold | [<- | []]].
    + left. exact Hold.
    + right. repeat split; reflexivity.
Qed.

(** X17: a file outlives every sweep that runs before its retention
    deadline.  After a successful upload at time [utcnow], a sweep at any
    time up to [utcnow + RETENTION_POLICY_DAYS] days does not select the
    new rows and, whatever fails during the sweep, leaves them in the
    table. *)
Theorem fresh_upload_outlives_sweep
    (utcnow : datetime) (remote_addr : string) (user_agent : option string)
    (is_json es : bool) (RETENTION_POLICY_DAYS : Z) (uuid4 : nat -> string)
    (secure_filename : string -> string) (guess_type : string -> option string)
    (request : UploadRequest) (w w1 : World) (summaries : list json)
    (later : datetime) (remote_addr' : string) (user_agent' : option string) (es' : bool)
    (f : FileMetadata.t) :
  upload_file utcnow remote_addr user_agent is_json es RETENTION_POLICY_DAYS uuid4
              secure_filename guess_type request w
  = (Ok (upload_success summaries), w1) ->
  pending w = [] ->
  List.NoDup (map FileMetadata.id (file_metadata (db w))) ->
  (later <= utcnow + RETENTION_POLICY_DAYS * seconds_per_day)%Z ->
  In f (file_metadata (db w1)) ->
  ~ In f (file_metadata (db w)) ->
  expired later f = false
  /\ In f (file_metadata
             (db (snd (apply_retention_policies later remote_addr' user_agent' es' w1)))).
Proof.
  intros H Hp Hnd Hlater Hin Hnew.
  destruct (upload_file_success _ _ _ _ _ _ _ _ _ _ _ _ _ H)
    as [uid [user [files [_ [_ [_ Hloop]]]]]].
  unfold route_loop in Hloop.
  destruct (upload_loop_retention _ _ _ _ _ _ _ _ _ _ _ _ _ _ _ _ _ _ Hloop Hp f Hin)
    as [Hold | [Hret [Hhold _]]]; [contradiction|].
  assert (Hexp : expired later f = false).
  { unfold expired. rewrite Hret. apply andb_false_iff. left. apply Z.ltb_ge. exact Hlater. }
  split; [exact Hexp|].
  destruct (upload_loop_Ok _ _ _ _ _ _ _ _ _ _ _ _ _ _ _ _ _ _ Hloop Hp)
    as [new [_ [Hfm [_ [_ [Hfresh [Hndnew [_ [Hp1 _]]]]]]]]].
  assert (Hnd1 : List.NoDup (map FileMetadata.id (file_metadata (db w1)))).
  { rewrite Hfm. apply NoDup_ids_app; [exact Hnd | exact Hndnew|].
    intros g Hg. apply has_file_id_false. exact (Hfresh g Hg). }
  apply sweep_keeps_row; [|exact Hin|rewrite Hp1; intros []].
  intros g Hg Hid. apply filter_In in Hg. destruct Hg as [Hg Hgexp].
  assert (g = f) as -> by exact (NoDup_map_eq FileMetadata.id _ g f Hnd1 Hg Hin Hid).
  congruence.
Qed.

Lemma fresh_upload_outlives_sweep_witness :
  let w1 := snd (sample_upload [] ["a.txt"] "docs") in
  let f := uploaded_row 1000%Z 2555%Z sample_uuid4 (fun s => s) (fun _ => None)
             "u1" "org1" "docs" "internal" "" []
             (mkFileStorage "a.txt" (bytes_of_string "0123456789"))
             (sample_world empty_db []) in
  expired 220753000%Z f = false
  /\ In f (file_metadata
             (db (snd (apply_retention_policies 220753000%Z "10.0.0.2" None false w1)))).
Proof.
  cbv zeta.
  refine (fresh_upload_outlives_sweep 1000%Z "10.0.0.1" None true true 2555%Z
            sample_uuid4 (fun s => s) (fun _ => None)
            (sample_request ["a.txt"] "docs") (sample_world empty_db [])
            (snd (sample_upload [] ["a.txt"] "docs"))
            [ JObj [ ("id", JStr "uuid-0"); ("name", JStr "a.txt");
                     ("size", JInt 10); ("type", JStr "txt") ] ]
            220753000%Z "10.0.0.2" None false _ _ _ _ _ _ _).
  - vm_compute. reflexivity.
  - reflexivity.
  - constructor.
  - vm_compute. discriminate.
  - vm_compute. left. reflexivity.
  - intros [].
Defined.

(** ** The sweep, run again *)

(** When nothing fails the loop only removes rows. *)
Lemma sweep_loop_shrinks
    (utcnow : datetime) (remote_addr : string) (user_agent : option string) (es : bool)
    (l : list FileMetadata.t) (w : World) (org : string) :
  faults w = [] ->
  session w !! "organization_id" = Some org ->
  Forall is_delete (pending w) ->
  exists w',
    for_each l (retention_body utcnow remote_addr user_agent es) w = (Ok tt, w')
    /\ faults w' = [] /\ session w' = session w /\ Forall is_delete (pending w')
    /\ (forall g, In g (file_metadata (db w')) -> In g (file_metadata (db w))).
Proof.
  revert w. induction l as [|f0 l IH]; intros w Hf Horg Hdel.
  - exists w. split; [reflexivity|]. auto.
  - destruct (retention_body_quiet utcnow remote_addr user_agent es f0 w org Hf Horg Hdel)
      as [w1 [d1 [Hr1 [Hd1 [Hfiles1 [_ [Hp1 [Hf1 [Hs1 _]]]]]]]]].
    assert (Hdel1 : Forall is_delete (pending w1)).
    { rewrite Hp1. constructor; [eexists; reflexivity | constructor]. }
    assert (Horg1 : session w1 !! "organization_id" = Some org)
      by (rewrite Hs1; exact Horg).
    destruct (IH w1 Hf1 Horg1 Hdel1) as [w' [Hr [Hf' [Hs' [Hdel' Hsub]]]]].
    exists w'. simpl. unfold bind. rewrite Hr1. split; [exact Hr|].
    split; [exact Hf'|]. split; [congruence|]. split; [exact Hdel'|].
    intros g Hg. apply Hsub in Hg. rewrite Hfiles1 in Hg.
    destruct (flush_deletes (pending w) (db w) Hdel) as [d [Hd [_ [_ Hchar]]]].
    rewrite Hd1 in Hd. inversion Hd; subst d. apply Hchar in Hg. tauto.
Qed.

Lemma filter_nil_of_all_false {A : Type} (p : A -> bool) (l : list A) :
  (forall x, In x l -> p x = false) -> List.filter p l = [].
Proof.
  induction l as [|x l IH]; intros H; [reflexivity|]. simpl.
  rewrite (H x) by (left; reflexivity). apply IH. intros y Hy. apply H. right. exact Hy.
Qed.

(** X18: the sweep is idempotent at a given time.  After a sweep in which
    nothing fails, no remaining row is selected; a second sweep at the same
    time reports zero processed files and leaves the tables and the storage
    as the first left them. *)
Theorem retention_sweep_idempotent
    (utcnow : datetime) (remote_addr : string) (user_agent : option string) (es : bool)
    (w : World) (org : string) :
  faults w = [] ->
  session w !! "organization_id" = Some org ->
  pending w = [] ->
  exists n w1 w2,
    apply_retention_policies utcnow remote_addr user_agent es w
    = (Ok (JObj [("processed", JInt n)]), w1)
    /\ (forall g, In g (file_metadata (db w1)) ->
                  In g (file_metadata (db w)) /\ expired utcnow g = false)
    /\ apply_retention_policies utcnow remote_addr user_agent es w1
       = (Ok (JObj [("processed", JInt 0)]), w2)
    /\ db w2 = db w1 /\ fs w2 = fs w1.
Proof.
  intros Hf Horg Hp.
  assert (Hdel : Forall is_delete (pending w)) by (rewrite Hp; constructor).
  destruct (sweep_loop_shrinks utcnow remote_addr user_agent es
              (List.filter (expired utcnow) (file_metadata (db w))) w org Hf Horg Hdel)
    as [wl [Hr [Hfl [Hsl [Hdell Hsub]]]]].
  destruct (sweep_loop_quiet utcnow remote_addr user_agent es
              (List.filter (expired utcnow) (file_metadata (db w))) w org Hf Horg Hdel)
    as [wl' [Hr' [_ [_ [_ [_ [Hvis _]]]]]]].
  rewrite Hr in Hr'. inversion Hr'; subst wl'; clear Hr'.
  destruct (flush_deletes (pending wl) (db wl) Hdell) as [d [Hd [_ [_ Hchar]]]].
  assert (Hfirst : apply_retention_policies utcnow remote_addr user_agent es w
                   = (Ok (JObj [("processed",
                                 JInt (Z.of_nat (length (List.filter (expired utcnow)
                                                           (file_metadata (db w))))))]),
                      set_pending [] (set_db d wl))).
  { unfold apply_retention_policies, try_except.
    unfold bind at 1. unfold get at 1. unfold bind at 1. rewrite Hr.
    unfold bind at 1. rewrite (commit_quiet wl d Hfl Hd). reflexivity. }
  assert (Hrows : forall g, In g (file_metadata d) ->
                            In g (file_metadata (db w)) /\ expired utcnow g = false).
  { intros g Hg. apply Hchar in Hg. destruct Hg as [Hg Hno].
    split; [exact (Hsub g Hg)|].
    destruct (expired utcnow g) eqn:E; [|reflexivity]. exfalso.
    assert (Hsel : In g (List.filter (expired utcnow) (file_metadata (db w)))).
    { apply filter_In. split; [exact (Hsub g Hg) | exact E]. }
    destruct (Hvis g Hsel) as [Hpend | Hgone]; [exact (Hno Hpend)|].
    exact (Hgone g Hg eq_refl). }
  eexists. exists (set_pending [] (set_db d wl)). eexists.
  split; [exact Hfirst|]. split; [exact Hrows|].
  unfold apply_retention_policies at 1, try_except.
  unfold bind at 1. unfold get at 1. cbn [db set_pending set_db].
  rewrite (filter_nil_of_all_false (expired utcnow) (file_metadata d))
    by (intros g Hg; exact (proj2 (Hrows g Hg))).
  unfold bind at 1. cbn [for_each]. unfold ret at 1. unfold bind at 1.
  rewrite (commit_quiet (set_pending [] (set_db d wl)) d); [|exact Hfl|reflexivity].
  unfold ret. split; [reflexivity|]. split; reflexivity.
Qed.

Lemma retention_sweep_idempotent_witness :
  exists n w1 w2,
    apply_retention_policies 1000%Z "10.0.0.1" None true (sweep_world [])
    = (Ok (JObj [("processed", JInt n)]), w1)
    /\ (forall g, In g (file_metadata (db w1)) ->
                  In g (file_metadata (db (sweep_world []))) /\ expired 1000%Z g = false)
    /\ apply_retention_policies 1000%Z "10.0.0.1" None true w1
       = (Ok (JObj [("processed", JInt 0)]), w2)
    /\ db w2 = db w1 /\ fs w2 = fs w1.
Proof.
  apply (retention_sweep_idempotent 1000%Z "10.0.0.1" None true (sweep_world []) "org1");
    reflexivity.
Defined.

(** ** The count reported by the sweep *)

(** X19: the sweep counts the selected files, not the deleted ones.  When
    the removal of the artifact of the one selected file raises, the
    failure is logged and swallowed: the row, its artifact and the audit
    table stay as they were, and the sweep still reports one processed
    file. *)
Theorem sweep_counts_failed_removal
    (utcnow : datetime) (remote_addr : string) (user_agent : option string) (es : bool)
    (w : World) (f : FileMetadata.t) (content : list byte) :
  List.filter (expired utcnow) (file_metadata (db w)) = [f] ->
  classified f = true ->
  fs w !! FileMetadata.file_path f = Some content ->
  faults w = [true] ->
  pending w = [] ->
  exists w',
    apply_retention_policies utcnow remote_addr user_agent es w
    = (Ok (JObj [("processed", JInt 1)]), w')
    /\ db w' = db w
    /\ fs w' = fs w
    /\ logs w' = (logs w ++ [(ERROR, "Failed to delete expired file")])%list.
Proof.
  intros Hsel Hcls Hfs Hf Hp.
  unfold apply_retention_policies, try_except.
  unfold bind at 1. unfold get at 1. rewrite Hsel. cbn [for_each length Z.of_nat].
  unfold bind at 1. unfold bind at 1.
  unfold retention_body at 1, try_except. fold (classified f). rewrite Hcls.
  unfold bind at 1. unfold bind at 1. unfold os_path_exists, bind at 1, get at 1, ret at 1.
  rewrite bool_decide_eq_true_2 by (rewrite Hfs; eauto).
  unfold os_remove. unfold bind at 1. unfold fallible at 1. rewrite Hf.
  unfold logger, modify. unfold ret at 1. unfold bind at 1.
  rewrite (commit_quiet _ (db w)); [|reflexivity|cbn; rewrite Hp; reflexivity].
  unfold ret. eexists. split; [reflexivity|]. cbn.
  destruct w as [fs0 dirs0 db0 pend0 sess0 es0 tasks0 logs0 fl0 faults0 ctr0].
  repeat split; reflexivity.
Qed.

Lemma sweep_counts_failed_removal_witness :
  exists w',
    apply_retention_policies 1000%Z "10.0.0.1" None true
      (removal_world [true])
    = (Ok (JObj [("processed", JInt 1)]), w')
    /\ file_metadata (db w') = [restricted_file; held_file]
    /\ fs w' !! FileMetadata.file_path restricted_file = Some (bytes_of_string "abc").
Proof.
  destruct (sweep_counts_failed_removal 1000%Z "10.0.0.1" None true
              (removal_world [true])
              restricted_file (bytes_of_string "abc"))
    as [w' [Hr [Hdb [Hfs _]]]]; try (vm_compute; reflexivity).
  exists w'. split; [exact Hr|]. rewrite Hdb, Hfs. split; [reflexivity|].
  vm_compute. reflexivity.
Defined.

(** ** The content task *)

Section TaskFacts.

Variable textract_process : list byte -> option string.

(** The extraction never raises and only reads: a failure leaves the
    content empty and a warning in the log. *)
Lemma extract_content_effect (f : FileMetadata.t) (w : World) :
  exists content w',
    extract_content textract_process f w = (Ok content, w')
    /\ db w' = db w /\ fs w' = fs w /\ pending w' = pending w /\ session w' = session w
    /\ es_docs w' = es_docs w /\ faults w' = faults w /\ tasks w' = tasks w
    /\ (content <> "" ->
        str_in (PyStr.lower (FileMetadata.file_type f)) ["pdf"; "doc"; "docx"; "txt"; "rtf"]
        = true
        /\ exists bytes, fs w !! FileMetadata.file_path f = Some bytes
                         /\ textract_process bytes = Some content)
    /\ (forall bytes text,
          str_in (PyStr.lower (FileMetadata.file_type f)) ["pdf"; "doc"; "docx"; "txt"; "rtf"]
          = true ->
          fs w !! FileMetadata.file_path f = Some bytes ->
          textract_process bytes = Some text -> content = text /\ w' = w).
Proof.
  unfold extract_content, try_except.
  destruct (str_in _ _) eqn:Etype.
  - unfold bind at 1. unfold get at 1.
    destruct (fs w !! FileMetadata.file_path f) as [bytes|] eqn:Efs.
    + destruct (textract_process bytes) as [text|] eqn:Etext.
      * unfold ret. exists text, w. split; [reflexivity|].
        do 7 (split; [reflexivity|]). split.
        -- intros _. split; [reflexivity|]. exists bytes. auto.
        -- intros b t _ Hb Ht. split; [congruence | reflexivity].
      * unfold raise, bind, logger, modify, ret. eexists. eexists.
        split; [reflexivity|]. cbn. do 7 (split; [reflexivity|]). split.
        -- intros Hc. exfalso. apply Hc. reflexivity.
        -- intros b t _ Hb Ht. congruence.
    + unfold raise, bind, logger, modify, ret. eexists. eexists.
      split; [reflexivity|]. cbn. do 7 (split; [reflexivity|]). split.
      * intros Hc. exfalso. apply Hc. reflexivity.
      * intros b t _ Hb Ht. congruence.
  - unfold ret. exists "", w. split; [reflexivity|].
    do 7 (split; [reflexivity|]). split.
    + intros Hc. exfalso. apply Hc. reflexivity.
    + intros b t Hc. discriminate Hc.
Qed.

End TaskFacts.

(** X20: the content task contains its failures and only reads the store.
    It always returns a result; the tables, the storage, the unit of work
    and the session are untouched.  An unknown identifier gives
    [File not found] and changes nothing at all.  For a known file the
    result is [completed] whatever fails in the extraction or the indexing;
    a non-empty content is what the extractor gives for the stored bytes of
    a file of one of the five text types; and a document is indexed only if
    the search index is configured and the content is not empty. *)
Theorem process_file_content_contained
    (es : bool) (textract_process : list byte -> option string)
    (file_id : string) (w : World) :
  exists r w',
    process_file_content es textract_process file_id w = (Ok r, w')
    /\ db w' = db w /\ fs w' = fs w /\ pending w' = pending w /\ session w' = session w
    /\ tasks w' = tasks w
    /\ (query_file file_id (db w) = None -> r = error_body "File not found" /\ w' = w)
    /\ (forall f, query_file file_id (db w) = Some f ->
          exists content,
            r = JObj [ ("status", JStr "completed");
                       ("content_length", JInt (Z.of_nat (String.length content))) ]
            /\ (content <> "" ->
                str_in (PyStr.lower (FileMetadata.file_type f))
                       ["pdf"; "doc"; "docx"; "txt"; "rtf"] = true
                /\ exists bytes, fs w !! FileMetadata.file_path f = Some bytes
                                 /\ textract_process bytes = Some content)
            /\ (es_docs w' = es_docs w
                \/ (es = true /\ content <> ""
                    /\ es_docs w'
                       = (es_docs w
                          ++ [mkEsDoc "file-content" (content_document file_id f content)])%list))).
Proof.
  unfold process_file_content, try_except.
  unfold bind at 1. unfold get at 1.
  destruct (query_file file_id (db w)) as [f|] eqn:Eq.
  - unfold bind at 1.
    destruct (extract_content_effect textract_process f w)
      as [content [w1 [-> [Hdb [Hfs [Hp [Hs [Hes [Hfl [Ht [Hne _]]]]]]]]]]].
    unfold bind at 1.
    destruct (es && negb (String.eqb content "")) eqn:Eidx.
    + apply andb_true_iff in Eidx. destruct Eidx as [Ees Hcontent].
      apply negb_true_iff, String.eqb_neq in Hcontent.
      unfold try_except, es_index, bind at 1.
      destruct (fallible SearchIndexError w1) as [[[]|e] w2] eqn:E;
        destruct (fallible_frame _ _ _ _ E) as [fl ->].
      * unfold modify, ret. eexists. eexists. split; [reflexivity|].
        cbn. rewrite Hdb, Hfs, Hp, Hs, Ht, Hes.
        repeat split; try reflexivity; try discriminate.
        intros f' Hf'. inversion Hf'; subst f'. exists content.
        split; [reflexivity|]. split; [exact Hne|]. right. auto.
      * unfold logger, modify, ret. eexists. eexists. split; [reflexivity|].
        cbn. rewrite Hdb, Hfs, Hp, Hs, Ht, Hes.
        repeat split; try reflexivity; try discriminate.
        intros f' Hf'. inversion Hf'; subst f'. exists content.
        split; [reflexivity|]. split; [exact Hne|]. left. reflexivity.
    + unfold ret. eexists. eexists. split; [reflexivity|].
      repeat split; try assumption; try discriminate.
      intros f' Hf'. inversion Hf'; subst f'. exists content.
      split; [reflexivity|]. split; [exact Hne|]. left. exact Hes.
  - unfold ret. exists (error_body "File not found"), w. split; [reflexivity|].
    repeat split; try reflexivity. intros f Hf. discriminate Hf.
Qed.

(** ** From the upload to the content task *)

Lemma query_file_appended (f : FileMetadata.t) (d d' : Database) :
  has_file_id (FileMetadata.id f) d = false ->
  file_metadata d' = (file_metadata d ++ [f])%list ->
  query_file (FileMetadata.id f) d' = Some f.
Proof.
  unfold has_file_id, query_file. intros Hfresh ->.
  induction (file_metadata d) as [|g l IH]; simpl.
  - rewrite String.eqb_refl. reflexivity.
  - simpl in Hfresh. apply orb_false_iff in Hfresh. destruct Hfresh as [-> Hl].
    exact (IH Hl).
Qed.

(** X21: the upload hands the file over to the content task.  After the
    upload of a file whose extension is one of the five text types, when
    nothing fails, the queue holds the identifier of the new row; the task
    run on that identifier finds the row, reads the bytes that the upload
    stored and, the text extracted from them being not empty, reports its
    length and sends one document with that text to the [file-content]
    index when a search index is configured. *)
Theorem uploaded_text_file_is_indexed
    (utcnow : datetime) (remote_addr : string) (user_agent : option string)
    (is_json es : bool) (RETENTION_POLICY_DAYS : Z) (uuid4 : nat -> string)
    (secure_filename : string -> string) (guess_type : string -> option string)
    (textract_process : list byte -> option string)
    (request : UploadRequest) (w : World) (uid org : string) (u : User.t)
    (file : FileStorage) (text : string) :
  session w !! "user_id" = Some uid ->
  query_user uid (db w) = Some u ->
  User.status u = "active" ->
  request_files request !! "files" = Some [file] ->
  filename file <> "" ->
  allowed_file (filename file) = true ->
  faults w = [] -> pending w = [] ->
  session w !! "organization_id" = Some org ->
  has_file_id (uuid4 (uuid_ctr w)) (db w) = false ->
  str_in (PyStr.lower (file_extension_of (secure_filename (filename file))))
         ["pdf"; "doc"; "docx"; "txt"; "rtf"] = true ->
  textract_process (stream file) = Some text ->
  text <> "" ->
  let f := uploaded_row utcnow RETENTION_POLICY_DAYS uuid4 secure_filename guess_type
             (User.id u) org
             (default "" (request_form request !! "folder_path"))
             (default "internal" (request_form request !! "classification"))
             (default "" (request_form request !! "category"))
             (form_tags (request_form request)) file w in
  exists w1 w2,
    upload_file utcnow remote_addr user_agent is_json es RETENTION_POLICY_DAYS uuid4
                secure_filename guess_type request w
    = (Ok (upload_success [file_summary f]), w1)
    /\ tasks w1 = (tasks w ++ [FileMetadata.id f])%list
    /\ process_file_content es textract_process (FileMetadata.id f) w1
       = (Ok (JObj [ ("status", JStr "completed");
                     ("content_length", JInt (Z.of_nat (String.length text))) ]), w2)
    /\ es_docs w2
       = (if es
          then (es_docs w1
                ++ [mkEsDoc "file-content" (content_document (FileMetadata.id f) f text)])%list
          else es_docs w1)
    /\ db w2 = db w1 /\ fs w2 = fs w1.
Proof.
  intros Hs Hq Hact Hfiles Hname Hext Hf Hp Horg Hfresh Htype Htext Hne. cbv zeta.
  destruct (upload_file_quiet utcnow remote_addr user_agent is_json es RETENTION_POLICY_DAYS
              uuid4 secure_filename guess_type request w uid org u file
              Hs Hq Hact Hfiles Hname Hext Hf Hp Horg Hfresh)
    as [w1 [Hr [Hfs [Hfm [_ [Htasks [_ [Hf1 _]]]]]]]].
  cbv zeta in Hr, Hfs, Hfm, Htasks.
  set (f := uploaded_row _ _ _ _ _ _ _ _ _ _ _ _ w) in *.
  apply String.eqb_neq in Hne.
  assert (Htask : forall e : bool,
            process_file_content e textract_process (FileMetadata.id f) w1
            = (Ok (JObj [ ("status", JStr "completed");
                          ("content_length", JInt (Z.of_nat (String.length text))) ]),
               if e
               then set_es_docs
                      (es_docs w1
                       ++ [mkEsDoc "file-content"
                                   (content_document (FileMetadata.id f) f text)]) w1
               else w1)).
  { intros e. unfold process_file_content, try_except. unfold bind at 1. unfold get at 1.
    rewrite (query_file_appended f (db w) (db w1) Hfresh Hfm).
    unfold bind at 1. unfold extract_content, try_except.
    change (FileMetadata.file_type f)
      with (file_extension_of (secure_filename (filename file))).
    rewrite Htype. unfold bind at 1. unfold get at 1.
    rewrite Hfs, lookup_insert_eq, Htext. unfold ret at 1.
    rewrite Hne. cbn [negb]. rewrite andb_true_r.
    destruct e.
    - unfold bind at 1. unfold try_except, es_index. unfold bind at 1.
      rewrite (fallible_quiet _ _ Hf1). unfold modify, ret. reflexivity.
    - reflexivity. }
  exists w1. eexists. split; [exact Hr|]. split; [exact Htasks|].
  split; [exact (Htask es)|]. destruct es; cbn; auto.
Qed.

Lemma uploaded_text_file_is_indexed_witness :
  exists w1 w2,
    sample_upload [] ["notes.TXT"] "/team/q3/"
    = (Ok (upload_success [ JObj [ ("id", JStr "uuid-0"); ("name", JStr "notes.TXT");
                                   ("size", JInt 10); ("type", JStr "txt") ] ]), w1)
    /\ tasks w1 = ["uuid-0"]
    /\ fst (process_file_content true (fun _ => Some "ten digits") "uuid-0" w1)
       = Ok (JObj [ ("status", JStr "completed"); ("content_length", JInt 10) ])
    /\ db w2 = db w1.
Proof.
  destruct (uploaded_text_file_is_indexed 1000%Z "10.0.0.1" None true true 2555%Z
              sample_uuid4 (fun s => s) (fun _ => None) (fun _ => Some "ten digits")
              (sample_request ["notes.TXT"] "/team/q3/") (sample_world empty_db [])
              "u1" "org1" alice (mkFileStorage "notes.TXT" (bytes_of_string "0123456789"))
              "ten digits")
    as [w1 [w2 [Hr [Htasks [Htask [_ [Hdb _]]]]]]];
    try (vm_compute; reflexivity); try discriminate.
  exists w1, w2. split; [exact Hr|]. split; [exact Htasks|].
  split; [|exact Hdb]. change "uuid-0" with (sample_uuid4 0) at 1.
  exact (f_equal fst Htask).
Defined.

(** ** Storage paths without [..] *)

Lemma split_aux_app_sep (sep : ascii) (a b cur : list ascii) :
  PyStr.split_aux sep (a ++ sep :: b) cur
  = (PyStr.split_aux sep a cur ++ PyStr.split_aux sep b [])%list.
Proof.
  revert cur. induction a as [|c a IH]; intros cur.
  - cbn [app PyStr.split_aux]. rewrite Ascii.eqb_refl. reflexivity.
  - cbn [app PyStr.split_aux]. destruct (Ascii.eqb c sep).
    + rewrite IH. reflexivity.
    + apply IH.
Qed.

Lemma split_app_slash (a b : string) :
  PyStr.split "/" (a ++ "/" ++ b) = (PyStr.split "/" a ++ PyStr.split "/" b)%list.
Proof.
  unfold PyStr.split. rewrite chars_app.
  change (PyStr.chars ("/" ++ b)) with ("/"%char :: PyStr.chars b).
  apply split_aux_app_sep.
Qed.

Lemma lstrip_slash_split (l : list ascii) (seg : string) :
  In seg (PyStr.split_aux "/" (PyStr.lstrip_slash l) []) ->
  In seg (PyStr.split_aux "/" l []).
Proof.
  induction l as [|c l IH]; [auto|].
  cbn [PyStr.lstrip_slash]. unfold PyStr.is_slash. destruct (Ascii.eqb c "/") eqn:E.
  - intros H. cbn [PyStr.split_aux]. rewrite E. right. exact (IH H).
  - auto.
Qed.

Lemma lstrip_slash_prefix (l : list ascii) :
  exists p, l = (p ++ PyStr.lstrip_slash l)%list /\ List.Forall (fun c => c = "/"%char) p.
Proof.
  induction l as [|c l [p [IH Hp]]]; [exists []; split; [reflexivity | constructor]|].
  cbn [PyStr.lstrip_slash]. unfold PyStr.is_slash. destruct (Ascii.eqb c "/") eqn:E.
  - apply Ascii.eqb_eq in E. exists (c :: p). split; [simpl; f_equal; exact IH|].
    constructor; assumption.
  - exists []. split; [reflexivity | constructor].
Qed.

Lemma split_aux_trailing_slashes (a q : list ascii) (seg : string) :
  List.Forall (fun c => c = "/"%char) q ->
  In seg (PyStr.split_aux "/" a []) ->
  In seg (PyStr.split_aux "/" (a ++ q) []).
Proof.
  intros Hq Hin. destruct q as [|c q]; [rewrite app_nil_r; exact Hin|].
  inversion Hq as [|? ? Hc _]; subst. rewrite split_aux_app_sep.
  apply in_or_app. left. exact Hin.
Qed.

(** Stripping the slashes only drops empty components. *)
Lemma strip_slash_split (s seg : string) :
  In seg (PyStr.split "/" (PyStr.strip_slash s)) -> In seg (PyStr.split "/" s).
Proof.
  unfold PyStr.split, PyStr.strip_slash. rewrite chars_of_chars.
  set (l := PyStr.lstrip_slash (PyStr.chars s)). intros H.
  apply lstrip_slash_split. fold l.
  destruct (lstrip_slash_prefix (rev l)) as [p [Hp Hall]].
  assert (Hl : l = (rev (PyStr.lstrip_slash (rev l)) ++ rev p)%list).
  { rewrite <- rev_app_distr, <- Hp, rev_involutive. reflexivity. }
  rewrite Hl. apply split_aux_trailing_slashes; [|exact H].
  apply List.Forall_forall. intros c Hc. apply in_rev in Hc.
  exact (proj1 (List.Forall_forall _ _) Hall c Hc).
Qed.

Lemma ends_with_slash_split (a : string) :
  PyStr.ends_with_slash a = true -> exists a', a = a' ++ "/".
Proof.
  unfold PyStr.ends_with_slash. intros H.
  destruct (rev (PyStr.chars a)) as [|c r] eqn:E; [discriminate H|].
  unfold PyStr.is_slash in H. apply Ascii.eqb_eq in H. subst c.
  exists (PyStr.of_chars (rev r)).
  rewrite <- (of_chars_chars a), <- (rev_involutive (PyStr.chars a)), E.
  cbn [rev]. rewrite of_chars_app. reflexivity.
Qed.

(** The components of a joined path are those of its two parts, up to an
    empty component where the first part ends with a slash. *)
Lemma path_join_split (a b : string) :
  a <> "" -> PyStr.starts_with_slash b = false ->
  exists mid,
    PyStr.split "/" (PyStr.path_join a b) = (mid ++ PyStr.split "/" b)%list
    /\ (PyStr.split "/" a = mid \/ PyStr.split "/" a = (mid ++ [""])%list).
Proof.
  intros Ha Hb. unfold PyStr.path_join. rewrite Hb.
  apply String.eqb_neq in Ha. rewrite Ha. cbn [orb].
  destruct (PyStr.ends_with_slash a) eqn:E.
  - destruct (ends_with_slash_split a E) as [a' ->].
    exists (PyStr.split "/" a'). split.
    + unfold PyStr.split. rewrite !chars_app, <- List.app_assoc.
      change (PyStr.chars "/" ++ PyStr.chars b)%list with ("/"%char :: PyStr.chars b).
      apply split_aux_app_sep.
    + right. change (a' ++ "/") with (a' ++ "/" ++ ""). rewrite split_app_slash.
      reflexivity.
  - exists (PyStr.split "/" a). split; [apply split_app_slash | left; reflexivity].
Qed.

Lemma normpath_fold_keeps_root (root : string) (segs st : list string) :
  ~ In ".." segs ->
  exists st', fold_left normpath_step segs (st ++ [root])%list = (st' ++ [root])%list.
Proof.
  revert st. induction segs as [|seg segs IH]; intros st Hno.
  - exists st. reflexivity.
  - cbn [fold_left]. unfold normpath_step at 2.
    assert (Hseg : String.eqb seg ".." = false).
    { apply String.eqb_neq. intros ->. apply Hno. left. reflexivity. }
    assert (Hrest : ~ In ".." segs) by (intros Hc; apply Hno; right; exact Hc).
    destruct (String.eqb seg "" || String.eqb seg "."); [exact (IH st Hrest)|].
    rewrite Hseg. exact (IH (seg :: st) Hrest).
Qed.

(** X22: without [..] components the artifact stays under the upload
    root.  If no component of the folder path of the request is [..], and
    the stored name (identifier, dot, extension) has no [..] component
    and no leading slash, the path recorded in the new row resolves to a
    location under [UPLOAD_FOLDER]; leading and trailing slashes of the
    folder path do no harm. *)
Theorem upload_path_stays_under_root
    (utcnow : datetime) (RETENTION_POLICY_DAYS : Z) (uuid4 : nat -> string)
    (secure_filename : string -> string) (guess_type : string -> option string)
    (uid org folder_path classification category : string) (tags : list string)
    (file : FileStorage) (w : World) :
  let stored := uuid4 (uuid_ctr w) ++ "."
                ++ file_extension_of (secure_filename (filename file)) in
  ~ In ".." (PyStr.split "/" folder_path) ->
  ~ In ".." (PyStr.split "/" stored) ->
  PyStr.starts_with_slash stored = false ->
  under_upload_root
    (FileMetadata.file_path
       (uploaded_row utcnow RETENTION_POLICY_DAYS uuid4 secure_filename guess_type
                     uid org folder_path classification category tags file w))
  = true.
Proof.
  cbv zeta. intros Hfolder Hstored Habs.
  unfold uploaded_row. cbn [FileMetadata.file_path].
  set (stored := uuid4 (uuid_ctr w) ++ "." ++ _) in *.
  destruct (path_join_split (upload_path_of folder_path) stored) as [mid [Hsplit Hmid]].
  { rewrite upload_path_under_folder. discriminate. }
  { exact Habs. }
  assert (Hup : PyStr.split "/" (upload_path_of folder_path)
                = UPLOAD_FOLDER :: PyStr.split "/" (PyStr.strip_slash folder_path)).
  { rewrite upload_path_under_folder, split_app_slash. reflexivity. }
  assert (Hshape : exists rest, mid = UPLOAD_FOLDER :: rest
                                /\ forall seg, In seg rest ->
                                     In seg (PyStr.split "/" (PyStr.strip_slash folder_path))).
  { rewrite Hup in Hmid. destruct Hmid as [<- | Hmid].
    - eexists. split; [reflexivity|]. auto.
    - destruct mid as [|m rest]; [discriminate Hmid|].
      cbn [app] in Hmid. inversion Hmid as [[Hm Hrest]]. exists rest.
      split; [reflexivity|]. intros seg Hseg. rewrite Hrest.
      apply in_or_app. left. exact Hseg. }
  destruct Hshape as [rest [-> Hrest]].
  unfold under_upload_root, normpath_components. rewrite Hsplit.
  cbn [app fold_left].
  change (normpath_step [] UPLOAD_FOLDER) with ([] ++ [UPLOAD_FOLDER])%list.
  destruct (normpath_fold_keeps_root UPLOAD_FOLDER (rest ++ PyStr.split "/" stored) [])
    as [st' ->].
  { intros Hc. apply in_app_or in Hc. destruct Hc as [Hc | Hc]; [|exact (Hstored Hc)].
    apply Hfolder. apply strip_slash_split. exact (Hrest _ Hc). }
  rewrite rev_app_distr. cbn [rev app]. apply String.eqb_refl.
Qed.

Lemma upload_path_stays_under_root_witness :
  under_upload_root
    (FileMetadata.file_path
       (uploaded_row 1000%Z 2555%Z sample_uuid4 (fun s => s) (fun _ => None)
                     "u1" "org1" "//team/./q3/" "internal" "" []
                     (mkFileStorage "notes.TXT" (bytes_of_string "0123456789"))
                     (sample_world empty_db [])))
  = true.
Proof.
  apply (upload_path_stays_under_root 1000%Z 2555%Z sample_uuid4 (fun s => s) (fun _ => None)
           "u1" "org1" "//team/./q3/" "internal" "" []
           (mkFileStorage "notes.TXT" (bytes_of_string "0123456789"))
           (sample_world empty_db [])).
  - vm_compute. intuition discriminate.
  - vm_compute. intuition discriminate.
  - vm_compute. reflexivity.
Defined.

(** ** Enrolment of the second factor *)

(** X23: the second-factor secret is drawn once.  For a user on record,
    when the commit goes through, [generate_totp_secret] returns a
    non-empty secret that is then the one on record: the reloaded user
    verifies codes against exactly that secret, and any later call returns
    the same secret without drawing or writing again.  A secret already on
    record is returned as it is and nothing is written. *)
Theorem totp_secret_drawn_once
    (totp_verify : string -> string -> bool) (drawn uid : string) (user : User.t)
    (w : World) :
  query_user uid (db w) = Some user ->
  faults w = [] -> pending w = [] ->
  drawn <> "" ->
  exists secret user' w',
    generate_totp_secret drawn user w = (Ok secret, w')
    /\ secret <> ""
    /\ query_user uid (db w') = Some user'
    /\ User.two_factor_secret user' = Some secret
    /\ (forall token, verify_totp totp_verify user' token = totp_verify secret token)
    /\ (forall drawn', generate_totp_secret drawn' user' w' = (Ok secret, w'))
    /\ (forall old, User.two_factor_secret user = Some old -> old <> "" ->
                    secret = old /\ w' = w)
    /\ file_metadata (db w') = file_metadata (db w)
    /\ audit_logs (db w') = audit_logs (db w).
Proof.
  intros Hq Hf Hp Hdrawn.
  assert (Hkeep : forall old, User.two_factor_secret user = Some old -> old <> "" ->
            exists secret user' w',
              generate_totp_secret drawn user w = (Ok secret, w')
              /\ secret <> ""
              /\ query_user uid (db w') = Some user'
              /\ User.two_factor_secret user' = Some secret
              /\ (forall token, verify_totp totp_verify user' token = totp_verify secret token)
              /\ (forall drawn', generate_totp_secret drawn' user' w' = (Ok secret, w'))
              /\ (forall old, User.two_factor_secret user = Some old -> old <> "" ->
                              secret = old /\ w' = w)
              /\ file_metadata (db w') = file_metadata (db w)
              /\ audit_logs (db w') = audit_logs (db w)).
  { intros old Hold Hne. exists old, user, w.
    assert (Hgen : forall d, generate_totp_secret d user w = (Ok old, w)).
    { intros d. unfold generate_totp_secret. rewrite Hold.
      apply String.eqb_neq in Hne. rewrite Hne. reflexivity. }
    split; [apply Hgen|]. split; [exact Hne|]. split; [exact Hq|]. split; [exact Hold|].
    split.
    { intros token. unfold verify_totp. rewrite Hold.
      apply String.eqb_neq in Hne. rewrite Hne. reflexivity. }
    split; [exact Hgen|]. split; [|split; reflexivity].
    intros old' Hold' _. split; [congruence | reflexivity]. }
  assert (Hnew : User.two_factor_secret user = None \/ User.two_factor_secret user = Some "" ->
            exists secret user' w',
              generate_totp_secret drawn user w = (Ok secret, w')
              /\ secret <> ""
              /\ query_user uid (db w') = Some user'
              /\ User.two_factor_secret user' = Some secret
              /\ (forall token, verify_totp totp_verify user' token = totp_verify secret token)
              /\ (forall drawn', generate_totp_secret drawn' user' w' = (Ok secret, w'))
              /\ (forall old, User.two_factor_secret user = Some old -> old <> "" ->
                              secret = old /\ w' = w)
              /\ file_metadata (db w') = file_metadata (db w)
              /\ audit_logs (db w') = audit_logs (db w)).
  { intros Hnone.
    set (user' := with_totp_secret user drawn).
    set (d := mkDatabase (replace_user user' (users (db w))) (file_metadata (db w))
                         (file_permissions (db w)) (audit_logs (db w))).
    exists drawn, user', (set_pending [] (set_db d (set_pending [DirtyUser user'] w))).
    assert (Hrun : (session_do (DirtyUser user') ;; commit ;; ret drawn)%py w
                   = (Ok drawn, set_pending [] (set_db d (set_pending [DirtyUser user'] w)))).
    { unfold bind at 1. unfold session_do, modify. rewrite Hp. cbn [app].
      unfold bind at 1. rewrite (commit_quiet _ d); [reflexivity | exact Hf | reflexivity]. }
    assert (Hgen' : forall d' w0, generate_totp_secret d' user' w0 = (Ok drawn, w0)).
    { intros d' w0. unfold generate_totp_secret. subst user'. cbn [User.two_factor_secret with_totp_secret].
      apply String.eqb_neq in Hdrawn. rewrite Hdrawn. reflexivity. }
    split.
    { unfold generate_totp_secret. destruct Hnone as [-> | ->]; exact Hrun. }
    split; [exact Hdrawn|]. split.
    { unfold query_user in Hq |- *. cbn [db set_pending set_db users d].
      apply find_some in Hq. destruct Hq as [Hin Hid]. apply String.eqb_eq in Hid.
      subst uid. change (User.id user) with (User.id user').
      apply query_replace_user. exists user. auto. }
    split; [reflexivity|]. split.
    { intros token. unfold verify_totp. subst user'. cbn [User.two_factor_secret with_totp_secret].
      apply String.eqb_neq in Hdrawn. rewrite Hdrawn. reflexivity. }
    split; [intros d'; apply Hgen'|]. split; [|split; reflexivity].
    intros old Hold Hne. destruct Hnone as [Hn | Hn]; rewrite Hn in Hold; [discriminate Hold|].
    inversion Hold; subst old. exfalso. apply Hne. reflexivity. }
  destruct (User.two_factor_secret user) as [old|] eqn:E.
  - destruct (String.eqb old "") eqn:Eo.
    + apply String.eqb_eq in Eo. subst old. apply Hnew. right. reflexivity.
    + apply String.eqb_neq in Eo. exact (Hkeep old eq_refl Eo).
  - apply Hnew. left. reflexivity.
Qed.

Lemma totp_secret_drawn_once_witness :
  exists secret user' w',
    generate_totp_secret "JBSWY3DPEHPK3PXP" alice (sample_world empty_db [])
    = (Ok secret, w')
    /\ secret <> ""
    /\ query_user "u1" (db w') = Some user'
    /\ User.two_factor_secret user' = Some secret
    /\ (forall token, verify_totp String.eqb user' token = String.eqb secret token)
    /\ (forall drawn', generate_totp_secret drawn' user' w' = (Ok secret, w'))
    /\ (forall old, User.two_factor_secret alice = Some old -> old <> "" ->
                    secret = old /\ w' = sample_world empty_db [])
    /\ file_metadata (db w') = file_metadata (db (sample_world empty_db []))
    /\ audit_logs (db w') = audit_logs (db (sample_world empty_db [])).
Proof.
  apply (totp_secret_drawn_once String.eqb "JBSWY3DPEHPK3PXP" "u1" alice
           (sample_world empty_db [])); try reflexivity.
  discriminate.
Defined.

(** ** Retention: the sweep in its context (C4, C5) *)

Section SweepContexts.

Variable utcnow : datetime.
Variable remote_addr : string.
Variable user_agent : option string.
Variable es : bool.

Let body := retention_body_in utcnow remote_addr user_agent es.
Let sweep := apply_retention_policies_in utcnow remote_addr user_agent es.

(** Called while a request is handled, the sweep is the one studied above. *)
Lemma sweep_in_request :
  sweep InRequest = apply_retention_policies utcnow remote_addr user_agent es.
Proof. reflexivity. Qed.

(** The removal of the artifact, whatever fails: only the artifact of a
    confidential or restricted file is ever removed. *)
Lemma removal_step (f : FileMetadata.t) (w : World) :
  exists r w1,
    (if str_in (FileMetadata.classification f) ["confidential"; "restricted"] then
       present <- os_path_exists (FileMetadata.file_path f) ;;
       if present then os_remove (FileMetadata.file_path f) else ret tt
     else ret tt) w = (r, w1)
    /\ db w1 = db w /\ pending w1 = pending w
    /\ (fs w1 = fs w
        \/ (r = Ok tt /\ classified f = true
            /\ fs w1 = delete (FileMetadata.file_path f) (fs w))).
Proof.
  unfold classified. destruct (str_in _ _).
  - unfold bind at 1. unfold os_path_exists, bind, get, ret.
    destruct (bool_decide _).
    + unfold os_remove, bind, get, modify, raise.
      destruct (fallible OSError w) as [[[]|e] w1] eqn:E;
        destruct (fallible_frame _ _ _ _ E) as [fl ->].
      * cbn [fs set_faults].
        destruct (fs w !! FileMetadata.file_path f);
          do 2 eexists; (split; [reflexivity|]); cbn;
          (split; [reflexivity|]); (split; [reflexivity|]);
          first [left; reflexivity | right; repeat split; reflexivity].
      * do 2 eexists; (split; [reflexivity|]); cbn; auto.
    + do 2 eexists; (split; [reflexivity|]); auto.
  - unfold ret. do 2 eexists; (split; [reflexivity|]); auto.
Qed.

(** One iteration in either context, whatever fails: it returns, it can
    only remove the artifact of its own file and only if that file is
    confidential or restricted, and it either leaves the tables and the
    unit of work alone, or schedules the deletion of its own row, after
    the recorder has flushed the pending work when there is a request. *)
Lemma retention_body_in_effect (ctx : Context) (f : FileMetadata.t) (w : World) :
  exists w',
    body ctx f w = (Ok tt, w')
    /\ (fs w' = fs w
        \/ (classified f = true /\ fs w' = delete (FileMetadata.file_path f) (fs w)))
    /\ ((db w' = db w /\ pending w' = pending w)
        \/ (db w' = db w
            /\ pending w' = (pending w ++ [DeleteFile (FileMetadata.id f)])%list)
        \/ ((db w' = db w
             \/ exists a, flush (pending w ++ [AddAudit a]) (db w) = Some (db w'))
            /\ pending w' = [DeleteFile (FileMetadata.id f)])).
Proof.
  subst body. unfold retention_body_in, try_except. unfold bind at 1.
  destruct (removal_step f w) as [r [w1 [-> [Hdb [Hpend Hfs]]]]].
  destruct r as [[]|e].
  - unfold bind at 1. destruct ctx.
    + cbn [log_audit_event_in].
      destruct (log_audit_event_effect utcnow remote_addr user_agent es None "data_retention"
                  "file_deleted" (Some "file") (Some (FileMetadata.id f))
                  (retention_audit_details f) w1)
        as [w2 [-> [Hfs2 [_ [_ [_ [_ [_ [Hp2 Hdb2]]]]]]]]].
      unfold session_do, modify. eexists. split; [reflexivity|].
      cbn [fs db pending set_pending]. rewrite Hfs2, Hp2. split.
      * destruct Hfs as [-> | [_ [Hc ->]]]; auto.
      * right. right. split; [|reflexivity].
        destruct Hdb2 as [-> | Hfl]; [left; exact Hdb|].
        right. rewrite Hpend, Hdb in Hfl. eexists. exact Hfl.
    + cbn [log_audit_event_in]. unfold try_except, raise, logger, modify, session_do.
      eexists. split; [reflexivity|].
      cbn [fs db pending set_pending set_logs]. split.
      * destruct Hfs as [-> | [_ [Hc ->]]]; auto.
      * right. left. rewrite Hdb, Hpend. auto.
  - unfold logger, modify. eexists. split; [reflexivity|].
    cbn [fs db pending set_logs].
    destruct Hfs as [-> | [Hr _]]; [|discriminate Hr]. auto.
Qed.


(** The loop never touches a path that is not the path of a confidential
    or restricted file that it visits. *)
Lemma sweep_in_loop_frame (ctx : Context) (p : string) (l : list FileMetadata.t)
    (w : World) :
  (forall f, In f l -> classified f = true -> FileMetadata.file_path f <> p) ->
  exists w', for_each l (body ctx) w = (Ok tt, w') /\ fs w' !! p = fs w !! p.
Proof.
  revert w. induction l as [|f l IH]; intros w Hpaths.
  - exists w. split; reflexivity.
  - simpl. unfold bind.
    destruct (retention_body_in_effect ctx f w) as [w1 [-> [Hfs _]]].
    destruct (IH w1) as [w' [Hr Hl]].
    { intros f' Hf'. apply Hpaths. right. exact Hf'. }
    exists w'. split; [exact Hr|]. rewrite Hl.
    destruct Hfs as [-> | [Hc ->]]; [reflexivity|].
    apply lookup_delete_ne. apply Hpaths; [left; reflexivity | exact Hc].
Qed.


(** The whole sweep, in either context and whatever fails, touches no path
    but those of the selected confidential or restricted files. *)
Lemma sweep_in_frame (ctx : Context) (p : string) (w : World) :
  (forall f, In f (List.filter (expired utcnow) (file_metadata (db w))) ->
             classified f = true -> FileMetadata.file_path f <> p) ->
  fs (snd (sweep ctx w)) !! p = fs w !! p.
Proof.
  intros Hpaths. subst sweep. unfold apply_retention_policies_in, try_except.
  unfold bind at 1. unfold get at 1. unfold bind at 1.
  destruct (sweep_in_loop_frame ctx p _ w Hpaths) as [w1 [Hr Hfs]].
  subst body. rewrite Hr. unfold bind at 1.
  destruct (commit w1) as [r w2] eqn:Hc.
  destruct (commit_inv _ _ _ Hc) as [fl [[d [-> [Hd ->]]] | [e [-> ->]]]].
  - unfold ret. cbn [snd fs set_pending set_db set_faults]. exact Hfs.
  - unfold bind, logger, modify, ret. cbn [snd fs set_pending set_faults set_logs].
    exact Hfs.
Qed.

(** One iteration in a worker when nothing fails: the recorder fails
    outside a request and is not heard of again; the deletion of the row
    is scheduled. *)
Lemma worker_body_quiet (f : FileMetadata.t) (w : World) :
  faults w = [] ->
  exists w',
    body InWorker f w = (Ok tt, w')
    /\ db w' = db w
    /\ pending w' = (pending w ++ [DeleteFile (FileMetadata.id f)])%list
    /\ faults w' = []
    /\ logs w' = (logs w ++ [(ERROR, "Failed to log audit event")])%list
    /\ fs w' = (if classified f then delete (FileMetadata.file_path f) (fs w) else fs w).
Proof.
  intros Hf. subst body. unfold retention_body_in, try_except. unfold bind at 1.
  fold (classified f).
  assert (Hpre : exists w1,
             (if classified f
              then present <- os_path_exists (FileMetadata.file_path f) ;;
                   if present then os_remove (FileMetadata.file_path f) else ret tt
              else ret tt) w = (Ok tt, w1)
             /\ faults w1 = [] /\ pending w1 = pending w /\ db w1 = db w
             /\ logs w1 = logs w
             /\ fs w1 = (if classified f then delete (FileMetadata.file_path f) (fs w)
                         else fs w)).
  { destruct (classified f).
    - unfold bind at 1. unfold os_path_exists, bind, get, ret.
      destruct (fs w !! FileMetadata.file_path f) as [content|] eqn:E.
      + rewrite bool_decide_eq_true_2 by eauto.
        unfold os_remove, bind, get, modify. rewrite fallible_quiet by exact Hf.
        rewrite E. eexists. split; [reflexivity|]. cbn. auto.
      + rewrite bool_decide_eq_false_2 by (intros [? Hc]; discriminate Hc).
        eexists. split; [reflexivity|]. rewrite delete_id by exact E. auto.
    - unfold ret. eexists. split; [reflexivity|]. auto. }
  destruct Hpre as [w1 [-> [Hf1 [Hp1 [Hdb1 [Hl1 Hfs1]]]]]].
  unfold bind at 1. cbn [log_audit_event_in].
  unfold try_except, raise, logger, modify, session_do.
  eexists. split; [reflexivity|].
  cbn [db pending faults logs fs set_pending set_logs].
  rewrite Hdb1, Hp1, Hf1, Hl1, Hfs1. auto.
Qed.

(** The loop in a worker when nothing fails. *)
Lemma worker_loop_quiet (l : list FileMetadata.t) (w : World) :
  faults w = [] ->
  exists w',
    for_each l (body InWorker) w = (Ok tt, w')
    /\ db w' = db w
    /\ pending w' = (pending w ++ map (fun f => DeleteFile (FileMetadata.id f)) l)%list
    /\ faults w' = []
    /\ logs w'
       = (logs w ++ repeat (ERROR, "Failed to log audit event") (length l))%list
    /\ (forall p, fs w !! p = None -> fs w' !! p = None)
    /\ (forall f, In f l -> classified f = true ->
                  fs w' !! FileMetadata.file_path f = None).
Proof.
  revert w. induction l as [|f0 l IH]; intros w Hf.
  - exists w. split; [reflexivity|]. cbn [map length repeat]. rewrite !app_nil_r.
    repeat split; auto; intros ? [].
  - destruct (worker_body_quiet f0 w Hf) as [w1 [Hr1 [Hdb1 [Hp1 [Hf1 [Hl1 Hfs1]]]]]].
    destruct (IH w1 Hf1) as [w' [Hr [Hdb [Hp [Hf' [Hlog [Hnone Hcls]]]]]]].
    assert (Hnone1 : forall p, fs w !! p = None -> fs w1 !! p = None).
    { intros p Hp0. rewrite Hfs1. destruct (classified f0); [|exact Hp0].
      apply lookup_delete_None. right. exact Hp0. }
    exists w'. simpl. unfold bind. rewrite Hr1. split; [exact Hr|].
    split; [congruence|]. split.
    { rewrite Hp, Hp1, <- app_assoc. reflexivity. }
    split; [exact Hf'|]. split; [|split].
    + rewrite Hlog, Hl1, <- app_assoc. reflexivity.
    + intros p Hp0. apply Hnone, Hnone1, Hp0.
    + intros f [<- | Hin] Hc; [|exact (Hcls f Hin Hc)].
      apply Hnone. rewrite Hfs1, Hc. apply lookup_delete_eq.
Qed.

Lemma flush_delete_ids (l : list FileMetadata.t) (d : Database) :
  exists d',
    flush (map (fun f => DeleteFile (FileMetadata.id f)) l) d = Some d'
    /\ users d' = users d
    /\ audit_logs d' = audit_logs d
    /\ (forall g, In g (file_metadata d')
                  <-> In g (file_metadata d)
                      /\ ~ In (FileMetadata.id g) (map FileMetadata.id l)).
Proof.
  destruct (flush_deletes (map (fun f => DeleteFile (FileMetadata.id f)) l) d)
    as [d' [Hfl [Hu [Ha Hchar]]]].
  { apply List.Forall_forall. intros op Hop. apply in_map_iff in Hop.
    destruct Hop as [f [<- _]]. eexists. reflexivity. }
  exists d'. split; [exact Hfl|]. split; [exact Hu|]. split; [exact Ha|].
  intros g. rewrite Hchar. rewrite !in_map_iff. split; intros [Hg Hno]; (split; [exact Hg|]).
  - intros [f [Hid Hf]]. apply Hno. exists f. split; [rewrite Hid; reflexivity | exact Hf].
  - intros [f [Hid Hf]]. apply Hno. exists f. split; [congruence | exact Hf].
Qed.

(** The task as Celery runs it, when nothing fails: every selected row is
    removed and no other; no audit row is written; the artifacts of the
    selected confidential and restricted files are removed. *)
Lemma worker_sweep_quiet (w : World) :
  faults w = [] ->
  pending w = [] ->
  let selected := List.filter (expired utcnow) (file_metadata (db w)) in
  exists w',
    sweep InWorker w = (Ok (JObj [("processed", JInt (Z.of_nat (length selected)))]), w')
    /\ (forall g, In g (file_metadata (db w'))
                  <-> In g (file_metadata (db w))
                      /\ ~ In (FileMetadata.id g) (map FileMetadata.id selected))
    /\ audit_logs (db w') = audit_logs (db w)
    /\ users (db w') = users (db w)
    /\ logs w'
       = (logs w ++ repeat (ERROR, "Failed to log audit event") (length selected))%list
    /\ (forall f, In f selected -> classified f = true ->
                  fs w' !! FileMetadata.file_path f = None).
Proof.
  intros Hf Hp. cbv zeta.
  destruct (worker_loop_quiet (List.filter (expired utcnow) (file_metadata (db w))) w Hf)
    as [w1 [Hr [Hdb1 [Hp1 [Hf1 [Hlog [_ Hcls]]]]]]].
  rewrite Hp in Hp1. cbn [app] in Hp1.
  destruct (flush_delete_ids (List.filter (expired utcnow) (file_metadata (db w))) (db w1))
    as [d [Hd [Hu [Ha Hchar]]]].
  subst sweep. unfold apply_retention_policies_in, try_except.
  unfold bind at 1. unfold get at 1. unfold bind at 1. subst body. rewrite Hr.
  unfold bind at 1. rewrite (commit_quiet w1 d Hf1); [|rewrite Hp1; exact Hd].
  unfold ret. eexists. split; [reflexivity|]. cbn [db fs logs set_pending set_db].
  split; [|split; [|split; [|split]]].
  - intros g. rewrite Hchar, Hdb1. reflexivity.
  - rewrite Ha, Hdb1. reflexivity.
  - rewrite Hu, Hdb1. reflexivity.
  - exact Hlog.
  - exact Hcls.
Qed.

End SweepContexts.

(** *** Paths and identifiers of stored rows *)


Lemma chars_inj (a b : string) : PyStr.chars a = PyStr.chars b -> a = b.
Proof. intros H. rewrite <- (of_chars_chars a), <- (of_chars_chars b), H. reflexivity. Qed.



(** What [rsplit('.', 1)] returns after the cut holds no dot and is the end
    of the string. *)
Lemma rsplit_scan_Some (l suffix h t : list ascii) :
  PyStr.rsplit_scan l suffix = Some (h, t) ->
  exists pre rest,
    l = (pre ++ "."%char :: rest)%list /\ existsb PyStr.is_dot pre = false
    /\ t = (rev pre ++ suffix)%list.
Proof.
  revert suffix. induction l as [|c l IH]; intros suffix H; [discriminate H|].
  cbn [PyStr.rsplit_scan] in H. destruct (PyStr.is_dot c) eqn:E.
  - inversion H; subst. unfold PyStr.is_dot in E. apply Ascii.eqb_eq in E. subst c.
    exists [], l. auto.
  - destruct (IH _ H) as [pre [rest [-> [Hpre ->]]]].
    exists (c :: pre), rest. cbn [app existsb rev]. rewrite E, Hpre, <- app_assoc. auto.
Qed.

Lemma lower_ascii_slash (c : ascii) :
  PyStr.is_slash (PyStr.lower_ascii c) = PyStr.is_slash c.
Proof. destruct c as [[] [] [] [] [] [] [] []]; reflexivity. Qed.

Lemma lower_no_slash (s : string) : no_slash (PyStr.lower s) = no_slash s.
Proof.
  unfold no_slash, PyStr.lower. rewrite chars_of_chars. f_equal.
  induction (PyStr.chars s) as [|c l IH]; [reflexivity|].
  simpl. rewrite lower_ascii_slash, IH. reflexivity.
Qed.

(** The extension derived from a stored name holds no dot, and no slash if
    the name holds none. *)
Lemma file_extension_of_shape (s : string) :
  PyStr.contains_dot (file_extension_of s) = false
  /\ (no_slash s = true -> no_slash (file_extension_of s) = true).
Proof.
  unfold file_extension_of. destruct (PyStr.contains_dot s); [|split; reflexivity].
  unfold PyStr.rsplit_dot.
  destruct (PyStr.rsplit_scan (rev (PyStr.chars s)) []) as [[h t]|] eqn:E;
    [|split; reflexivity].
  destruct (rsplit_scan_Some _ _ _ _ E) as [pre [rest [Hl [Hpre ->]]]].
  rewrite app_nil_r. split.
  - rewrite lower_contains_dot. unfold PyStr.contains_dot.
    rewrite chars_of_chars, existsb_rev. exact Hpre.
  - intros Hs. rewrite lower_no_slash. unfold no_slash in Hs |- *.
    rewrite chars_of_chars, existsb_rev. apply negb_true_iff in Hs.
    rewrite <- existsb_rev, Hl, existsb_app in Hs. apply orb_false_iff in Hs.
    rewrite (proj1 Hs). reflexivity.
Qed.

Lemma string_app_assoc (a b c : string) : (a ++ b) ++ c = a ++ b ++ c.
Proof. apply chars_inj. rewrite !chars_app. symmetry. apply List.app_assoc. Qed.

Lemma no_slash_not_absolute (fid rest : string) :
  no_slash fid = true -> PyStr.starts_with_slash (fid ++ "." ++ rest) = false.
Proof.
  destruct fid as [|c fid]; [reflexivity|].
  unfold no_slash. cbn. intros H. apply negb_true_iff, orb_false_iff in H. exact (proj1 H).
Qed.

(** The row that the upload route builds is stored under its identifier,
    for identifiers and stored names without a slash, as [uuid.uuid4] and
    [secure_filename] give them. *)
Lemma uploaded_row_stored
    (utcnow : datetime) (RETENTION_POLICY_DAYS : Z) (uuid4 : nat -> string)
    (secure_filename : string -> string) (guess_type : string -> option string)
    (uid org folder_path classification category : string) (tags : list string)
    (file : FileStorage) (w : World) :
  (forall n, no_slash (uuid4 n) = true) ->
  (forall s, no_slash (secure_filename s) = true) ->
  stored_by_upload
    (uploaded_row utcnow RETENTION_POLICY_DAYS uuid4 secure_filename guess_type
                  uid org folder_path classification category tags file w).
Proof.
  intros Huuid Hsec. unfold stored_by_upload, uploaded_row.
  cbn [FileMetadata.file_path FileMetadata.id FileMetadata.file_type].
  set (fid := uuid4 (uuid_ctr w)).
  set (ext := file_extension_of (secure_filename (filename file))).
  destruct (file_extension_of_shape (secure_filename (filename file))) as [Hdot Hslash].
  fold ext in Hdot, Hslash. specialize (Hslash (Hsec _)).
  assert (Hshape : exists folder,
            PyStr.path_join (upload_path_of folder_path) (fid ++ "." ++ ext)
            = folder ++ "/" ++ fid ++ "." ++ ext).
  { unfold PyStr.path_join. rewrite (no_slash_not_absolute fid ext (Huuid _)).
    rewrite upload_path_under_folder.
    set (a := UPLOAD_FOLDER ++ "/" ++ PyStr.strip_slash folder_path).
    assert (Ha : String.eqb a "" = false) by reflexivity. rewrite Ha. cbn [orb].
    destruct (PyStr.ends_with_slash a) eqn:E.
    - destruct (ends_with_slash_split a E) as [a' ->]. exists a'.
      apply string_app_assoc.
    - exists a. reflexivity. }
  destruct Hshape as [folder Hshape]. exists folder.
  split; [exact Hshape|]. split; [apply Huuid|]. split; [exact Hslash | exact Hdot].
Qed.

(** Every row that a successful loop has added is the row built for one of
    the files, in the world met by its iteration. *)
Lemma upload_loop_rows
    (utcnow : datetime) (remote_addr : string) (user_agent : option string) (es : bool)
    (RETENTION_POLICY_DAYS : Z) (uuid4 : nat -> string)
    (secure_filename : string -> string) (guess_type : string -> option string)
    (user : option User.t) (folder_path classification category : string)
    (tags : list string) (files : list FileStorage) (acc acc' : list json) (w w' : World) :
  upload_loop utcnow remote_addr user_agent es RETENTION_POLICY_DAYS uuid4 secure_filename
              guess_type user folder_path classification category tags files acc w
  = (Ok (upload_success acc'), w') ->
  pending w = [] ->
  forall f, In f (file_metadata (db w')) ->
    In f (file_metadata (db w))
    \/ exists uid org file w0,
         f = uploaded_row utcnow RETENTION_POLICY_DAYS uuid4 secure_filename guess_type
                          uid org folder_path classification category tags file w0.
Proof.
  revert acc w. induction files as [|file rest IH]; intros acc w H Hp f Hin.
  - simpl in H. unfold ret in H. inversion H; subst. left. exact Hin.
  - simpl in H. destruct (String.eqb (filename file) "").
    { exact (IH acc w H Hp f Hin). }
    destruct (negb (allowed_file (filename file))).
    { unfold ret in H. inversion H. }
    apply bind_Ok in H. destruct H as [summary [w1 [H1 H]]].
    destruct (upload_one_Ok _ _ _ _ _ _ _ _ _ _ _ _ _ _ _ _ _ H1 Hp)
      as [u [org [_ [_ Hrow]]]].
    cbv zeta in Hrow. destruct Hrow as [_ [_ [Hfm [_ [_ [_ [Hp1 _]]]]]]].
    destruct (IH _ w1 H Hp1 f Hin) as [Hold | Hnew]; [|right; exact Hnew].
    rewrite Hfm in Hold. apply in_app_or in Hold. destruct Hold as [Hold | [<- | []]].
    + left. exact Hold.
    + right. do 4 eexists. reflexivity.
Qed.

(** The upload route keeps the rows stored under their identifiers; with
    unique identifiers the recorded paths are then distinct. *)
Lemma upload_keeps_rows_stored
    (utcnow : datetime) (remote_addr : string) (user_agent : option string)
    (is_json es : bool) (RETENTION_POLICY_DAYS : Z) (uuid4 : nat -> string)
    (secure_filename : string -> string) (guess_type : string -> option string)
    (request : UploadRequest) (w w' : World) (summaries : list json) :
  (forall n, no_slash (uuid4 n) = true) ->
  (forall s, no_slash (secure_filename s) = true) ->
  upload_file utcnow remote_addr user_agent is_json es RETENTION_POLICY_DAYS uuid4
              secure_filename guess_type request w
  = (Ok (upload_success summaries), w') ->
  pending w = [] ->
  (forall f, In f (file_metadata (db w)) -> stored_by_upload f) ->
  forall f, In f (file_metadata (db w')) -> stored_by_upload f.
Proof.
  intros Huuid Hsec H Hp Hold f Hin.
  destruct (upload_file_success _ _ _ _ _ _ _ _ _ _ _ _ _ H)
    as [uid [user [files [_ [_ [_ Hloop]]]]]].
  unfold route_loop in Hloop.
  destruct (upload_loop_rows _ _ _ _ _ _ _ _ _ _ _ _ _ _ _ _ _ _ Hloop Hp f Hin)
    as [Hf | [u [org [file [w0 ->]]]]].
  - exact (Hold f Hf).
  - apply uploaded_row_stored; assumption.
Qed.




(** C5 on the code.  For a selected file whose classification is neither
    [confidential] nor [restricted] the sweep does nothing to the artifact:
    in a worker as in a request, and whatever fails, the bytes stay where
    they are, neither archived nor deleted, and when nothing fails the task
    removes the metadata row all the same.  Run as the Celery task, the
    recorder fails outside a request: the rows of all the selected files
    are removed and the artifacts of the confidential and restricted ones
    too, with one error in the log for each and no [file_deleted] audit
    entry at all. *)
Theorem sweep_leaves_unclassified_artifacts
    (utcnow : datetime) (remote_addr : string) (user_agent : option string) (es : bool)
    (w : World) (f : FileMetadata.t) (content : list byte) :
  pending w = [] ->
  In f (file_metadata (db w)) ->
  expired utcnow f = true ->
  classified f = false ->
  fs w !! FileMetadata.file_path f = Some content ->
  (forall g, In g (file_metadata (db w)) -> expired utcnow g = true ->
             classified g = true -> FileMetadata.file_path g <> FileMetadata.file_path f) ->
  let selected := List.filter (expired utcnow) (file_metadata (db w)) in
  (forall ctx,
     fs (snd (apply_retention_policies_in utcnow remote_addr user_agent es ctx w))
        !! FileMetadata.file_path f = Some content)
  /\ (faults w = [] ->
      exists w',
        apply_retention_policies_in utcnow remote_addr user_agent es InWorker w
        = (Ok (JObj [("processed", JInt (Z.of_nat (length selected)))]), w')
        /\ ~ In f (file_metadata (db w'))
        /\ fs w' !! FileMetadata.file_path f = Some content
        /\ (forall g, In g selected -> ~ In g (file_metadata (db w')))
        /\ (forall g, In g selected -> classified g = true ->
                      fs w' !! FileMetadata.file_path g = None)
        /\ audit_logs (db w') = audit_logs (db w)
        /\ logs w'
           = (logs w ++ repeat (ERROR, "Failed to log audit event") (length selected))%list).
Proof.
  intros Hp Hin Hexp Hcls Hfs Hpaths. cbv zeta.
  assert (Hframe : forall ctx,
            fs (snd (apply_retention_policies_in utcnow remote_addr user_agent es ctx w))
               !! FileMetadata.file_path f = Some content).
  { intros ctx. rewrite <- Hfs. apply sweep_in_frame. intros g Hg Hc.
    apply filter_In in Hg. destruct Hg as [Hg Hgexp]. exact (Hpaths g Hg Hgexp Hc). }
  split; [exact Hframe|]. intros Hf.
  destruct (worker_sweep_quiet utcnow remote_addr user_agent es w Hf Hp)
    as [w' [Hr [Hrows [Haud [_ [Hlogs Hgone]]]]]].
  assert (Hremoved : forall g,
            In g (List.filter (expired utcnow) (file_metadata (db w))) ->
            ~ In g (file_metadata (db w'))).
  { intros g Hg Hc. apply Hrows in Hc. destruct Hc as [_ Hc]. apply Hc.
    apply in_map. exact Hg. }
  exists w'. split; [exact Hr|]. split.
  { apply Hremoved. apply filter_In. auto. }
  split.
  { specialize (Hframe InWorker). rewrite Hr in Hframe. exact Hframe. }
  split; [exact Hremoved|]. split; [exact Hgone|]. split; [exact Haud | exact Hlogs].
Qed.

Lemma sweep_leaves_unclassified_artifacts_witness :
  (forall ctx,
     fs (snd (apply_retention_policies_in 1000%Z "10.0.0.1" None true ctx (sweep_world [])))
        !! FileMetadata.file_path internal_file = Some (bytes_of_string "abc"))
  /\ exists w',
       apply_retention_policies_in 1000%Z "10.0.0.1" None true InWorker (sweep_world [])
       = (Ok (JObj [("processed", JInt 2)]), w')
       /\ file_metadata (db w') = [held_file]
       /\ fs w' !! FileMetadata.file_path internal_file = Some (bytes_of_string "abc")
       /\ fs w' !! FileMetadata.file_path restricted_file = None
       /\ audit_logs (db w') = [].
Proof.
  destruct (sweep_leaves_unclassified_artifacts 1000%Z "10.0.0.1" None true
              (sweep_world []) internal_file (bytes_of_string "abc"))
    as [Hany Hworker].
  - reflexivity.
  - right. right. left. reflexivity.
  - reflexivity.
  - reflexivity.
  - reflexivity.
  - intros g [<- | [<- | [<- | []]]] Hexp Hc; try discriminate.
  - split; [exact Hany|].
    destruct (Hworker eq_refl) as [w' [Hr [_ [Hfs [_ [Hgone [Haud _]]]]]]].
    exists w'. split; [exact Hr|].
    split.
    { replace w' with (snd (apply_retention_policies_in 1000%Z "10.0.0.1" None true
                              InWorker (sweep_world [])))
        by (rewrite Hr; reflexivity).
      vm_compute. reflexivity. }
    split; [exact Hfs|].
    split; [apply Hgone; [vm_compute; left; reflexivity | reflexivity]|].
    exact Haud.
Defined.
